(** * GenomeEngine: command-list state machine, texture layouts and
      frame orchestration of the renderer

    A shallow embedding of the Vulkan command list
    ([Runtime/RHI/Vulkan/Vulkan_CommandList.cpp], [RHI_CommandList::Wait]
    and [Flush]), of [RHI_Texture::SetLayout] and of the frame logic of
    [Renderer] ([OnTick], [update_dynamic_buffer], [OnRenderablesAcquire],
    [RenderablesSort]).

    Conventions.
    - Unsigned 32-bit values are integers in [Z] reduced with [u32].
    - A pointer is an [option]: [None] is [nullptr].  Textures live in a
      store indexed by handle, so that two references to one texture see
      the same per-mip layouts.
    - A call either returns ([Ok]) or stops the program ([Fault]): a failed
      [SP_ASSERT], a null dereference, an array access out of range.
    - Calls into the driver whose outcome the program cannot decide are
      answered by a [Driver] record.
    - [float] values only travel through the code or are compared; they are
      represented by exact integers in thousandths (1.0f is [1000]).
      Rounding, infinities and NaN are outside the model. *)

From Stdlib Require Import ZArith Bool List Lia Permutation Sorted.
From stdpp Require Import base option strings gmap list.

Local Open Scope Z_scope.

(** ** Faults and the result monad *)

Inductive Abort : Type :=
| AssertFail
| NullDeref
| OutOfBounds
| DivideByZero.

Inductive Result (A : Type) : Type :=
| Ok (a : A)
| Fault (e : Abort).

Arguments Ok {A} a.
Arguments Fault {A} e.

#[global] Instance Result_ret : MRet Result := fun _ a => Ok a.
#[global] Instance Result_bind : MBind Result := fun _ _ k m =>
  match m with
  | Ok a => k a
  | Fault e => Fault e
  end.

Definition SP_ASSERT (b : bool) : Result unit :=
  if b then Ok tt else Fault AssertFail.

Definition deref {A : Type} (p : option A) : Result A :=
  match p with
  | Some a => Ok a
  | None => Fault NullDeref
  end.

Definition is_ok {A : Type} (r : Result A) : bool :=
  match r with
  | Ok _ => true
  | Fault _ => false
  end.

Definition u32 (x : Z) : Z := x mod 2 ^ 32.
Definition u64 (x : Z) : Z := x mod 2 ^ 64.

Definition float : Type := Z.
Definition Vector2 : Type := (float * float)%type.
Definition Vector3 : Type := (float * float * float)%type.
Definition Vector4 : Type := (float * float * float * float)%type.
Definition Matrix : Type := list float.

(** [std::array<T, N>] read and written by index: outside the array the
    behaviour is undefined, which is a [Fault] here. *)
Definition array_get {A : Type} (a : list A) (i : Z) : Result A :=
  if i <? 0 then Fault OutOfBounds
  else match a !! Z.to_nat i with
       | Some x => Ok x
       | None => Fault OutOfBounds
       end.

Fixpoint array_fill {A : Type} (a : list A) (start : nat) (count : nat) (x : A)
  : Result (list A) :=
  match count with
  | O => Ok a
  | S n =>
      if decide (start < length a)%nat
      then array_fill (<[start := x]> a) (S start) n x
      else Fault OutOfBounds
  end.

(** ** Image layouts and textures *)

Inductive RHI_Image_Layout : Type :=
| Undefined
| General
| Preinitialized
| Color_Attachment_Optimal
| Depth_Stencil_Attachment_Optimal
| Depth_Stencil_Read_Only_Optimal
| Shader_Read_Only_Optimal
| Transfer_Src_Optimal
| Transfer_Dst_Optimal.

#[global] Instance RHI_Image_Layout_eq_dec : EqDecision RHI_Image_Layout.
Proof. solve_decision. Defined.

(** The texture fields the command list reads.  The format and bind
    predicates ([IsColorFormat], [IsSrv], [HasPerMipView], ...) are queries
    on flags of the texture; each is a field here. *)
Record RHI_Texture : Type := mkTexture {
  m_layout : list RHI_Image_Layout;   (* std::array<RHI_Image_Layout, 12> *)
  m_mip_count : Z;
  m_array_length : Z;
  m_width : Z;
  m_height : Z;
  m_format : Z;
  m_texture_resource : bool;          (* GetResource() != nullptr *)
  m_resource_view_srv : bool;         (* GetResource_View_Srv() != nullptr *)
  HasPerMipView : bool;
  IsSrv : bool;
  IsUav : bool;
  IsDepthFormat : bool;
  IsStencilFormat : bool;
  CanBeCleared : bool
}.

(* RHI_Texture.h: bool IsColorFormat() const { return !IsDepthFormat(); } *)
Definition IsColorFormat (t : RHI_Texture) : bool := negb (IsDepthFormat t).
Definition IsDepthStencilFormat (t : RHI_Texture) : bool :=
  IsDepthFormat t || IsStencilFormat t.

Definition GetLayout (t : RHI_Texture) (mip : Z) : Result RHI_Image_Layout :=
  array_get (m_layout t) mip.

(** ** Pipeline state

    [clear_color], [clear_depth] and [clear_stencil] hold either a value or
    one of the sentinels [rhi_*_load] and [rhi_*_dont_care]; the sentinels
    are constructors of [Clear]. *)

Inductive Clear (A : Type) : Type :=
| rhi_load
| rhi_dont_care
| clear_to (a : A).

Arguments rhi_load {A}.
Arguments rhi_dont_care {A}.
Arguments clear_to {A} a.

Definition is_load {A : Type} (c : Clear A) : bool :=
  match c with rhi_load => true | _ => false end.
Definition is_dont_care {A : Type} (c : Clear A) : bool :=
  match c with rhi_dont_care => true | _ => false end.

Record RHI_PipelineState : Type := mkPipelineState {
  pass_name : option string;
  render_target_color_textures : list (option nat); (* array of rhi_max_render_target_count *)
  render_target_depth_texture : option nat;
  render_target_swapchain : bool;                   (* != nullptr *)
  clear_color : list (Clear Vector4);               (* array of rhi_max_render_target_count *)
  clear_depth : Clear float;
  clear_stencil : Clear Z;
  IsCompute : bool;
  GetRenderPass : bool;                             (* != nullptr *)
  GetFrameBuffer : bool;                            (* != nullptr *)
  GetWidth : Z;
  GetHeight : Z;
  profile : bool;
  mark : bool
}.

(** Modelled from the spec: [RHI_PipelineState::HasClearValues] is declared
    outside src/.  The pipeline state carries a "clear policy per target";
    it has clear values when some target is to be cleared to a value. *)
Definition is_clear_to {A : Type} (c : Clear A) : bool :=
  match c with clear_to _ => true | _ => false end.

Definition HasClearValues (ps : RHI_PipelineState) : bool :=
  is_clear_to (clear_depth ps) || is_clear_to (clear_stencil ps)
  || existsb is_clear_to (clear_color ps).

(** ** What a command list records *)

Inductive VkClearValue : Type :=
| ClearValue_color (c : Clear Vector4)
| ClearValue_depthStencil (depth : Clear float) (stencil : Clear Z).

Record VkClearAttachment : Type := mkClearAttachment {
  aspect_color : bool;
  aspect_depth : bool;
  aspect_stencil : bool;
  colorAttachment : Z;
  clearValue : VkClearValue
}.

Inductive VkCmd : Type :=
| vkCmdResetQueryPool
| vkCmdBeginRenderPass (clear_values : list VkClearValue) (width height : Z)
| vkCmdEndRenderPass
| vkCmdClearAttachments (attachments : list VkClearAttachment) (width height : Z)
| vkCmdClearColorImage (image : nat) (color : Clear Vector4)
| vkCmdClearDepthStencilImage (image : nat) (depth : Clear float) (stencil : Clear Z)
    (aspect_depth : bool)
| vkCmdDraw (vertex_count : Z)
| vkCmdDrawIndexed (index_count index_offset vertex_offset : Z)
| vkCmdDispatch (x y z : Z)
| vkCmdBlitImage (source destination : nat)
| vkCmdSetViewport (x y width height : float)
| vkCmdSetScissor (left top width height : float)
| vkCmdBindVertexBuffers (buffer : Z) (offset : Z)
| vkCmdBindIndexBuffer (buffer : Z) (offset : Z) (is_16bit : bool)
| vkCmdWriteTimestamp (query : Z)
| vkCmdBindPipeline (compute : bool)
| vkCmdBindDescriptorSets (compute : bool)
| vkCmdPipelineBarrier (image : nat) (mip_start mip_range array_length : Z)
    (old_layout new_layout : RHI_Image_Layout)
| marker_begin (name : string)
| marker_end.

Inductive LogEntry : Type :=
| LOG_ERROR (msg : string)
| LOG_WARNING (msg : string)
| LOG_INFO (msg : string).

(** ** Command list *)

Inductive RHI_CommandListState : Type :=
| Idle
| Recording
| Ended
| Submitted.

#[global] Instance RHI_CommandListState_eq_dec : EqDecision RHI_CommandListState.
Proof. solve_decision. Defined.

Inductive RHI_Semaphore_State : Type :=
| Semaphore_Idle
| Semaphore_Signaled.

#[global] Instance RHI_Semaphore_State_eq_dec : EqDecision RHI_Semaphore_State.
Proof. solve_decision. Defined.

(** [m_pipeline] points to a pipeline object whose [GetPipelineState()] and
    [GetPipeline()] may each be null. *)
Record RHI_Pipeline : Type := mkPipeline {
  GetPipelineState : option RHI_PipelineState;
  GetPipeline : bool                                 (* VkPipeline != null *)
}.

Record RHI_CommandList : Type := mkCommandList {
  m_state : RHI_CommandListState;
  m_resource : bool;                                 (* command buffer != nullptr *)
  m_query_pool : bool;
  m_flushed : bool;
  m_discard : bool;
  m_render_pass_active : bool;
  m_pipeline_active : bool;
  m_pipeline : option RHI_Pipeline;
  m_pipeline_state : option RHI_PipelineState;
  m_vertex_buffer_id : Z;
  m_vertex_buffer_offset : Z;
  m_index_buffer_id : Z;
  m_index_buffer_offset : Z;
  m_timestamp_index : Z;
  m_processed_semaphore : RHI_Semaphore_State;
  recorded : list VkCmd;                             (* the Vulkan command buffer *)
  submissions : nat;                                 (* ghost: QueueSubmit calls that succeeded *)
  flushes : nat                                      (* ghost: calls of Flush *)
}.

Definition set_m_state v (r : RHI_CommandList) : RHI_CommandList :=
  mkCommandList v (m_resource r) (m_query_pool r) (m_flushed r) (m_discard r) (m_render_pass_active r) (m_pipeline_active r) (m_pipeline r) (m_pipeline_state r) (m_vertex_buffer_id r) (m_vertex_buffer_offset r) (m_index_buffer_id r) (m_index_buffer_offset r) (m_timestamp_index r) (m_processed_semaphore r) (recorded r) (submissions r) (flushes r).

Definition set_m_flushed v (r : RHI_CommandList) : RHI_CommandList :=
  mkCommandList (m_state r) (m_resource r) (m_query_pool r) v (m_discard r) (m_render_pass_active r) (m_pipeline_active r) (m_pipeline r) (m_pipeline_state r) (m_vertex_buffer_id r) (m_vertex_buffer_offset r) (m_index_buffer_id r) (m_index_buffer_offset r) (m_timestamp_index r) (m_processed_semaphore r) (recorded r) (submissions r) (flushes r).

Definition set_m_discard v (r : RHI_CommandList) : RHI_CommandList :=
  mkCommandList (m_state r) (m_resource r) (m_query_pool r) (m_flushed r) v (m_render_pass_active r) (m_pipeline_active r) (m_pipeline r) (m_pipeline_state r) (m_vertex_buffer_id r) (m_vertex_buffer_offset r) (m_index_buffer_id r) (m_index_buffer_offset r) (m_timestamp_index r) (m_processed_semaphore r) (recorded r) (submissions r) (flushes r).

Definition set_m_render_pass_active v (r : RHI_CommandList) : RHI_CommandList :=
  mkCommandList (m_state r) (m_resource r) (m_query_pool r) (m_flushed r) (m_discard r) v (m_pipeline_active r) (m_pipeline r) (m_pipeline_state r) (m_vertex_buffer_id r) (m_vertex_buffer_offset r) (m_index_buffer_id r) (m_index_buffer_offset r) (m_timestamp_index r) (m_processed_semaphore r) (recorded r) (submissions r) (flushes r).

Definition set_m_pipeline_active v (r : RHI_CommandList) : RHI_CommandList :=
  mkCommandList (m_state r) (m_resource r) (m_query_pool r) (m_flushed r) (m_discard r) (m_render_pass_active r) v (m_pipeline r) (m_pipeline_state r) (m_vertex_buffer_id r) (m_vertex_buffer_offset r) (m_index_buffer_id r) (m_index_buffer_offset r) (m_timestamp_index r) (m_processed_semaphore r) (recorded r) (submissions r) (flushes r).

Definition set_m_pipeline v (r : RHI_CommandList) : RHI_CommandList :=
  mkCommandList (m_state r) (m_resource r) (m_query_pool r) (m_flushed r) (m_discard r) (m_render_pass_active r) (m_pipeline_active r) v (m_pipeline_state r) (m_vertex_buffer_id r) (m_vertex_buffer_offset r) (m_index_buffer_id r) (m_index_buffer_offset r) (m_timestamp_index r) (m_processed_semaphore r) (recorded r) (submissions r) (flushes r).

Definition set_m_pipeline_state v (r : RHI_CommandList) : RHI_CommandList :=
  mkCommandList (m_state r) (m_resource r) (m_query_pool r) (m_flushed r) (m_discard r) (m_render_pass_active r) (m_pipeline_active r) (m_pipeline r) v (m_vertex_buffer_id r) (m_vertex_buffer_offset r) (m_index_buffer_id r) (m_index_buffer_offset r) (m_timestamp_index r) (m_processed_semaphore r) (recorded r) (submissions r) (flushes r).

Definition set_m_vertex_buffer_id v (r : RHI_CommandList) : RHI_CommandList :=
  mkCommandList (m_state r) (m_resource r) (m_query_pool r) (m_flushed r) (m_discard r) (m_render_pass_active r) (m_pipeline_active r) (m_pipeline r) (m_pipeline_state r) v (m_vertex_buffer_offset r) (m_index_buffer_id r) (m_index_buffer_offset r) (m_timestamp_index r) (m_processed_semaphore r) (recorded r) (submissions r) (flushes r).

Definition set_m_vertex_buffer_offset v (r : RHI_CommandList) : RHI_CommandList :=
  mkCommandList (m_state r) (m_resource r) (m_query_pool r) (m_flushed r) (m_discard r) (m_render_pass_active r) (m_pipeline_active r) (m_pipeline r) (m_pipeline_state r) (m_vertex_buffer_id r) v (m_index_buffer_id r) (m_index_buffer_offset r) (m_timestamp_index r) (m_processed_semaphore r) (recorded r) (submissions r) (flushes r).

Definition set_m_index_buffer_id v (r : RHI_CommandList) : RHI_CommandList :=
  mkCommandList (m_state r) (m_resource r) (m_query_pool r) (m_flushed r) (m_discard r) (m_render_pass_active r) (m_pipeline_active r) (m_pipeline r) (m_pipeline_state r) (m_vertex_buffer_id r) (m_vertex_buffer_offset r) v (m_index_buffer_offset r) (m_timestamp_index r) (m_processed_semaphore r) (recorded r) (submissions r) (flushes r).

Definition set_m_index_buffer_offset v (r : RHI_CommandList) : RHI_CommandList :=
  mkCommandList (m_state r) (m_resource r) (m_query_pool r) (m_flushed r) (m_discard r) (m_render_pass_active r) (m_pipeline_active r) (m_pipeline r) (m_pipeline_state r) (m_vertex_buffer_id r) (m_vertex_buffer_offset r) (m_index_buffer_id r) v (m_timestamp_index r) (m_processed_semaphore r) (recorded r) (submissions r) (flushes r).

Definition set_m_timestamp_index v (r : RHI_CommandList) : RHI_CommandList :=
  mkCommandList (m_state r) (m_resource r) (m_query_pool r) (m_flushed r) (m_discard r) (m_render_pass_active r) (m_pipeline_active r) (m_pipeline r) (m_pipeline_state r) (m_vertex_buffer_id r) (m_vertex_buffer_offset r) (m_index_buffer_id r) (m_index_buffer_offset r) v (m_processed_semaphore r) (recorded r) (submissions r) (flushes r).

Definition set_m_processed_semaphore v (r : RHI_CommandList) : RHI_CommandList :=
  mkCommandList (m_state r) (m_resource r) (m_query_pool r) (m_flushed r) (m_discard r) (m_render_pass_active r) (m_pipeline_active r) (m_pipeline r) (m_pipeline_state r) (m_vertex_buffer_id r) (m_vertex_buffer_offset r) (m_index_buffer_id r) (m_index_buffer_offset r) (m_timestamp_index r) v (recorded r) (submissions r) (flushes r).

Definition set_recorded v (r : RHI_CommandList) : RHI_CommandList :=
  mkCommandList (m_state r) (m_resource r) (m_query_pool r) (m_flushed r) (m_discard r) (m_render_pass_active r) (m_pipeline_active r) (m_pipeline r) (m_pipeline_state r) (m_vertex_buffer_id r) (m_vertex_buffer_offset r) (m_index_buffer_id r) (m_index_buffer_offset r) (m_timestamp_index r) (m_processed_semaphore r) v (submissions r) (flushes r).

Definition set_submissions v (r : RHI_CommandList) : RHI_CommandList :=
  mkCommandList (m_state r) (m_resource r) (m_query_pool r) (m_flushed r) (m_discard r) (m_render_pass_active r) (m_pipeline_active r) (m_pipeline r) (m_pipeline_state r) (m_vertex_buffer_id r) (m_vertex_buffer_offset r) (m_index_buffer_id r) (m_index_buffer_offset r) (m_timestamp_index r) (m_processed_semaphore r) (recorded r) v (flushes r).

Definition set_flushes v (r : RHI_CommandList) : RHI_CommandList :=
  mkCommandList (m_state r) (m_resource r) (m_query_pool r) (m_flushed r) (m_discard r) (m_render_pass_active r) (m_pipeline_active r) (m_pipeline r) (m_pipeline_state r) (m_vertex_buffer_id r) (m_vertex_buffer_offset r) (m_index_buffer_id r) (m_index_buffer_offset r) (m_timestamp_index r) (m_processed_semaphore r) (recorded r) (submissions r) v.

(** ** The objects a command list works on

    Modelled from the spec: [RHI_DescriptorSetLayoutCache] is declared
    outside src/.  It holds the descriptor-set layout of the pipeline state
    of the current render pass (none before the first pass) and, per slot,
    the resource bound last. *)

Record TextureBinding : Type := mkTextureBinding {
  bound_texture : option nat;
  bound_mip : Z;
  bound_ranged : bool
}.

Record RHI_DescriptorSetLayoutCache : Type := mkCache {
  GetCurrentDescriptorSetLayout : bool;              (* != nullptr *)
  bound_textures : gmap Z TextureBinding;
  bound_constant_buffers : gmap Z (option nat);
  bound_samplers : gmap Z (option nat);
  bound_structured_buffers : gmap Z (option nat)
}.

Record Profiler : Type := mkProfiler {
  m_rhi_draw : Z;
  m_rhi_dispatch : Z;
  m_rhi_bindings_buffer_vertex : Z;
  m_rhi_bindings_buffer_index : Z;
  m_rhi_bindings_pipeline : Z;
  m_rhi_bindings_descriptor_set : Z;
  m_rhi_pipeline_barriers : Z
}.

(** The resources of the renderer that [SetGlobalShaderResources] and
    [SetTexture] reach through [m_renderer], with the slot numbers of
    [RendererBindings_Cb] and [RendererBindings_Srv]. *)
Record RendererResources : Type := mkResources {
  m_cb_frame_gpu : option nat;
  m_cb_uber_gpu : option nat;
  m_cb_light_gpu : option nat;
  m_cb_material_gpu : option nat;
  m_samplers : list (option nat);                    (* slots 0 .. 6, in order *)
  m_tex_default_noise_normal : option nat;
  m_tex_default_noise_blue : option nat;
  m_tex_default_transparent : option nat;
  RendererBindings_Cb_frame : Z;
  RendererBindings_Cb_uber : Z;
  RendererBindings_Cb_light : Z;
  RendererBindings_Cb_material : Z;
  RendererBindings_Srv_noise_normal : Z;
  RendererBindings_Srv_noise_blue : Z
}.

Record World : Type := mkWorld {
  cmd : RHI_CommandList;                             (* *this *)
  textures : gmap nat RHI_Texture;
  cache : RHI_DescriptorSetLayoutCache;
  profiler : Profiler;
  log : list LogEntry;
  resources : RendererResources;
  PresentEnabled : bool                              (* of the swap chain *)
}.

Definition set_cmd v (r : World) : World :=
  mkWorld v (textures r) (cache r) (profiler r) (log r) (resources r) (PresentEnabled r).

Definition set_textures v (r : World) : World :=
  mkWorld (cmd r) v (cache r) (profiler r) (log r) (resources r) (PresentEnabled r).

Definition set_cache v (r : World) : World :=
  mkWorld (cmd r) (textures r) v (profiler r) (log r) (resources r) (PresentEnabled r).

Definition set_profiler v (r : World) : World :=
  mkWorld (cmd r) (textures r) (cache r) v (log r) (resources r) (PresentEnabled r).

Definition set_log v (r : World) : World :=
  mkWorld (cmd r) (textures r) (cache r) (profiler r) v (resources r) (PresentEnabled r).

Definition set_resources v (r : World) : World :=
  mkWorld (cmd r) (textures r) (cache r) (profiler r) (log r) v (PresentEnabled r).

Definition set_PresentEnabled v (r : World) : World :=
  mkWorld (cmd r) (textures r) (cache r) (profiler r) (log r) (resources r) v.

Definition set_GetCurrentDescriptorSetLayout v (r : RHI_DescriptorSetLayoutCache) : RHI_DescriptorSetLayoutCache :=
  mkCache v (bound_textures r) (bound_constant_buffers r) (bound_samplers r) (bound_structured_buffers r).

Definition set_bound_textures v (r : RHI_DescriptorSetLayoutCache) : RHI_DescriptorSetLayoutCache :=
  mkCache (GetCurrentDescriptorSetLayout r) v (bound_constant_buffers r) (bound_samplers r) (bound_structured_buffers r).

Definition set_bound_constant_buffers v (r : RHI_DescriptorSetLayoutCache) : RHI_DescriptorSetLayoutCache :=
  mkCache (GetCurrentDescriptorSetLayout r) (bound_textures r) v (bound_samplers r) (bound_structured_buffers r).

Definition set_bound_samplers v (r : RHI_DescriptorSetLayoutCache) : RHI_DescriptorSetLayoutCache :=
  mkCache (GetCurrentDescriptorSetLayout r) (bound_textures r) (bound_constant_buffers r) v (bound_structured_buffers r).

Definition set_bound_structured_buffers v (r : RHI_DescriptorSetLayoutCache) : RHI_DescriptorSetLayoutCache :=
  mkCache (GetCurrentDescriptorSetLayout r) (bound_textures r) (bound_constant_buffers r) (bound_samplers r) v.

Definition set_m_rhi_draw v (r : Profiler) : Profiler :=
  mkProfiler v (m_rhi_dispatch r) (m_rhi_bindings_buffer_vertex r) (m_rhi_bindings_buffer_index r) (m_rhi_bindings_pipeline r) (m_rhi_bindings_descriptor_set r) (m_rhi_pipeline_barriers r).

Definition set_m_rhi_dispatch v (r : Profiler) : Profiler :=
  mkProfiler (m_rhi_draw r) v (m_rhi_bindings_buffer_vertex r) (m_rhi_bindings_buffer_index r) (m_rhi_bindings_pipeline r) (m_rhi_bindings_descriptor_set r) (m_rhi_pipeline_barriers r).

Definition set_m_rhi_bindings_buffer_vertex v (r : Profiler) : Profiler :=
  mkProfiler (m_rhi_draw r) (m_rhi_dispatch r) v (m_rhi_bindings_buffer_index r) (m_rhi_bindings_pipeline r) (m_rhi_bindings_descriptor_set r) (m_rhi_pipeline_barriers r).

Definition set_m_rhi_bindings_buffer_index v (r : Profiler) : Profiler :=
  mkProfiler (m_rhi_draw r) (m_rhi_dispatch r) (m_rhi_bindings_buffer_vertex r) v (m_rhi_bindings_pipeline r) (m_rhi_bindings_descriptor_set r) (m_rhi_pipeline_barriers r).

Definition set_m_rhi_bindings_pipeline v (r : Profiler) : Profiler :=
  mkProfiler (m_rhi_draw r) (m_rhi_dispatch r) (m_rhi_bindings_buffer_vertex r) (m_rhi_bindings_buffer_index r) v (m_rhi_bindings_descriptor_set r) (m_rhi_pipeline_barriers r).

Definition set_m_rhi_bindings_descriptor_set v (r : Profiler) : Profiler :=
  mkProfiler (m_rhi_draw r) (m_rhi_dispatch r) (m_rhi_bindings_buffer_vertex r) (m_rhi_bindings_buffer_index r) (m_rhi_bindings_pipeline r) v (m_rhi_pipeline_barriers r).

Definition set_m_rhi_pipeline_barriers v (r : Profiler) : Profiler :=
  mkProfiler (m_rhi_draw r) (m_rhi_dispatch r) (m_rhi_bindings_buffer_vertex r) (m_rhi_bindings_buffer_index r) (m_rhi_bindings_pipeline r) (m_rhi_bindings_descriptor_set r) v.

Definition set_m_layout v (r : RHI_Texture) : RHI_Texture :=
  mkTexture v (m_mip_count r) (m_array_length r) (m_width r) (m_height r) (m_format r)
    (m_texture_resource r) (m_resource_view_srv r)
    (HasPerMipView r) (IsSrv r) (IsUav r) (IsDepthFormat r) (IsStencilFormat r)
    (CanBeCleared r).

Definition upd_cmd (f : RHI_CommandList -> RHI_CommandList) (w : World) : World :=
  set_cmd (f (cmd w)) w.
Definition upd_cache (f : RHI_DescriptorSetLayoutCache -> RHI_DescriptorSetLayoutCache)
  (w : World) : World :=
  set_cache (f (cache w)) w.
Definition upd_profiler (f : Profiler -> Profiler) (w : World) : World :=
  set_profiler (f (profiler w)) w.

Definition record_cmd (c : VkCmd) (w : World) : World :=
  upd_cmd (fun cl => set_recorded (recorded cl ++ [c]) cl) w.
Definition write_log (e : LogEntry) (w : World) : World :=
  set_log (log w ++ [e]) w.

(** Answers of the driver and of the device context. *)
Record Driver : Type := mkDriver {
  context_profiler : bool;                           (* GetContextRhi()->profiler *)
  context_markers : bool;                            (* GetContextRhi()->markers *)
  vkBeginCommandBuffer_ok : bool;
  vkEndCommandBuffer_ok : bool;
  vkResetCommandBuffer_ok : bool;
  QueueSubmit_ok : bool;
  Fence_Wait_ok : bool;
  GetPipeline_found : option bool;                   (* None: no pipeline; Some b: VkPipeline valid iff b *)
  GetDescriptorSet_result : bool;
  GetDescriptorSet_set : bool;                       (* descriptor_set != nullptr *)
  Queue_WaitAll_ok : bool;
  ConstantBuffer_Create_ok : bool;
  ConstantBuffer_Map_ok : bool;                      (* Map() != nullptr *)
  ConstantBuffer_Unmap_ok : bool
}.

(** ** RHI_Texture::SetLayout

    [cmd_list] tells whether a command list was passed (it is then the one
    of the world); [mip = -1] addresses the whole texture.
    [vulkan_utility::image::set_layout] records one pipeline barrier. *)

Definition lookup_texture (tex : nat) (w : World) : Result RHI_Texture :=
  deref (textures w !! tex).

Definition SetLayout (new_layout : RHI_Image_Layout) (cmd_list : bool) (mip : Z)
  (ranged : bool) (tex : nat) (w : World) : Result World :=
  t ← lookup_texture tex w;
  let individual_mip_requested := negb (mip =? -1) in
  SP_ASSERT (implb individual_mip_requested (HasPerMipView t));;
  let mip_start := if individual_mip_requested then u32 mip else 0 in
  let mip_range :=
    if ranged
    then (if individual_mip_requested then u32 (m_mip_count t - mip) else m_mip_count t)
    else 1 in
  current_layout ← array_get (m_layout t) mip_start;
  (* Check if this texture is still initialising *)
  if decide (current_layout = Undefined) then Ok w
  (* Check if already set *)
  else if decide (current_layout = new_layout) then Ok w
  else
    (* Insert memory barrier *)
    let w1 :=
      if cmd_list
      then upd_profiler
             (fun p => set_m_rhi_pipeline_barriers (u32 (m_rhi_pipeline_barriers p + 1)) p)
             (record_cmd (vkCmdPipelineBarrier tex mip_start mip_range (m_array_length t)
                            current_layout new_layout) w)
      else w in
    (* Update layout *)
    layouts ← array_fill (m_layout t) (Z.to_nat mip_start)
                (Z.to_nat (u32 (mip_start + mip_range) - mip_start)) new_layout;
    Ok (set_textures (<[tex := set_m_layout layouts t]> (textures w1)) w1).

(** The barrier a transition of the whole texture records: none while the
    first mip is [Undefined] or already has the layout asked for. *)
Definition whole_texture_barrier (tex : nat) (t : RHI_Texture)
  (new_layout : RHI_Image_Layout) : list VkCmd :=
  match m_layout t with
  | current_layout :: _ =>
      if decide (current_layout = Undefined) then []
      else if decide (current_layout = new_layout) then []
      else [vkCmdPipelineBarrier tex 0 (m_mip_count t) (m_array_length t)
              current_layout new_layout]
  | [] => []
  end.

(** ** Resource binding *)

Definition is_recording (w : World) : bool :=
  bool_decide (m_state (cmd w) = Recording).

Definition SetConstantBuffer (slot : Z) (scope : Z) (constant_buffer : option nat)
  (w : World) : Result World :=
  SP_ASSERT (is_recording w);;
  if negb (GetCurrentDescriptorSetLayout (cache w))
  then (deref constant_buffer;;   (* constant_buffer->GetObjectName() *)
        Ok (write_log (LOG_WARNING "Descriptor layout not set, try setting constant buffer within a render pass") w))
  else Ok (upd_cache (fun c => set_bound_constant_buffers
                                 (<[slot := constant_buffer]> (bound_constant_buffers c)) c) w).

Definition SetSampler (slot : Z) (sampler : option nat) (w : World) : Result World :=
  SP_ASSERT (is_recording w);;
  if negb (GetCurrentDescriptorSetLayout (cache w))
  then (deref sampler;;
        Ok (write_log (LOG_WARNING "Descriptor layout not set, try setting sampler within a render pass") w))
  else Ok (upd_cache (fun c => set_bound_samplers (<[slot := sampler]> (bound_samplers c)) c) w).

Definition SetStructuredBuffer (slot : Z) (structured_buffer : option nat) (w : World)
  : Result World :=
  SP_ASSERT (is_recording w);;
  if negb (GetCurrentDescriptorSetLayout (cache w))
  then (deref structured_buffer;;
        Ok (write_log (LOG_WARNING "Descriptor layout not set, try setting structured buffer within a render pass") w))
  else Ok (upd_cache (fun c => set_bound_structured_buffers
                                 (<[slot := structured_buffer]> (bound_structured_buffers c)) c) w).

Definition GetDefaultTextureTransparent (w : World) : option nat :=
  m_tex_default_transparent (resources w).

(** The layout a binding needs, [Undefined] when the current one fits. *)
Definition SetTexture_target_layout (uav : bool) (t : RHI_Texture)
  (current_layout : RHI_Image_Layout) : RHI_Image_Layout :=
  if uav
  then (if decide (current_layout = General) then Undefined else General)
  else
    let target_layout :=
      if IsColorFormat t && negb (bool_decide (current_layout = Shader_Read_Only_Optimal))
      then Shader_Read_Only_Optimal else Undefined in
    if IsDepthFormat t && negb (bool_decide (current_layout = Depth_Stencil_Read_Only_Optimal))
    then Depth_Stencil_Read_Only_Optimal else target_layout.

Definition SetTexture (slot : Z) (texture : option nat) (mip : Z) (ranged uav : bool)
  (w : World) : Result World :=
  SP_ASSERT (is_recording w);;
  (* Validate texture *)
  match texture with
  | Some tex => t ← lookup_texture tex w; SP_ASSERT (if uav then IsUav t else IsSrv t)
  | None => Ok tt
  end;;
  if negb (GetCurrentDescriptorSetLayout (cache w))
  then (tex ← deref texture;   (* texture->GetObjectName() *)
        lookup_texture tex w;;
        Ok (write_log (LOG_WARNING "Descriptor layout not set, try setting texture within a render pass") w))
  else
    (* Null textures are allowed, and get replaced with a default texture here *)
    texture ← match texture with
              | None => Ok (GetDefaultTextureTransparent w)
              | Some tex =>
                  t ← lookup_texture tex w;
                  Ok (if m_resource_view_srv t then Some tex
                      else GetDefaultTextureTransparent w)
              end;
    let individual_mip := negb (mip =? -1) in
    tex ← deref texture;
    t ← lookup_texture tex w;
    current_layout ← GetLayout t (if individual_mip then u32 mip else 0);
    (* If the image has an invalid layout, replace with a default texture *)
    '(texture, current_layout, w) ←
      (if bool_decide (current_layout = Undefined)
          || bool_decide (current_layout = Preinitialized)
       then
         let w := write_log (LOG_ERROR "Can't set texture without a layout, replacing with a default texture") w in
         let texture := GetDefaultTextureTransparent w in
         tex ← deref texture;
         t ← lookup_texture tex w;
         current_layout ← GetLayout t 0;
         Ok (texture, current_layout, w)
       else Ok (texture, current_layout, w));
    tex ← deref texture;
    t ← lookup_texture tex w;
    (* Transition to appropriate layout (if needed) *)
    let target_layout := SetTexture_target_layout uav t current_layout in
    let transition_required := negb (bool_decide (target_layout = Undefined)) in
    '(texture, w) ←
      (if transition_required && negb (m_render_pass_active (cmd w))
       then w ← SetLayout target_layout true mip ranged tex w; Ok (texture, w)
       else if transition_required && m_render_pass_active (cmd w)
       then Ok (GetDefaultTextureTransparent w,
                write_log (LOG_ERROR "Can't transition texture to target layout while a render pass is active, replacing with a default texture") w)
       else Ok (texture, w));
    (* Set (will only happen if it's not already set) *)
    Ok (upd_cache (fun c => set_bound_textures
                              (<[slot := mkTextureBinding texture mip ranged]> (bound_textures c)) c) w).

(** Renderer::SetGlobalShaderResources.  The shader-stage masks are the
    enumerators of [RHI_Shader_Type], declared outside src/; a binding does
    not read its scope. *)
Definition RHI_Shader_Vertex : Z := 1.
Definition RHI_Shader_Pixel : Z := 2.
Definition RHI_Shader_Compute : Z := 4.

Fixpoint SetSamplers (slot : Z) (samplers : list (option nat)) (w : World) : Result World :=
  match samplers with
  | [] => Ok w
  | s :: rest => w ← SetSampler slot s w; SetSamplers (slot + 1) rest w
  end.

Definition SetGlobalShaderResources (w : World) : Result World :=
  let r := resources w in
  (* Constant buffers *)
  w ← SetConstantBuffer (RendererBindings_Cb_frame r)
        (Z.lor (Z.lor RHI_Shader_Vertex RHI_Shader_Pixel) RHI_Shader_Compute)
        (m_cb_frame_gpu r) w;
  w ← SetConstantBuffer (RendererBindings_Cb_uber r)
        (Z.lor (Z.lor RHI_Shader_Vertex RHI_Shader_Pixel) RHI_Shader_Compute)
        (m_cb_uber_gpu r) w;
  w ← SetConstantBuffer (RendererBindings_Cb_light r) RHI_Shader_Compute (m_cb_light_gpu r) w;
  w ← SetConstantBuffer (RendererBindings_Cb_material r)
        (Z.lor RHI_Shader_Pixel RHI_Shader_Compute) (m_cb_material_gpu r) w;
  (* Samplers *)
  w ← SetSamplers 0 (m_samplers r) w;
  (* Textures *)
  w ← SetTexture (RendererBindings_Srv_noise_normal r) (m_tex_default_noise_normal r)
        (-1) false false w;
  SetTexture (RendererBindings_Srv_noise_blue r) (m_tex_default_noise_blue r)
    (-1) false false w.

(** ** Life cycle: Begin, End, Submit, Wait, Reset, Flush *)

Definition set_state (st : RHI_CommandListState) (w : World) : World :=
  upd_cmd (set_m_state st) w.

(* src/unnamed/part_006 *)
Definition Wait (d : Driver) (w : World) : Result World :=
  (* Validate state. *)
  SP_ASSERT (bool_decide (m_state (cmd w) = Submitted));;
  (* Wait for the fence. *)
  SP_ASSERT (Fence_Wait_ok d);;
  (* Reset the semaphore *)
  let w := upd_cmd (set_m_processed_semaphore Semaphore_Idle) w in
  Ok (set_state Idle w).

(** [Begin] tests the value of [Wait()]; the [Wait] under src/ returns
    nothing and stops the program when the fence times out, so the error
    branch of that test is never taken.  [vkBeginCommandBuffer] starts the
    command buffer afresh. *)
Definition Begin (d : Driver) (w : World) : Result (bool * World) :=
  (* If the command list is in use, wait for it *)
  w ← (if bool_decide (m_state (cmd w) = Submitted) then Wait d w else Ok w);
  (* Verify a few things *)
  SP_ASSERT (m_resource (cmd w));;
  SP_ASSERT (bool_decide (m_state (cmd w) = Idle));;
  let w := upd_cmd (set_m_timestamp_index 0) w in
  if negb (vkBeginCommandBuffer_ok d) then Ok (false, w)
  else
    let w := upd_cmd (set_recorded [vkCmdResetQueryPool]) w in
    let w := set_state Recording w in
    let w := upd_cmd (set_m_flushed false) w in
    Ok (true, w).

Definition End (d : Driver) (w : World) : Result (bool * World) :=
  (* Validate command list state *)
  SP_ASSERT (is_recording w);;
  if negb (vkEndCommandBuffer_ok d) then Ok (false, w)
  else Ok (true, set_state Ended w).

Definition swapchain_of_pipeline (w : World) : bool :=
  match m_pipeline (cmd w) with
  | Some p =>
      match GetPipelineState p with
      | Some state => render_target_swapchain state
      | None => false
      end
  | None => false
  end.

(** Modelled from the spec: [RHI_Device::QueueSubmit] is outside src/;
    "presentation waits on a processed semaphore signaled by submission". *)
Definition QueueSubmit (signal_semaphore : bool) (w : World) : World :=
  let w := upd_cmd (fun c => set_submissions (S (submissions c)) c) w in
  if signal_semaphore then upd_cmd (set_m_processed_semaphore Semaphore_Signaled) w else w.

Definition Submit (d : Driver) (wait_semaphore : option nat) (w : World)
  : Result (bool * World) :=
  (* Validate command list state *)
  SP_ASSERT (bool_decide (m_state (cmd w) = Ended));;
  if swapchain_of_pipeline w && negb (PresentEnabled w)
  then
    (* If the swapchain is not presenting (e.g. minimised window), don't submit any work *)
    Ok (true, set_state Submitted w)
  else
    (* Ensure the processed semaphore can be used *)
    SP_ASSERT (implb (swapchain_of_pipeline w)
                 (bool_decide (m_processed_semaphore (cmd w) = Semaphore_Idle)));;
    let signal_semaphore := swapchain_of_pipeline w in
    if negb (QueueSubmit_ok d)
    then Ok (false, write_log (LOG_ERROR "Failed to submit the command list.") w)
    else Ok (true, set_state Submitted (QueueSubmit signal_semaphore w)).

Definition Reset (d : Driver) (w : World) : Result (bool * World) :=
  (* Validate command list state *)
  SP_ASSERT (is_recording w);;
  if negb (vkResetCommandBuffer_ok d) then Ok (false, w)
  else Ok (true, set_state Idle (upd_cmd (set_recorded []) w)).

Definition Discard (w : World) : World := upd_cmd (set_m_discard true) w.

(* src/unnamed/part_006 *)
Definition Flush (d : Driver) (restore_pipeline_state_after_flush : bool) (w : World)
  : Result (bool * World) :=
  let w := upd_cmd (fun c => set_flushes (S (flushes c)) c) w in
  if bool_decide (m_state (cmd w) = Idle) then Ok (true, w)
  else
    (* If recording, end *)
    let was_recording := is_recording w in
    '(ended, w) ← (if was_recording then End d w else Ok (true, w));
    if negb ended then Ok (false, w)
    else
      (* If ended, submit *)
      '(submitted, w) ← (if bool_decide (m_state (cmd w) = Ended)
                         then Submit d None w else Ok (true, w));
      if negb submitted then Ok (false, w)
      else
        (* Flush *)
        w ← Wait d w;
        (* If idle, restore state (if any) *)
        w ← (if restore_pipeline_state_after_flush
                && bool_decide (m_state (cmd w) = Idle) && was_recording
             then '(_, w) ← Begin d w; Ok w
             else Ok w);
        Ok (true, upd_cmd (set_m_flushed true) w).

(** ** Render passes *)

Definition Timeblock_Start (d : Driver) (pipeline_state : option RHI_PipelineState)
  (w : World) : World :=
  match pipeline_state with
  | None => w
  | Some ps =>
      match pass_name ps with
      | None => w
      | Some name =>
          (* Allowed to markers ? *)
          if context_markers d && mark ps then record_cmd (marker_begin name) w else w
      end
  end.

Definition Timeblock_End (d : Driver) (pipeline_state : option RHI_PipelineState)
  (w : World) : World :=
  match pipeline_state with
  | None => w
  | Some ps => if context_markers d && mark ps then record_cmd marker_end w else w
  end.

(** Modelled from the spec: [RHI_DescriptorSetLayoutCache::SetPipelineState]
    and [RHI_PipelineCache::GetPipeline] are outside src/.  "Entering looks
    up or builds (cached) the matching GPU pipeline and descriptor-set
    layout": the layout of the pipeline state becomes the current one, and
    the pipeline found, if any, is the one of [pipeline_state]. *)
Definition cache_SetPipelineState (w : World) : World :=
  upd_cache (set_GetCurrentDescriptorSetLayout true) w.

Definition cache_GetPipeline (d : Driver) (pipeline_state : RHI_PipelineState)
  : option RHI_Pipeline :=
  match GetPipeline_found d with
  | None => None
  | Some valid => Some (mkPipeline (Some pipeline_state) valid)
  end.

Definition BeginRenderPass (d : Driver) (pipeline_state : RHI_PipelineState) (w : World)
  : Result (bool * World) :=
  (* Validate command list state *)
  SP_ASSERT (is_recording w);;
  (* Get pipeline *)
  let w := upd_cmd (set_m_pipeline_active false) w in
  let w := cache_SetPipelineState w in
  let w := upd_cmd (set_m_pipeline (cache_GetPipeline d pipeline_state)) w in
  match m_pipeline (cmd w) with
  | None => Ok (false, write_log (LOG_ERROR "Failed to acquire appropriate pipeline") w)
  | Some _ =>
      (* Keep a local pointer for convenience *)
      let w := upd_cmd (set_m_pipeline_state (Some pipeline_state)) w in
      (* Start marker and profiler (if used) *)
      let w := Timeblock_Start d (m_pipeline_state (cmd w)) w in
      (* If the pipeline changed, resources have to be set again *)
      let w := upd_cmd (set_m_vertex_buffer_id 0) w in
      let w := upd_cmd (set_m_index_buffer_id 0) w in
      (* Vulkan doesn't have a persistent state so global resources have to be set *)
      w ← SetGlobalShaderResources w;
      Ok (true, w)
  end.

(** The clear values handed to [vkCmdBeginRenderPass]: one per bound colour
    target, then depth-stencil, then the swap chain. *)
Definition color_clear_values (ps : RHI_PipelineState) : list VkClearValue :=
  omap (fun '(texture, color) =>
          match texture with
          | Some _ => Some (ClearValue_color color)
          | None => None
          end)
       (zip (render_target_color_textures ps) (clear_color ps)).

Definition Deferred_BeginRenderPass (w : World) : Result (bool * World) :=
  (* Validate command list state *)
  SP_ASSERT (is_recording w);;
  (* Get pipeline state *)
  pipeline ← deref (m_pipeline (cmd w));
  let pipeline_state := GetPipelineState pipeline in
  (* Validate pipeline state *)
  SP_ASSERT (bool_decide (pipeline_state <> None));;
  pipeline_state ← deref pipeline_state;
  SP_ASSERT (GetRenderPass pipeline_state);;
  SP_ASSERT (GetFrameBuffer pipeline_state);;
  (* Clear values *)
  ps ← deref (m_pipeline_state (cmd w));
  let depth_stencil :=
    match render_target_depth_texture ps with
    | Some _ => [ClearValue_depthStencil (clear_depth ps) (clear_stencil ps)]
    | None => []
    end in
  swapchain ← (if render_target_swapchain ps
               then color ← array_get (clear_color ps) 0; Ok [ClearValue_color color]
               else Ok []);
  (* Begin render pass *)
  let w := record_cmd (vkCmdBeginRenderPass (color_clear_values ps ++ depth_stencil ++ swapchain)
                         (GetWidth pipeline_state) (GetHeight pipeline_state)) w in
  Ok (true, upd_cmd (set_m_render_pass_active true) w).

Definition color_clear_attachments (ps : RHI_PipelineState) : list VkClearAttachment :=
  omap (fun color =>
          if negb (is_load color)
          then Some (mkClearAttachment true false false 0 (ClearValue_color color))
          else None)
       (clear_color ps).

Definition ClearPipelineStateRenderTargets (pipeline_state : RHI_PipelineState) (w : World)
  : Result World :=
  (* Validate state *)
  SP_ASSERT (is_recording w);;
  SP_ASSERT (m_render_pass_active (cmd w));;
  let clear_depth_ := negb (is_load (clear_depth pipeline_state))
                      && negb (is_dont_care (clear_depth pipeline_state)) in
  let clear_stencil_ := negb (is_load (clear_stencil pipeline_state))
                        && negb (is_dont_care (clear_stencil pipeline_state)) in
  let attachments :=
    color_clear_attachments pipeline_state ++
    (if clear_depth_ || clear_stencil_
     then [mkClearAttachment false clear_depth_ clear_stencil_ 0
             (ClearValue_depthStencil (clear_depth pipeline_state)
                (clear_stencil pipeline_state))]
     else []) in
  match attachments with
  | [] => Ok w
  | _ => Ok (record_cmd (vkCmdClearAttachments attachments (GetWidth pipeline_state)
                           (GetHeight pipeline_state)) w)
  end.

Definition EndRenderPass (d : Driver) (w : World) : Result (bool * World) :=
  ps ← deref (m_pipeline_state (cmd w));
  (* If the render pass is about to end, there are clear values, but there have been
     no draw calls, then Deferred_BeginRenderPass() was never called, and any render
     targets were never cleared. In this case we manually clear it them *)
  w ← (if HasClearValues ps && negb (m_render_pass_active (cmd w))
       then '(_, w) ← Deferred_BeginRenderPass w; ClearPipelineStateRenderTargets ps w
       else Ok w);
  let w := if m_render_pass_active (cmd w)
           then upd_cmd (set_m_render_pass_active false) (record_cmd vkCmdEndRenderPass w)
           else w in
  (* Profiling *)
  Ok (true, Timeblock_End d (m_pipeline_state (cmd w)) w).

(** ** Draw and dispatch *)

Definition Deferred_BindPipeline (w : World) : Result (bool * World) :=
  pipeline ← deref (m_pipeline (cmd w));
  if GetPipeline pipeline
  then
    ps ← deref (m_pipeline_state (cmd w));
    let w := record_cmd (vkCmdBindPipeline (IsCompute ps)) w in
    let w := upd_profiler
               (fun p => set_m_rhi_bindings_pipeline (u32 (m_rhi_bindings_pipeline p + 1)) p) w in
    Ok (true, upd_cmd (set_m_pipeline_active true) w)
  else Ok (false, write_log (LOG_ERROR "Invalid pipeline") w).

Definition Deferred_BindDescriptorSet (d : Driver) (w : World) : Result (bool * World) :=
  (* Validate command list state *)
  SP_ASSERT (is_recording w);;
  let result := GetDescriptorSet_result d in
  if result && GetDescriptorSet_set d
  then
    ps ← deref (m_pipeline_state (cmd w));
    (* descriptor_set_layout->GetDynamicOffsets() *)
    deref (if GetCurrentDescriptorSetLayout (cache w) then Some tt else None);;
    let w := record_cmd (vkCmdBindDescriptorSets (IsCompute ps)) w in
    Ok (result,
        upd_profiler (fun p => set_m_rhi_bindings_descriptor_set
                                 (u32 (m_rhi_bindings_descriptor_set p + 1)) p) w)
  else Ok (result, w).

Definition OnDraw (d : Driver) (w : World) : Result (bool * World) :=
  if m_flushed (cmd w) then Ok (false, w)
  else
    (* Validate command list state *)
    SP_ASSERT (is_recording w);;
    (* Begin render pass *)
    w ← (if m_render_pass_active (cmd w) then Ok w
         else
           ps ← deref (m_pipeline_state (cmd w));
           if IsCompute ps then Ok w
           else '(_, w) ← Deferred_BeginRenderPass w; Ok w);
    (* Set pipeline *)
    '(bound, w) ← (if m_pipeline_active (cmd w) then Ok (true, w)
                   else Deferred_BindPipeline w);
    if negb bound then Ok (false, write_log (LOG_ERROR "Failed to begin render pass") w)
    else
      (* Bind descriptor set *)
      Deferred_BindDescriptorSet d w.

Definition draw_with (d : Driver) (c : VkCmd) (count : Profiler -> Profiler) (w : World)
  : Result (bool * World) :=
  (* Validate command list state *)
  SP_ASSERT (is_recording w);;
  (* Ensure correct state before attempting to draw *)
  '(ok, w) ← OnDraw d w;
  if negb ok then Ok (false, w)
  else Ok (true, upd_profiler count (record_cmd c w)).

Definition Draw (d : Driver) (vertex_count : Z) (w : World) : Result (bool * World) :=
  draw_with d (vkCmdDraw vertex_count)
    (fun p => set_m_rhi_draw (u32 (m_rhi_draw p + 1)) p) w.

Definition DrawIndexed (d : Driver) (index_count index_offset vertex_offset : Z) (w : World)
  : Result (bool * World) :=
  draw_with d (vkCmdDrawIndexed index_count index_offset vertex_offset)
    (fun p => set_m_rhi_draw (u32 (m_rhi_draw p + 1)) p) w.

Definition Dispatch (d : Driver) (x y z : Z) (async : bool) (w : World)
  : Result (bool * World) :=
  draw_with d (vkCmdDispatch x y z)
    (fun p => set_m_rhi_dispatch (u32 (m_rhi_dispatch p + 1)) p) w.

(** ** Clear, blit and fixed-function state *)

Definition ClearRenderTarget (texture : option nat) (color_index depth_stencil_index : Z)
  (storage : bool) (clear_color_ : Clear Vector4) (clear_depth_ : Clear float)
  (clear_stencil_ : Clear Z) (w : World) : Result World :=
  SP_ASSERT (is_recording w);;
  tex ← deref texture;
  t ← lookup_texture tex w;
  SP_ASSERT (CanBeCleared t);;
  if m_render_pass_active (cmd w)
  then Ok (write_log (LOG_ERROR "Must only be called outside of a render pass instance") w)
  else if negb (m_resource_view_srv t)
  then Ok (write_log (LOG_ERROR "Texture is null.") w)
  else
    (* One of the required layouts for clear functions *)
    w ← SetLayout Transfer_Dst_Optimal true (-1) true tex w;
    if IsColorFormat t
    then Ok (record_cmd (vkCmdClearColorImage tex clear_color_) w)
    else if IsDepthStencilFormat t
    then Ok (record_cmd (vkCmdClearDepthStencilImage tex clear_depth_ clear_stencil_
                           (IsDepthFormat t || IsStencilFormat t)) w)
    else Ok w.

(** Transition back to the layouts saved before the blit, mip by mip. *)
Fixpoint Blit_restore (source destination : nat)
  (layouts_initial_source layouts_initial_destination : list RHI_Image_Layout)
  (i : Z) (count : nat) (w : World) : Result World :=
  match count with
  | O => Ok w
  | S n =>
      ls ← array_get layouts_initial_source i;
      w ← SetLayout ls true i true source w;
      ld ← array_get layouts_initial_destination i;
      w ← SetLayout ld true i true destination w;
      Blit_restore source destination layouts_initial_source layouts_initial_destination
        (i + 1) n w
  end.

Definition Blit (source destination : option nat) (w : World) : Result World :=
  SP_ASSERT (bool_decide (source <> None));;
  SP_ASSERT (bool_decide (destination <> None));;
  src ← deref source;
  dst ← deref destination;
  s ← lookup_texture src w;
  t ← lookup_texture dst w;
  SP_ASSERT (m_texture_resource s);;
  SP_ASSERT (m_texture_resource t);;
  SP_ASSERT (negb (bool_decide (src = dst)));;
  SP_ASSERT (m_format s =? m_format t);;
  SP_ASSERT (m_width s =? m_width t);;
  SP_ASSERT (m_height s =? m_height t);;
  SP_ASSERT (m_array_length s =? m_array_length t);;
  SP_ASSERT (m_mip_count s =? m_mip_count t);;
  (* Save the initial layouts *)
  let layouts_initial_source := m_layout s in
  let layouts_initial_destination := m_layout t in
  (* Transition to blit appropriate layouts *)
  w ← SetLayout Transfer_Src_Optimal true (-1) true src w;
  w ← SetLayout Transfer_Dst_Optimal true (-1) true dst w;
  (* Blit *)
  let w := record_cmd (vkCmdBlitImage src dst) w in
  (* Transition to the initial layouts *)
  Blit_restore src dst layouts_initial_source layouts_initial_destination 0
    (Z.to_nat (m_mip_count s)) w.

Definition SetViewport (x y width height : float) (w : World) : Result World :=
  SP_ASSERT (is_recording w);;
  Ok (record_cmd (vkCmdSetViewport x y width height) w).

Definition SetScissorRectangle (left top width height : float) (w : World) : Result World :=
  SP_ASSERT (is_recording w);;
  Ok (record_cmd (vkCmdSetScissor left top width height) w).

Definition SetBufferVertex (buffer : option Z) (offset : Z) (w : World) : Result World :=
  SP_ASSERT (is_recording w);;
  id ← deref buffer;
  if (m_vertex_buffer_id (cmd w) =? id) && (m_vertex_buffer_offset (cmd w) =? offset)
  then Ok w
  else
    let w := record_cmd (vkCmdBindVertexBuffers id offset) w in
    let w := upd_profiler (fun p => set_m_rhi_bindings_buffer_vertex
                                      (u32 (m_rhi_bindings_buffer_vertex p + 1)) p) w in
    Ok (upd_cmd (fun c => set_m_vertex_buffer_offset offset (set_m_vertex_buffer_id id c)) w).

Definition SetBufferIndex (buffer : option Z) (is_16bit : bool) (offset : Z) (w : World)
  : Result World :=
  SP_ASSERT (is_recording w);;
  id ← deref buffer;
  if (m_index_buffer_id (cmd w) =? id) && (m_index_buffer_offset (cmd w) =? offset)
  then Ok w
  else
    let w := record_cmd (vkCmdBindIndexBuffer id offset is_16bit) w in
    let w := upd_profiler (fun p => set_m_rhi_bindings_buffer_index
                                      (u32 (m_rhi_bindings_buffer_index p + 1)) p) w in
    Ok (upd_cmd (fun c => set_m_index_buffer_offset offset (set_m_index_buffer_id id c)) w).

(* Timestamp_Start and Timestamp_End have the same body. *)
Definition Timestamp (d : Driver) (w : World) : Result (bool * World) :=
  SP_ASSERT (is_recording w);;
  if negb (context_profiler d) then Ok (true, w)
  else if negb (m_query_pool (cmd w)) then Ok (false, w)
  else
    let w := record_cmd (vkCmdWriteTimestamp (m_timestamp_index (cmd w))) w in
    Ok (true, upd_cmd (fun c => set_m_timestamp_index (u32 (m_timestamp_index c + 1)) c) w).

(** ** Sequences of command-list calls *)

Inductive Op : Type :=
| Op_Begin
| Op_End
| Op_Submit (wait_semaphore : option nat)
| Op_Reset
| Op_Wait
| Op_Discard
| Op_Flush (restore_pipeline_state_after_flush : bool)
| Op_BeginRenderPass (pipeline_state : RHI_PipelineState)
| Op_EndRenderPass
| Op_ClearPipelineStateRenderTargets (pipeline_state : RHI_PipelineState)
| Op_ClearRenderTarget (texture : option nat) (color_index depth_stencil_index : Z)
    (storage : bool) (clear_color_ : Clear Vector4) (clear_depth_ : Clear float)
    (clear_stencil_ : Clear Z)
| Op_Draw (vertex_count : Z)
| Op_DrawIndexed (index_count index_offset vertex_offset : Z)
| Op_Dispatch (x y z : Z) (async : bool)
| Op_Blit (source destination : option nat)
| Op_SetViewport (x y width height : float)
| Op_SetScissorRectangle (left top width height : float)
| Op_SetBufferVertex (buffer : option Z) (offset : Z)
| Op_SetBufferIndex (buffer : option Z) (is_16bit : bool) (offset : Z)
| Op_SetConstantBuffer (slot scope : Z) (constant_buffer : option nat)
| Op_SetSampler (slot : Z) (sampler : option nat)
| Op_SetTexture (slot : Z) (texture : option nat) (mip : Z) (ranged uav : bool)
| Op_SetStructuredBuffer (slot : Z) (structured_buffer : option nat)
| Op_Timestamp_Start
| Op_Timestamp_End.

Definition drop_bool {A : Type} (r : Result (bool * A)) : Result A :=
  '(_, a) ← r; Ok a.

(** One call, with the answers of the driver during that call.  The
    boolean a call returns is dropped: it does not enter the state. *)
Definition exec (d : Driver) (op : Op) (w : World) : Result World :=
  match op with
  | Op_Begin => drop_bool (Begin d w)
  | Op_End => drop_bool (End d w)
  | Op_Submit s => drop_bool (Submit d s w)
  | Op_Reset => drop_bool (Reset d w)
  | Op_Wait => Wait d w
  | Op_Discard => Ok (Discard w)
  | Op_Flush restore => drop_bool (Flush d restore w)
  | Op_BeginRenderPass ps => drop_bool (BeginRenderPass d ps w)
  | Op_EndRenderPass => drop_bool (EndRenderPass d w)
  | Op_ClearPipelineStateRenderTargets ps => ClearPipelineStateRenderTargets ps w
  | Op_ClearRenderTarget t ci di st cc cd cs => ClearRenderTarget t ci di st cc cd cs w
  | Op_Draw n => drop_bool (Draw d n w)
  | Op_DrawIndexed a b c => drop_bool (DrawIndexed d a b c w)
  | Op_Dispatch x y z async => drop_bool (Dispatch d x y z async w)
  | Op_Blit s t => Blit s t w
  | Op_SetViewport x y wd h => SetViewport x y wd h w
  | Op_SetScissorRectangle l t wd h => SetScissorRectangle l t wd h w
  | Op_SetBufferVertex b o => SetBufferVertex b o w
  | Op_SetBufferIndex b s o => SetBufferIndex b s o w
  | Op_SetConstantBuffer slot scope b => SetConstantBuffer slot scope b w
  | Op_SetSampler slot s => SetSampler slot s w
  | Op_SetTexture slot t mip ranged uav => SetTexture slot t mip ranged uav w
  | Op_SetStructuredBuffer slot b => SetStructuredBuffer slot b w
  | Op_Timestamp_Start => drop_bool (Timestamp d w)
  | Op_Timestamp_End => drop_bool (Timestamp d w)
  end.

Fixpoint run (ops : list (Driver * Op)) (w : World) : Result World :=
  match ops with
  | [] => Ok w
  | (d, op) :: rest => w ← exec d op w; run rest w
  end.

(** The state a call validates before anything else, when it validates
    one.  [Begin] waits first when the list is submitted, [Flush] accepts
    any state, and [EndRenderPass], [Blit] and [Discard] do not look at
    the state themselves. *)
Definition required_state (op : Op) : option RHI_CommandListState :=
  match op with
  | Op_Submit _ => Some Ended
  | Op_Wait => Some Submitted
  | Op_End | Op_Reset | Op_BeginRenderPass _ | Op_ClearPipelineStateRenderTargets _
  | Op_ClearRenderTarget _ _ _ _ _ _ _ | Op_Draw _ | Op_DrawIndexed _ _ _
  | Op_Dispatch _ _ _ _ | Op_SetViewport _ _ _ _ | Op_SetScissorRectangle _ _ _ _
  | Op_SetBufferVertex _ _ | Op_SetBufferIndex _ _ _ | Op_SetConstantBuffer _ _ _
  | Op_SetSampler _ _ | Op_SetTexture _ _ _ _ _ | Op_SetStructuredBuffer _ _
  | Op_Timestamp_Start | Op_Timestamp_End => Some Recording
  | Op_Begin | Op_Discard | Op_Flush _ | Op_EndRenderPass | Op_Blit _ _ => None
  end.

(** Calls that may stand between [BeginRenderPass] and [EndRenderPass]
    without issuing a draw or a dispatch. *)
Definition binds_only (op : Op) : bool :=
  match op with
  | Op_SetViewport _ _ _ _ | Op_SetScissorRectangle _ _ _ _ | Op_SetBufferVertex _ _
  | Op_SetBufferIndex _ _ _ | Op_SetConstantBuffer _ _ _ | Op_SetSampler _ _
  | Op_SetTexture _ _ _ _ _ | Op_SetStructuredBuffer _ _ | Op_Timestamp_Start
  | Op_Timestamp_End | Op_Discard => true
  | _ => false
  end.

(** * Renderer

    ** Scene entities and the classification buckets *)

Record Material : Type := mkMaterial {
  GetColorAlbedo_w : float                           (* GetColorAlbedo().w *)
}.

Record Renderable : Type := mkRenderable {
  GetMaterial : option Material;
  GetAabb_GetCenter : Vector3                        (* GetAabb().GetCenter() *)
}.

Inductive LightType : Type :=
| Directional
| Point
| Spot.

#[global] Instance LightType_eq_dec : EqDecision LightType.
Proof. solve_decision. Defined.

Record Light : Type := mkLight {
  GetLightType : LightType;
  GetIntensity : float
}.

Record Camera : Type := mkCamera {
  GetViewMatrix : Matrix;
  GetProjectionMatrix : Matrix;
  GetNearPlane : float;
  GetFarPlane : float;
  GetAperture : float;
  GetShutterSpeed : float;
  GetIso : float;
  GetPosition : Vector3;                             (* GetTransform()->GetPosition() *)
  GetForward : Vector3;                              (* GetTransform()->GetForward() *)
  GetClearColor : Vector4
}.

Record Entity : Type := mkEntity {
  IsActive : bool;
  GetRenderable : option Renderable;                 (* GetComponent<Renderable>() *)
  GetLight : option Light;
  GetCamera : option Camera
}.

(** [m_entities]: one vector per [Renderer_ObjectType]. *)
Record Entities : Type := mkEntities {
  GeometryOpaque : list Entity;
  GeometryTransparent : list Entity;
  Light_ : list Entity;
  Camera_ : list Entity
}.

Definition Entities_clear : Entities := mkEntities [] [] [] [].

(** Arithmetic on [float] and the matrix library ([Math/]) are outside
    src/; the renderer is read against any implementation of them. *)
Record MathLib : Type := mkMathLib {
  fadd : float -> float -> float;
  fsub : float -> float -> float;
  fmul : float -> float -> float;
  fdiv : float -> float -> float;
  Matrix_mul : Matrix -> Matrix -> Matrix;
  Matrix_Invert : Matrix -> Matrix;
  Matrix_CreateOrthographicLH : float -> float -> float -> float -> Matrix;
  Matrix_CreateLookAtLH : Vector3 -> Vector3 -> Vector3 -> Matrix;
  Matrix_CreateTranslation : Vector3 -> Matrix;
  Halton2D : Z -> Z -> Z -> Vector2
}.

Definition Vector3_sub (M : MathLib) (a b : Vector3) : Vector3 :=
  let '(ax, ay, az) := a in
  let '(bx, by_, bz) := b in
  (fsub M ax bx, fsub M ay by_, fsub M az bz).

Definition LengthSquared (M : MathLib) (v : Vector3) : float :=
  let '(x, y, z) := v in
  fadd M (fadd M (fmul M x x) (fmul M y y)) (fmul M z z).

(** The lambda [comparison_op] of [RenderablesSort]. *)
Definition comparison_op (M : MathLib) (camera : Camera) (entity : Entity) : float :=
  match GetRenderable entity with
  | None => 0
  | Some renderable =>
      LengthSquared M (Vector3_sub M (GetAabb_GetCenter renderable) (GetPosition camera))
  end.

(** [std::sort] with the comparison [less]: the result is ordered and is
    a rearrangement of the input; equivalent elements may come out in any
    order.  Insertion sort stands for it. *)
Fixpoint sort_insert {A : Type} (less : A -> A -> bool) (x : A) (l : list A) : list A :=
  match l with
  | [] => [x]
  | y :: rest => if less x y then x :: l else y :: sort_insert less x rest
  end.

Definition std_sort {A : Type} (less : A -> A -> bool) (l : list A) : list A :=
  foldr (sort_insert less) [] l.

Definition RenderablesSort (M : MathLib) (m_camera : option Camera)
  (renderables : list Entity) : list Entity :=
  match m_camera with
  | None => renderables
  | Some camera =>
      if (Z.of_nat (length renderables) <=? 2) then renderables
      else
        (* Sort by depth (front to back) *)
        std_sort (fun a b => comparison_op M camera a <? comparison_op M camera b)
          renderables
  end.

(** The loop of [OnRenderablesAcquire] over the entities of the world. *)
Definition acquire_entity (acc : Entities * option Camera) (entity : option Entity)
  : Entities * option Camera :=
  let '(m_entities, m_camera) := acc in
  match entity with
  | None => acc
  | Some e =>
      if negb (IsActive e) then acc
      else
        let m_entities :=
          match GetRenderable e with
          | Some renderable =>
              let is_transparent :=
                match GetMaterial renderable with
                | Some material => GetColorAlbedo_w material <? 1000
                | None => false
                end in
              if is_transparent
              then mkEntities (GeometryOpaque m_entities)
                     (GeometryTransparent m_entities ++ [e])
                     (Light_ m_entities) (Camera_ m_entities)
              else mkEntities (GeometryOpaque m_entities ++ [e])
                     (GeometryTransparent m_entities)
                     (Light_ m_entities) (Camera_ m_entities)
          | None => m_entities
          end in
        let m_entities :=
          match GetLight e with
          | Some _ => mkEntities (GeometryOpaque m_entities)
                        (GeometryTransparent m_entities)
                        (Light_ m_entities ++ [e]) (Camera_ m_entities)
          | None => m_entities
          end in
        match GetCamera e with
        | Some camera =>
            (mkEntities (GeometryOpaque m_entities) (GeometryTransparent m_entities)
               (Light_ m_entities) (Camera_ m_entities ++ [e]),
             Some camera)
        | None => (m_entities, m_camera)
        end
  end.

(** [OnRenderablesAcquire]: the new [m_entities] and [m_camera]. *)
Definition OnRenderablesAcquire (M : MathLib) (entities : list (option Entity))
  : Entities * option Camera :=
  (* Clear previous state *)
  let '(m_entities, m_camera) := fold_left acquire_entity entities (Entities_clear, None) in
  (mkEntities (RenderablesSort M m_camera (GeometryOpaque m_entities))
     (RenderablesSort M m_camera (GeometryTransparent m_entities))
     (Light_ m_entities) (Camera_ m_entities),
   m_camera).

(** Front to back: along the bucket the squared distance to the camera
    never decreases. *)
Definition depth_sorted (M : MathLib) (camera : Camera) (bucket : list Entity) : Prop :=
  forall (i : nat) (a b : Entity),
    bucket !! i = Some a -> bucket !! S i = Some b ->
    comparison_op M camera a <= comparison_op M camera b.

Fixpoint depth_sortedb (M : MathLib) (camera : Camera) (bucket : list Entity) : bool :=
  match bucket with
  | a :: (b :: _) as rest =>
      (comparison_op M camera a <=? comparison_op M camera b) && depth_sortedb M camera rest
  | _ => true
  end.

(** ** Constant buffers

    [Cb_Frame] has the fields [OnTick] and [Update_Cb_Frame] assign;
    [frame], the mip counts and [options] are 32-bit integers. *)

Record Cb_Frame : Type := mkCbFrame {
  view : Matrix;
  projection : Matrix;
  projection_inverted : Matrix;
  projection_ortho : Matrix;
  view_projection : Matrix;
  view_projection_inv : Matrix;
  view_projection_ortho : Matrix;
  view_projection_unjittered : Matrix;
  view_projection_previous : Matrix;
  delta_time : float;
  time : float;
  frame : Z;
  camera_aperture : float;
  camera_shutter_speed : float;
  camera_iso : float;
  camera_near : float;
  camera_far : float;
  camera_position : Vector3;
  camera_direction : Vector3;
  resolution_output : Vector2;
  resolution_render : Vector2;
  taa_jitter_offset : Vector2;
  bloom_intensity : float;
  sharpen_strength : float;
  fog : float;
  tonemapping : float;
  gamma : float;
  shadow_resolution : float;
  frame_mip_count : Z;
  ssr_mip_count : Z;
  resolution_environment : Vector2;
  directional_light_intensity : float;
  options : Z
}.

#[global] Instance Cb_Frame_eq_dec : EqDecision Cb_Frame.
Proof. solve_decision. Defined.

Definition set_view v (r : Cb_Frame) : Cb_Frame :=
  mkCbFrame v (projection r) (projection_inverted r) (projection_ortho r) (view_projection r) (view_projection_inv r) (view_projection_ortho r) (view_projection_unjittered r) (view_projection_previous r) (delta_time r) (time r) (frame r) (camera_aperture r) (camera_shutter_speed r) (camera_iso r) (camera_near r) (camera_far r) (camera_position r) (camera_direction r) (resolution_output r) (resolution_render r) (taa_jitter_offset r) (bloom_intensity r) (sharpen_strength r) (fog r) (tonemapping r) (gamma r) (shadow_resolution r) (frame_mip_count r) (ssr_mip_count r) (resolution_environment r) (directional_light_intensity r) (options r).

Definition set_projection v (r : Cb_Frame) : Cb_Frame :=
  mkCbFrame (view r) v (projection_inverted r) (projection_ortho r) (view_projection r) (view_projection_inv r) (view_projection_ortho r) (view_projection_unjittered r) (view_projection_previous r) (delta_time r) (time r) (frame r) (camera_aperture r) (camera_shutter_speed r) (camera_iso r) (camera_near r) (camera_far r) (camera_position r) (camera_direction r) (resolution_output r) (resolution_render r) (taa_jitter_offset r) (bloom_intensity r) (sharpen_strength r) (fog r) (tonemapping r) (gamma r) (shadow_resolution r) (frame_mip_count r) (ssr_mip_count r) (resolution_environment r) (directional_light_intensity r) (options r).

Definition set_projection_inverted v (r : Cb_Frame) : Cb_Frame :=
  mkCbFrame (view r) (projection r) v (projection_ortho r) (view_projection r) (view_projection_inv r) (view_projection_ortho r) (view_projection_unjittered r) (view_projection_previous r) (delta_time r) (time r) (frame r) (camera_aperture r) (camera_shutter_speed r) (camera_iso r) (camera_near r) (camera_far r) (camera_position r) (camera_direction r) (resolution_output r) (resolution_render r) (taa_jitter_offset r) (bloom_intensity r) (sharpen_strength r) (fog r) (tonemapping r) (gamma r) (shadow_resolution r) (frame_mip_count r) (ssr_mip_count r) (resolution_environment r) (directional_light_intensity r) (options r).

Definition set_projection_ortho v (r : Cb_Frame) : Cb_Frame :=
  mkCbFrame (view r) (projection r) (projection_inverted r) v (view_projection r) (view_projection_inv r) (view_projection_ortho r) (view_projection_unjittered r) (view_projection_previous r) (delta_time r) (time r) (frame r) (camera_aperture r) (camera_shutter_speed r) (camera_iso r) (camera_near r) (camera_far r) (camera_position r) (camera_direction r) (resolution_output r) (resolution_render r) (taa_jitter_offset r) (bloom_intensity r) (sharpen_strength r) (fog r) (tonemapping r) (gamma r) (shadow_resolution r) (frame_mip_count r) (ssr_mip_count r) (resolution_environment r) (directional_light_intensity r) (options r).

Definition set_view_projection v (r : Cb_Frame) : Cb_Frame :=
  mkCbFrame (view r) (projection r) (projection_inverted r) (projection_ortho r) v (view_projection_inv r) (view_projection_ortho r) (view_projection_unjittered r) (view_projection_previous r) (delta_time r) (time r) (frame r) (camera_aperture r) (camera_shutter_speed r) (camera_iso r) (camera_near r) (camera_far r) (camera_position r) (camera_direction r) (resolution_output r) (resolution_render r) (taa_jitter_offset r) (bloom_intensity r) (sharpen_strength r) (fog r) (tonemapping r) (gamma r) (shadow_resolution r) (frame_mip_count r) (ssr_mip_count r) (resolution_environment r) (directional_light_intensity r) (options r).

Definition set_view_projection_inv v (r : Cb_Frame) : Cb_Frame :=
  mkCbFrame (view r) (projection r) (projection_inverted r) (projection_ortho r) (view_projection r) v (view_projection_ortho r) (view_projection_unjittered r) (view_projection_previous r) (delta_time r) (time r) (frame r) (camera_aperture r) (camera_shutter_speed r) (camera_iso r) (camera_near r) (camera_far r) (camera_position r) (camera_direction r) (resolution_output r) (resolution_render r) (taa_jitter_offset r) (bloom_intensity r) (sharpen_strength r) (fog r) (tonemapping r) (gamma r) (shadow_resolution r) (frame_mip_count r) (ssr_mip_count r) (resolution_environment r) (directional_light_intensity r) (options r).

Definition set_view_projection_ortho v (r : Cb_Frame) : Cb_Frame :=
  mkCbFrame (view r) (projection r) (projection_inverted r) (projection_ortho r) (view_projection r) (view_projection_inv r) v (view_projection_unjittered r) (view_projection_previous r) (delta_time r) (time r) (frame r) (camera_aperture r) (camera_shutter_speed r) (camera_iso r) (camera_near r) (camera_far r) (camera_position r) (camera_direction r) (resolution_output r) (resolution_render r) (taa_jitter_offset r) (bloom_intensity r) (sharpen_strength r) (fog r) (tonemapping r) (gamma r) (shadow_resolution r) (frame_mip_count r) (ssr_mip_count r) (resolution_environment r) (directional_light_intensity r) (options r).

Definition set_view_projection_unjittered v (r : Cb_Frame) : Cb_Frame :=
  mkCbFrame (view r) (projection r) (projection_inverted r) (projection_ortho r) (view_projection r) (view_projection_inv r) (view_projection_ortho r) v (view_projection_previous r) (delta_time r) (time r) (frame r) (camera_aperture r) (camera_shutter_speed r) (camera_iso r) (camera_near r) (camera_far r) (camera_position r) (camera_direction r) (resolution_output r) (resolution_render r) (taa_jitter_offset r) (bloom_intensity r) (sharpen_strength r) (fog r) (tonemapping r) (gamma r) (shadow_resolution r) (frame_mip_count r) (ssr_mip_count r) (resolution_environment r) (directional_light_intensity r) (options r).

Definition set_view_projection_previous v (r : Cb_Frame) : Cb_Frame :=
  mkCbFrame (view r) (projection r) (projection_inverted r) (projection_ortho r) (view_projection r) (view_projection_inv r) (view_projection_ortho r) (view_projection_unjittered r) v (delta_time r) (time r) (frame r) (camera_aperture r) (camera_shutter_speed r) (camera_iso r) (camera_near r) (camera_far r) (camera_position r) (camera_direction r) (resolution_output r) (resolution_render r) (taa_jitter_offset r) (bloom_intensity r) (sharpen_strength r) (fog r) (tonemapping r) (gamma r) (shadow_resolution r) (frame_mip_count r) (ssr_mip_count r) (resolution_environment r) (directional_light_intensity r) (options r).

Definition set_delta_time v (r : Cb_Frame) : Cb_Frame :=
  mkCbFrame (view r) (projection r) (projection_inverted r) (projection_ortho r) (view_projection r) (view_projection_inv r) (view_projection_ortho r) (view_projection_unjittered r) (view_projection_previous r) v (time r) (frame r) (camera_aperture r) (camera_shutter_speed r) (camera_iso r) (camera_near r) (camera_far r) (camera_position r) (camera_direction r) (resolution_output r) (resolution_render r) (taa_jitter_offset r) (bloom_intensity r) (sharpen_strength r) (fog r) (tonemapping r) (gamma r) (shadow_resolution r) (frame_mip_count r) (ssr_mip_count r) (resolution_environment r) (directional_light_intensity r) (options r).

Definition set_time v (r : Cb_Frame) : Cb_Frame :=
  mkCbFrame (view r) (projection r) (projection_inverted r) (projection_ortho r) (view_projection r) (view_projection_inv r) (view_projection_ortho r) (view_projection_unjittered r) (view_projection_previous r) (delta_time r) v (frame r) (camera_aperture r) (camera_shutter_speed r) (camera_iso r) (camera_near r) (camera_far r) (camera_position r) (camera_direction r) (resolution_output r) (resolution_render r) (taa_jitter_offset r) (bloom_intensity r) (sharpen_strength r) (fog r) (tonemapping r) (gamma r) (shadow_resolution r) (frame_mip_count r) (ssr_mip_count r) (resolution_environment r) (directional_light_intensity r) (options r).

Definition set_frame v (r : Cb_Frame) : Cb_Frame :=
  mkCbFrame (view r) (projection r) (projection_inverted r) (projection_ortho r) (view_projection r) (view_projection_inv r) (view_projection_ortho r) (view_projection_unjittered r) (view_projection_previous r) (delta_time r) (time r) v (camera_aperture r) (camera_shutter_speed r) (camera_iso r) (camera_near r) (camera_far r) (camera_position r) (camera_direction r) (resolution_output r) (resolution_render r) (taa_jitter_offset r) (bloom_intensity r) (sharpen_strength r) (fog r) (tonemapping r) (gamma r) (shadow_resolution r) (frame_mip_count r) (ssr_mip_count r) (resolution_environment r) (directional_light_intensity r) (options r).

Definition set_camera_aperture v (r : Cb_Frame) : Cb_Frame :=
  mkCbFrame (view r) (projection r) (projection_inverted r) (projection_ortho r) (view_projection r) (view_projection_inv r) (view_projection_ortho r) (view_projection_unjittered r) (view_projection_previous r) (delta_time r) (time r) (frame r) v (camera_shutter_speed r) (camera_iso r) (camera_near r) (camera_far r) (camera_position r) (camera_direction r) (resolution_output r) (resolution_render r) (taa_jitter_offset r) (bloom_intensity r) (sharpen_strength r) (fog r) (tonemapping r) (gamma r) (shadow_resolution r) (frame_mip_count r) (ssr_mip_count r) (resolution_environment r) (directional_light_intensity r) (options r).

Definition set_camera_shutter_speed v (r : Cb_Frame) : Cb_Frame :=
  mkCbFrame (view r) (projection r) (projection_inverted r) (projection_ortho r) (view_projection r) (view_projection_inv r) (view_projection_ortho r) (view_projection_unjittered r) (view_projection_previous r) (delta_time r) (time r) (frame r) (camera_aperture r) v (camera_iso r) (camera_near r) (camera_far r) (camera_position r) (camera_direction r) (resolution_output r) (resolution_render r) (taa_jitter_offset r) (bloom_intensity r) (sharpen_strength r) (fog r) (tonemapping r) (gamma r) (shadow_resolution r) (frame_mip_count r) (ssr_mip_count r) (resolution_environment r) (directional_light_intensity r) (options r).

Definition set_camera_iso v (r : Cb_Frame) : Cb_Frame :=
  mkCbFrame (view r) (projection r) (projection_inverted r) (projection_ortho r) (view_projection r) (view_projection_inv r) (view_projection_ortho r) (view_projection_unjittered r) (view_projection_previous r) (delta_time r) (time r) (frame r) (camera_aperture r) (camera_shutter_speed r) v (camera_near r) (camera_far r) (camera_position r) (camera_direction r) (resolution_output r) (resolution_render r) (taa_jitter_offset r) (bloom_intensity r) (sharpen_strength r) (fog r) (tonemapping r) (gamma r) (shadow_resolution r) (frame_mip_count r) (ssr_mip_count r) (resolution_environment r) (directional_light_intensity r) (options r).

Definition set_camera_near v (r : Cb_Frame) : Cb_Frame :=
  mkCbFrame (view r) (projection r) (projection_inverted r) (projection_ortho r) (view_projection r) (view_projection_inv r) (view_projection_ortho r) (view_projection_unjittered r) (view_projection_previous r) (delta_time r) (time r) (frame r) (camera_aperture r) (camera_shutter_speed r) (camera_iso r) v (camera_far r) (camera_position r) (camera_direction r) (resolution_output r) (resolution_render r) (taa_jitter_offset r) (bloom_intensity r) (sharpen_strength r) (fog r) (tonemapping r) (gamma r) (shadow_resolution r) (frame_mip_count r) (ssr_mip_count r) (resolution_environment r) (directional_light_intensity r) (options r).

Definition set_camera_far v (r : Cb_Frame) : Cb_Frame :=
  mkCbFrame (view r) (projection r) (projection_inverted r) (projection_ortho r) (view_projection r) (view_projection_inv r) (view_projection_ortho r) (view_projection_unjittered r) (view_projection_previous r) (delta_time r) (time r) (frame r) (camera_aperture r) (camera_shutter_speed r) (camera_iso r) (camera_near r) v (camera_position r) (camera_direction r) (resolution_output r) (resolution_render r) (taa_jitter_offset r) (bloom_intensity r) (sharpen_strength r) (fog r) (tonemapping r) (gamma r) (shadow_resolution r) (frame_mip_count r) (ssr_mip_count r) (resolution_environment r) (directional_light_intensity r) (options r).

Definition set_camera_position v (r : Cb_Frame) : Cb_Frame :=
  mkCbFrame (view r) (projection r) (projection_inverted r) (projection_ortho r) (view_projection r) (view_projection_inv r) (view_projection_ortho r) (view_projection_unjittered r) (view_projection_previous r) (delta_time r) (time r) (frame r) (camera_aperture r) (camera_shutter_speed r) (camera_iso r) (camera_near r) (camera_far r) v (camera_direction r) (resolution_output r) (resolution_render r) (taa_jitter_offset r) (bloom_intensity r) (sharpen_strength r) (fog r) (tonemapping r) (gamma r) (shadow_resolution r) (frame_mip_count r) (ssr_mip_count r) (resolution_environment r) (directional_light_intensity r) (options r).

Definition set_camera_direction v (r : Cb_Frame) : Cb_Frame :=
  mkCbFrame (view r) (projection r) (projection_inverted r) (projection_ortho r) (view_projection r) (view_projection_inv r) (view_projection_ortho r) (view_projection_unjittered r) (view_projection_previous r) (delta_time r) (time r) (frame r) (camera_aperture r) (camera_shutter_speed r) (camera_iso r) (camera_near r) (camera_far r) (camera_position r) v (resolution_output r) (resolution_render r) (taa_jitter_offset r) (bloom_intensity r) (sharpen_strength r) (fog r) (tonemapping r) (gamma r) (shadow_resolution r) (frame_mip_count r) (ssr_mip_count r) (resolution_environment r) (directional_light_intensity r) (options r).

Definition set_resolution_output v (r : Cb_Frame) : Cb_Frame :=
  mkCbFrame (view r) (projection r) (projection_inverted r) (projection_ortho r) (view_projection r) (view_projection_inv r) (view_projection_ortho r) (view_projection_unjittered r) (view_projection_previous r) (delta_time r) (time r) (frame r) (camera_aperture r) (camera_shutter_speed r) (camera_iso r) (camera_near r) (camera_far r) (camera_position r) (camera_direction r) v (resolution_render r) (taa_jitter_offset r) (bloom_intensity r) (sharpen_strength r) (fog r) (tonemapping r) (gamma r) (shadow_resolution r) (frame_mip_count r) (ssr_mip_count r) (resolution_environment r) (directional_light_intensity r) (options r).

Definition set_resolution_render v (r : Cb_Frame) : Cb_Frame :=
  mkCbFrame (view r) (projection r) (projection_inverted r) (projection_ortho r) (view_projection r) (view_projection_inv r) (view_projection_ortho r) (view_projection_unjittered r) (view_projection_previous r) (delta_time r) (time r) (frame r) (camera_aperture r) (camera_shutter_speed r) (camera_iso r) (camera_near r) (camera_far r) (camera_position r) (camera_direction r) (resolution_output r) v (taa_jitter_offset r) (bloom_intensity r) (sharpen_strength r) (fog r) (tonemapping r) (gamma r) (shadow_resolution r) (frame_mip_count r) (ssr_mip_count r) (resolution_environment r) (directional_light_intensity r) (options r).

Definition set_taa_jitter_offset v (r : Cb_Frame) : Cb_Frame :=
  mkCbFrame (view r) (projection r) (projection_inverted r) (projection_ortho r) (view_projection r) (view_projection_inv r) (view_projection_ortho r) (view_projection_unjittered r) (view_projection_previous r) (delta_time r) (time r) (frame r) (camera_aperture r) (camera_shutter_speed r) (camera_iso r) (camera_near r) (camera_far r) (camera_position r) (camera_direction r) (resolution_output r) (resolution_render r) v (bloom_intensity r) (sharpen_strength r) (fog r) (tonemapping r) (gamma r) (shadow_resolution r) (frame_mip_count r) (ssr_mip_count r) (resolution_environment r) (directional_light_intensity r) (options r).

Definition set_bloom_intensity v (r : Cb_Frame) : Cb_Frame :=
  mkCbFrame (view r) (projection r) (projection_inverted r) (projection_ortho r) (view_projection r) (view_projection_inv r) (view_projection_ortho r) (view_projection_unjittered r) (view_projection_previous r) (delta_time r) (time r) (frame r) (camera_aperture r) (camera_shutter_speed r) (camera_iso r) (camera_near r) (camera_far r) (camera_position r) (camera_direction r) (resolution_output r) (resolution_render r) (taa_jitter_offset r) v (sharpen_strength r) (fog r) (tonemapping r) (gamma r) (shadow_resolution r) (frame_mip_count r) (ssr_mip_count r) (resolution_environment r) (directional_light_intensity r) (options r).

Definition set_sharpen_strength v (r : Cb_Frame) : Cb_Frame :=
  mkCbFrame (view r) (projection r) (projection_inverted r) (projection_ortho r) (view_projection r) (view_projection_inv r) (view_projection_ortho r) (view_projection_unjittered r) (view_projection_previous r) (delta_time r) (time r) (frame r) (camera_aperture r) (camera_shutter_speed r) (camera_iso r) (camera_near r) (camera_far r) (camera_position r) (camera_direction r) (resolution_output r) (resolution_render r) (taa_jitter_offset r) (bloom_intensity r) v (fog r) (tonemapping r) (gamma r) (shadow_resolution r) (frame_mip_count r) (ssr_mip_count r) (resolution_environment r) (directional_light_intensity r) (options r).

Definition set_fog v (r : Cb_Frame) : Cb_Frame :=
  mkCbFrame (view r) (projection r) (projection_inverted r) (projection_ortho r) (view_projection r) (view_projection_inv r) (view_projection_ortho r) (view_projection_unjittered r) (view_projection_previous r) (delta_time r) (time r) (frame r) (camera_aperture r) (camera_shutter_speed r) (camera_iso r) (camera_near r) (camera_far r) (camera_position r) (camera_direction r) (resolution_output r) (resolution_render r) (taa_jitter_offset r) (bloom_intensity r) (sharpen_strength r) v (tonemapping r) (gamma r) (shadow_resolution r) (frame_mip_count r) (ssr_mip_count r) (resolution_environment r) (directional_light_intensity r) (options r).

Definition set_tonemapping v (r : Cb_Frame) : Cb_Frame :=
  mkCbFrame (view r) (projection r) (projection_inverted r) (projection_ortho r) (view_projection r) (view_projection_inv r) (view_projection_ortho r) (view_projection_unjittered r) (view_projection_previous r) (delta_time r) (time r) (frame r) (camera_aperture r) (camera_shutter_speed r) (camera_iso r) (camera_near r) (camera_far r) (camera_position r) (camera_direction r) (resolution_output r) (resolution_render r) (taa_jitter_offset r) (bloom_intensity r) (sharpen_strength r) (fog r) v (gamma r) (shadow_resolution r) (frame_mip_count r) (ssr_mip_count r) (resolution_environment r) (directional_light_intensity r) (options r).

Definition set_gamma v (r : Cb_Frame) : Cb_Frame :=
  mkCbFrame (view r) (projection r) (projection_inverted r) (projection_ortho r) (view_projection r) (view_projection_inv r) (view_projection_ortho r) (view_projection_unjittered r) (view_projection_previous r) (delta_time r) (time r) (frame r) (camera_aperture r) (camera_shutter_speed r) (camera_iso r) (camera_near r) (camera_far r) (camera_position r) (camera_direction r) (resolution_output r) (resolution_render r) (taa_jitter_offset r) (bloom_intensity r) (sharpen_strength r) (fog r) (tonemapping r) v (shadow_resolution r) (frame_mip_count r) (ssr_mip_count r) (resolution_environment r) (directional_light_intensity r) (options r).

Definition set_shadow_resolution v (r : Cb_Frame) : Cb_Frame :=
  mkCbFrame (view r) (projection r) (projection_inverted r) (projection_ortho r) (view_projection r) (view_projection_inv r) (view_projection_ortho r) (view_projection_unjittered r) (view_projection_previous r) (delta_time r) (time r) (frame r) (camera_aperture r) (camera_shutter_speed r) (camera_iso r) (camera_near r) (camera_far r) (camera_position r) (camera_direction r) (resolution_output r) (resolution_render r) (taa_jitter_offset r) (bloom_intensity r) (sharpen_strength r) (fog r) (tonemapping r) (gamma r) v (frame_mip_count r) (ssr_mip_count r) (resolution_environment r) (directional_light_intensity r) (options r).

Definition set_frame_mip_count v (r : Cb_Frame) : Cb_Frame :=
  mkCbFrame (view r) (projection r) (projection_inverted r) (projection_ortho r) (view_projection r) (view_projection_inv r) (view_projection_ortho r) (view_projection_unjittered r) (view_projection_previous r) (delta_time r) (time r) (frame r) (camera_aperture r) (camera_shutter_speed r) (camera_iso r) (camera_near r) (camera_far r) (camera_position r) (camera_direction r) (resolution_output r) (resolution_render r) (taa_jitter_offset r) (bloom_intensity r) (sharpen_strength r) (fog r) (tonemapping r) (gamma r) (shadow_resolution r) v (ssr_mip_count r) (resolution_environment r) (directional_light_intensity r) (options r).

Definition set_ssr_mip_count v (r : Cb_Frame) : Cb_Frame :=
  mkCbFrame (view r) (projection r) (projection_inverted r) (projection_ortho r) (view_projection r) (view_projection_inv r) (view_projection_ortho r) (view_projection_unjittered r) (view_projection_previous r) (delta_time r) (time r) (frame r) (camera_aperture r) (camera_shutter_speed r) (camera_iso r) (camera_near r) (camera_far r) (camera_position r) (camera_direction r) (resolution_output r) (resolution_render r) (taa_jitter_offset r) (bloom_intensity r) (sharpen_strength r) (fog r) (tonemapping r) (gamma r) (shadow_resolution r) (frame_mip_count r) v (resolution_environment r) (directional_light_intensity r) (options r).

Definition set_resolution_environment v (r : Cb_Frame) : Cb_Frame :=
  mkCbFrame (view r) (projection r) (projection_inverted r) (projection_ortho r) (view_projection r) (view_projection_inv r) (view_projection_ortho r) (view_projection_unjittered r) (view_projection_previous r) (delta_time r) (time r) (frame r) (camera_aperture r) (camera_shutter_speed r) (camera_iso r) (camera_near r) (camera_far r) (camera_position r) (camera_direction r) (resolution_output r) (resolution_render r) (taa_jitter_offset r) (bloom_intensity r) (sharpen_strength r) (fog r) (tonemapping r) (gamma r) (shadow_resolution r) (frame_mip_count r) (ssr_mip_count r) v (directional_light_intensity r) (options r).

Definition set_directional_light_intensity v (r : Cb_Frame) : Cb_Frame :=
  mkCbFrame (view r) (projection r) (projection_inverted r) (projection_ortho r) (view_projection r) (view_projection_inv r) (view_projection_ortho r) (view_projection_unjittered r) (view_projection_previous r) (delta_time r) (time r) (frame r) (camera_aperture r) (camera_shutter_speed r) (camera_iso r) (camera_near r) (camera_far r) (camera_position r) (camera_direction r) (resolution_output r) (resolution_render r) (taa_jitter_offset r) (bloom_intensity r) (sharpen_strength r) (fog r) (tonemapping r) (gamma r) (shadow_resolution r) (frame_mip_count r) (ssr_mip_count r) (resolution_environment r) v (options r).

Definition set_options v (r : Cb_Frame) : Cb_Frame :=
  mkCbFrame (view r) (projection r) (projection_inverted r) (projection_ortho r) (view_projection r) (view_projection_inv r) (view_projection_ortho r) (view_projection_unjittered r) (view_projection_previous r) (delta_time r) (time r) (frame r) (camera_aperture r) (camera_shutter_speed r) (camera_iso r) (camera_near r) (camera_far r) (camera_position r) (camera_direction r) (resolution_output r) (resolution_render r) (taa_jitter_offset r) (bloom_intensity r) (sharpen_strength r) (fog r) (tonemapping r) (gamma r) (shadow_resolution r) (frame_mip_count r) (ssr_mip_count r) (resolution_environment r) (directional_light_intensity r) v.

(** Modelled from the spec: [Cb_Frame::set_bit] is declared outside src/;
    the frame block carries a "feature-toggle bitmask". *)
Definition set_bit (set : bool) (bit : Z) (cb : Cb_Frame) : Cb_Frame :=
  set_options (if set then Z.lor (options cb) bit
               else Z.land (options cb) (Z.lxor (2 ^ 32 - 1) bit)) cb.

(** The per-draw block: [transform] is written by
    [SetGlobalShaderObjectTransform], the other fields by the passes. *)
Record Cb_Uber : Type := mkCbUber {
  transform : Matrix;
  uber_fields : list float
}.

#[global] Instance Cb_Uber_eq_dec : EqDecision Cb_Uber.
Proof. solve_decision. Defined.

(** Modelled from the spec: [RHI_ConstantBuffer] is declared outside src/.
    "A GPU buffer with N offset slots": [GetOffsetCount] slots of
    [GetStride] bytes; [m_mapped] is what has been copied into the buffer,
    by byte offset.  Re-creating the buffer gives it the requested number
    of slots and fresh memory. *)
Record RHI_ConstantBuffer (T : Type) : Type := mkConstantBuffer {
  IsDynamic : bool;
  GetOffsetCount : Z;
  GetStride : Z;
  m_offset_index_dynamic : Z;
  m_mapped : gmap Z T
}.

Arguments mkConstantBuffer {T}.
Arguments IsDynamic {T}.
Arguments GetOffsetCount {T}.
Arguments GetStride {T}.
Arguments m_offset_index_dynamic {T}.
Arguments m_mapped {T}.

Definition ConstantBuffer_Create {T : Type} (offset_count : Z) (b : RHI_ConstantBuffer T)
  : RHI_ConstantBuffer T :=
  mkConstantBuffer (IsDynamic b) offset_count (GetStride b) (m_offset_index_dynamic b) ∅.

Definition SetOffsetIndexDynamic {T : Type} (offset_index : Z) (b : RHI_ConstantBuffer T)
  : RHI_ConstantBuffer T :=
  mkConstantBuffer (IsDynamic b) (GetOffsetCount b) (GetStride b) offset_index (m_mapped b).

Definition ConstantBuffer_write {T : Type} (offset : Z) (x : T) (b : RHI_ConstantBuffer T)
  : RHI_ConstantBuffer T :=
  mkConstantBuffer (IsDynamic b) (GetOffsetCount b) (GetStride b) (m_offset_index_dynamic b)
    (<[offset := x]> (m_mapped b)).

(** Modelled from the spec: [Math::Helper::NextPowerOfTwo] is declared
    outside src/.  "The buffer capacity after growth is the smallest power
    of two >= requested index + 1". *)
Definition NextPowerOfTwo (x : Z) : Z := 2 ^ Z.log2_up x.

(** The outcome of [update_dynamic_buffer]: the value returned and the
    four objects it was given by reference or pointer. *)
Record Updated (T : Type) : Type := mkUpdated {
  upd_result : bool;
  upd_world : World;
  upd_buffer_gpu : RHI_ConstantBuffer T;
  upd_buffer_cpu_previous : T;
  upd_offset_index : Z
}.

Arguments mkUpdated {T}.
Arguments upd_result {T}.
Arguments upd_world {T}.
Arguments upd_buffer_gpu {T}.
Arguments upd_buffer_cpu_previous {T}.
Arguments upd_offset_index {T}.

(** [update_dynamic_buffer<T>]; [equal] is [operator==] of [T].  The
    command list is the one of the world, so [cmd_list != nullptr] holds. *)
Definition update_dynamic_buffer {T : Type} (equal : T -> T -> bool) (d : Driver)
  (w : World) (buffer_gpu : RHI_ConstantBuffer T) (buffer_cpu buffer_cpu_previous : T)
  (offset_index : Z) : Result (Updated T) :=
  (* Only update if needed *)
  if equal buffer_cpu buffer_cpu_previous
  then Ok (mkUpdated true w buffer_gpu buffer_cpu_previous offset_index)
  else
    let offset_index := u32 (offset_index + 1) in
    (* Re-allocate buffer with double size (if needed) *)
    '(created, w, buffer_gpu) ←
      (if IsDynamic buffer_gpu && (GetOffsetCount buffer_gpu <=? offset_index)
       then
         '(_, w) ← Flush d true w;
         let new_size := u32 (NextPowerOfTwo (u32 (offset_index + 1))) in
         if negb (ConstantBuffer_Create_ok d)
         then Ok (false, write_log (LOG_ERROR "Failed to re-allocate buffer") w, buffer_gpu)
         else Ok (true, write_log (LOG_INFO "Increased buffer offsets") w,
                  ConstantBuffer_Create new_size buffer_gpu)
       else Ok (true, w, buffer_gpu));
    if negb created
    then Ok (mkUpdated false w buffer_gpu buffer_cpu_previous offset_index)
    else
      (* Set new buffer offset *)
      let buffer_gpu := if IsDynamic buffer_gpu
                        then SetOffsetIndexDynamic offset_index buffer_gpu
                        else buffer_gpu in
      (* Map *)
      if negb (ConstantBuffer_Map_ok d)
      then Ok (mkUpdated false (write_log (LOG_ERROR "Failed to map buffer") w) buffer_gpu
                 buffer_cpu_previous offset_index)
      else
        let size := GetStride buffer_gpu in
        let offset := u64 (offset_index * size) in
        (* Update *)
        let buffer_gpu := if IsDynamic buffer_gpu
                          then ConstantBuffer_write offset buffer_cpu buffer_gpu
                          else ConstantBuffer_write 0 buffer_cpu buffer_gpu in
        (* Unmap *)
        Ok (mkUpdated (ConstantBuffer_Unmap_ok d) w buffer_gpu buffer_cpu offset_index).

(** The last two statements the four [Update_Cb_*] functions share: the
    update, and when it succeeded the rebinding of the buffer ("dynamic
    buffers with offsets have to be rebound whenever the offset changes"). *)
Definition update_and_rebind {T : Type} (equal : T -> T -> bool) (d : Driver)
  (slot scope : Z) (handle : option nat)
  (w : World) (buffer_gpu : RHI_ConstantBuffer T) (buffer_cpu buffer_cpu_previous : T)
  (offset_index : Z) : Result (Updated T) :=
  u ← update_dynamic_buffer equal d w buffer_gpu buffer_cpu buffer_cpu_previous offset_index;
  if negb (upd_result u) then Ok u
  else
    w ← SetConstantBuffer slot scope handle (upd_world u);
    Ok (mkUpdated true w (upd_buffer_gpu u) (upd_buffer_cpu_previous u) (upd_offset_index u)).

(** ** The renderer *)

(** Modelled from the spec: the [RHI_SwapChain] with [PresentEnabled] is
    declared outside src/ (the one under src/ is older).  [Resize] keeps
    the dimensions as the one under src/ does; "zero dimensions =>
    presentation disabled". *)
Record RHI_SwapChain : Type := mkSwapChain {
  m_present_enabled : bool;
  m_width_ : Z;
  m_height_ : Z
}.

Definition SwapChain_Resize (width height : Z) (sc : RHI_SwapChain) : RHI_SwapChain :=
  mkSwapChain (negb (width =? 0) && negb (height =? 0)) width height.

Inductive Renderer_Option : Type :=
| Render_AntiAliasing_Taa
| Render_ScreenSpaceReflections
| Render_Upsample_TAA
| Render_Ssao.

(** The enumerators of [Renderer_Option] are declared outside src/; each
    is one bit of [m_options]. *)
Definition Renderer_Option_bit (o : Renderer_Option) : Z :=
  match o with
  | Render_AntiAliasing_Taa => 2 ^ 0
  | Render_ScreenSpaceReflections => 2 ^ 1
  | Render_Upsample_TAA => 2 ^ 2
  | Render_Ssao => 2 ^ 3
  end.

Inductive Renderer_Option_Value : Type :=
| Anisotropy
| ShadowResolution
| Tonemapping
| Gamma
| Sharpen_Strength
| Bloom_Intensity
| Fog
| Ssao_Gi.

Record Renderer : Type := mkRenderer {
  m_rhi_device : option bool   (* Some b: the device exists, IsInitialised() = b *);
  m_swap_chain : option RHI_SwapChain;
  m_flush_requested : bool;
  m_is_rendering_allowed : bool;
  m_cmd_lists : list RHI_CommandList;
  m_cmd_index : Z;
  m_cmd_current : option nat   (* position in m_cmd_lists *);
  m_textures : gmap nat RHI_Texture   (* the textures, by handle *);
  m_descriptor_set_layout_cache : RHI_DescriptorSetLayoutCache;
  m_profiler : Profiler;
  m_log : list LogEntry;
  m_resources : RendererResources;
  rt_Frame_Output : option nat   (* RENDER_TARGET(RendererRt::Frame_Output).get() *);
  rt_Frame_Render : option nat;
  rt_Ssr : option nat;
  m_tex_environment : option nat;
  m_camera : option Camera;
  m_entities : Entities;
  m_cb_frame_cpu : Cb_Frame;
  m_cb_frame_cpu_previous : Cb_Frame;
  m_cb_frame_buffer : RHI_ConstantBuffer Cb_Frame   (* *m_cb_frame_gpu *);
  m_cb_frame_offset_index : Z;
  m_cb_uber_cpu : Cb_Uber;
  m_cb_uber_cpu_previous : Cb_Uber;
  m_cb_uber_buffer : RHI_ConstantBuffer Cb_Uber   (* *m_cb_uber_gpu *);
  m_cb_uber_offset_index : Z;
  m_cb_light_offset_index : Z;
  m_cb_material_offset_index : Z;
  m_update_ortho_proj : bool;
  m_near_plane : float;
  m_far_plane : float;
  m_viewport_width : float;
  m_viewport_height : float;
  m_resolution_render : Vector2;
  m_resolution_output : Vector2;
  m_taa_jitter : Vector2;
  m_taa_jitter_previous : Vector2;
  m_options : Z;
  m_option_values : Renderer_Option_Value -> float;
  m_frame_num : Z;
  m_is_odd_frame : bool;
  m_passes_run : nat   (* ghost: calls of Pass_Main *)
}.

Definition set_m_rhi_device v (r : Renderer) : Renderer :=
  mkRenderer v (m_swap_chain r) (m_flush_requested r) (m_is_rendering_allowed r) (m_cmd_lists r) (m_cmd_index r) (m_cmd_current r) (m_textures r) (m_descriptor_set_layout_cache r) (m_profiler r) (m_log r) (m_resources r) (rt_Frame_Output r) (rt_Frame_Render r) (rt_Ssr r) (m_tex_environment r) (m_camera r) (m_entities r) (m_cb_frame_cpu r) (m_cb_frame_cpu_previous r) (m_cb_frame_buffer r) (m_cb_frame_offset_index r) (m_cb_uber_cpu r) (m_cb_uber_cpu_previous r) (m_cb_uber_buffer r) (m_cb_uber_offset_index r) (m_cb_light_offset_index r) (m_cb_material_offset_index r) (m_update_ortho_proj r) (m_near_plane r) (m_far_plane r) (m_viewport_width r) (m_viewport_height r) (m_resolution_render r) (m_resolution_output r) (m_taa_jitter r) (m_taa_jitter_previous r) (m_options r) (m_option_values r) (m_frame_num r) (m_is_odd_frame r) (m_passes_run r).

Definition set_m_swap_chain v (r : Renderer) : Renderer :=
  mkRenderer (m_rhi_device r) v (m_flush_requested r) (m_is_rendering_allowed r) (m_cmd_lists r) (m_cmd_index r) (m_cmd_current r) (m_textures r) (m_descriptor_set_layout_cache r) (m_profiler r) (m_log r) (m_resources r) (rt_Frame_Output r) (rt_Frame_Render r) (rt_Ssr r) (m_tex_environment r) (m_camera r) (m_entities r) (m_cb_frame_cpu r) (m_cb_frame_cpu_previous r) (m_cb_frame_buffer r) (m_cb_frame_offset_index r) (m_cb_uber_cpu r) (m_cb_uber_cpu_previous r) (m_cb_uber_buffer r) (m_cb_uber_offset_index r) (m_cb_light_offset_index r) (m_cb_material_offset_index r) (m_update_ortho_proj r) (m_near_plane r) (m_far_plane r) (m_viewport_width r) (m_viewport_height r) (m_resolution_render r) (m_resolution_output r) (m_taa_jitter r) (m_taa_jitter_previous r) (m_options r) (m_option_values r) (m_frame_num r) (m_is_odd_frame r) (m_passes_run r).

Definition set_m_flush_requested v (r : Renderer) : Renderer :=
  mkRenderer (m_rhi_device r) (m_swap_chain r) v (m_is_rendering_allowed r) (m_cmd_lists r) (m_cmd_index r) (m_cmd_current r) (m_textures r) (m_descriptor_set_layout_cache r) (m_profiler r) (m_log r) (m_resources r) (rt_Frame_Output r) (rt_Frame_Render r) (rt_Ssr r) (m_tex_environment r) (m_camera r) (m_entities r) (m_cb_frame_cpu r) (m_cb_frame_cpu_previous r) (m_cb_frame_buffer r) (m_cb_frame_offset_index r) (m_cb_uber_cpu r) (m_cb_uber_cpu_previous r) (m_cb_uber_buffer r) (m_cb_uber_offset_index r) (m_cb_light_offset_index r) (m_cb_material_offset_index r) (m_update_ortho_proj r) (m_near_plane r) (m_far_plane r) (m_viewport_width r) (m_viewport_height r) (m_resolution_render r) (m_resolution_output r) (m_taa_jitter r) (m_taa_jitter_previous r) (m_options r) (m_option_values r) (m_frame_num r) (m_is_odd_frame r) (m_passes_run r).

Definition set_m_is_rendering_allowed v (r : Renderer) : Renderer :=
  mkRenderer (m_rhi_device r) (m_swap_chain r) (m_flush_requested r) v (m_cmd_lists r) (m_cmd_index r) (m_cmd_current r) (m_textures r) (m_descriptor_set_layout_cache r) (m_profiler r) (m_log r) (m_resources r) (rt_Frame_Output r) (rt_Frame_Render r) (rt_Ssr r) (m_tex_environment r) (m_camera r) (m_entities r) (m_cb_frame_cpu r) (m_cb_frame_cpu_previous r) (m_cb_frame_buffer r) (m_cb_frame_offset_index r) (m_cb_uber_cpu r) (m_cb_uber_cpu_previous r) (m_cb_uber_buffer r) (m_cb_uber_offset_index r) (m_cb_light_offset_index r) (m_cb_material_offset_index r) (m_update_ortho_proj r) (m_near_plane r) (m_far_plane r) (m_viewport_width r) (m_viewport_height r) (m_resolution_render r) (m_resolution_output r) (m_taa_jitter r) (m_taa_jitter_previous r) (m_options r) (m_option_values r) (m_frame_num r) (m_is_odd_frame r) (m_passes_run r).

Definition set_m_cmd_lists v (r : Renderer) : Renderer :=
  mkRenderer (m_rhi_device r) (m_swap_chain r) (m_flush_requested r) (m_is_rendering_allowed r) v (m_cmd_index r) (m_cmd_current r) (m_textures r) (m_descriptor_set_layout_cache r) (m_profiler r) (m_log r) (m_resources r) (rt_Frame_Output r) (rt_Frame_Render r) (rt_Ssr r) (m_tex_environment r) (m_camera r) (m_entities r) (m_cb_frame_cpu r) (m_cb_frame_cpu_previous r) (m_cb_frame_buffer r) (m_cb_frame_offset_index r) (m_cb_uber_cpu r) (m_cb_uber_cpu_previous r) (m_cb_uber_buffer r) (m_cb_uber_offset_index r) (m_cb_light_offset_index r) (m_cb_material_offset_index r) (m_update_ortho_proj r) (m_near_plane r) (m_far_plane r) (m_viewport_width r) (m_viewport_height r) (m_resolution_render r) (m_resolution_output r) (m_taa_jitter r) (m_taa_jitter_previous r) (m_options r) (m_option_values r) (m_frame_num r) (m_is_odd_frame r) (m_passes_run r).

Definition set_m_cmd_index v (r : Renderer) : Renderer :=
  mkRenderer (m_rhi_device r) (m_swap_chain r) (m_flush_requested r) (m_is_rendering_allowed r) (m_cmd_lists r) v (m_cmd_current r) (m_textures r) (m_descriptor_set_layout_cache r) (m_profiler r) (m_log r) (m_resources r) (rt_Frame_Output r) (rt_Frame_Render r) (rt_Ssr r) (m_tex_environment r) (m_camera r) (m_entities r) (m_cb_frame_cpu r) (m_cb_frame_cpu_previous r) (m_cb_frame_buffer r) (m_cb_frame_offset_index r) (m_cb_uber_cpu r) (m_cb_uber_cpu_previous r) (m_cb_uber_buffer r) (m_cb_uber_offset_index r) (m_cb_light_offset_index r) (m_cb_material_offset_index r) (m_update_ortho_proj r) (m_near_plane r) (m_far_plane r) (m_viewport_width r) (m_viewport_height r) (m_resolution_render r) (m_resolution_output r) (m_taa_jitter r) (m_taa_jitter_previous r) (m_options r) (m_option_values r) (m_frame_num r) (m_is_odd_frame r) (m_passes_run r).

Definition set_m_cmd_current v (r : Renderer) : Renderer :=
  mkRenderer (m_rhi_device r) (m_swap_chain r) (m_flush_requested r) (m_is_rendering_allowed r) (m_cmd_lists r) (m_cmd_index r) v (m_textures r) (m_descriptor_set_layout_cache r) (m_profiler r) (m_log r) (m_resources r) (rt_Frame_Output r) (rt_Frame_Render r) (rt_Ssr r) (m_tex_environment r) (m_camera r) (m_entities r) (m_cb_frame_cpu r) (m_cb_frame_cpu_previous r) (m_cb_frame_buffer r) (m_cb_frame_offset_index r) (m_cb_uber_cpu r) (m_cb_uber_cpu_previous r) (m_cb_uber_buffer r) (m_cb_uber_offset_index r) (m_cb_light_offset_index r) (m_cb_material_offset_index r) (m_update_ortho_proj r) (m_near_plane r) (m_far_plane r) (m_viewport_width r) (m_viewport_height r) (m_resolution_render r) (m_resolution_output r) (m_taa_jitter r) (m_taa_jitter_previous r) (m_options r) (m_option_values r) (m_frame_num r) (m_is_odd_frame r) (m_passes_run r).

Definition set_m_textures v (r : Renderer) : Renderer :=
  mkRenderer (m_rhi_device r) (m_swap_chain r) (m_flush_requested r) (m_is_rendering_allowed r) (m_cmd_lists r) (m_cmd_index r) (m_cmd_current r) v (m_descriptor_set_layout_cache r) (m_profiler r) (m_log r) (m_resources r) (rt_Frame_Output r) (rt_Frame_Render r) (rt_Ssr r) (m_tex_environment r) (m_camera r) (m_entities r) (m_cb_frame_cpu r) (m_cb_frame_cpu_previous r) (m_cb_frame_buffer r) (m_cb_frame_offset_index r) (m_cb_uber_cpu r) (m_cb_uber_cpu_previous r) (m_cb_uber_buffer r) (m_cb_uber_offset_index r) (m_cb_light_offset_index r) (m_cb_material_offset_index r) (m_update_ortho_proj r) (m_near_plane r) (m_far_plane r) (m_viewport_width r) (m_viewport_height r) (m_resolution_render r) (m_resolution_output r) (m_taa_jitter r) (m_taa_jitter_previous r) (m_options r) (m_option_values r) (m_frame_num r) (m_is_odd_frame r) (m_passes_run r).

Definition set_m_descriptor_set_layout_cache v (r : Renderer) : Renderer :=
  mkRenderer (m_rhi_device r) (m_swap_chain r) (m_flush_requested r) (m_is_rendering_allowed r) (m_cmd_lists r) (m_cmd_index r) (m_cmd_current r) (m_textures r) v (m_profiler r) (m_log r) (m_resources r) (rt_Frame_Output r) (rt_Frame_Render r) (rt_Ssr r) (m_tex_environment r) (m_camera r) (m_entities r) (m_cb_frame_cpu r) (m_cb_frame_cpu_previous r) (m_cb_frame_buffer r) (m_cb_frame_offset_index r) (m_cb_uber_cpu r) (m_cb_uber_cpu_previous r) (m_cb_uber_buffer r) (m_cb_uber_offset_index r) (m_cb_light_offset_index r) (m_cb_material_offset_index r) (m_update_ortho_proj r) (m_near_plane r) (m_far_plane r) (m_viewport_width r) (m_viewport_height r) (m_resolution_render r) (m_resolution_output r) (m_taa_jitter r) (m_taa_jitter_previous r) (m_options r) (m_option_values r) (m_frame_num r) (m_is_odd_frame r) (m_passes_run r).

Definition set_m_profiler v (r : Renderer) : Renderer :=
  mkRenderer (m_rhi_device r) (m_swap_chain r) (m_flush_requested r) (m_is_rendering_allowed r) (m_cmd_lists r) (m_cmd_index r) (m_cmd_current r) (m_textures r) (m_descriptor_set_layout_cache r) v (m_log r) (m_resources r) (rt_Frame_Output r) (rt_Frame_Render r) (rt_Ssr r) (m_tex_environment r) (m_camera r) (m_entities r) (m_cb_frame_cpu r) (m_cb_frame_cpu_previous r) (m_cb_frame_buffer r) (m_cb_frame_offset_index r) (m_cb_uber_cpu r) (m_cb_uber_cpu_previous r) (m_cb_uber_buffer r) (m_cb_uber_offset_index r) (m_cb_light_offset_index r) (m_cb_material_offset_index r) (m_update_ortho_proj r) (m_near_plane r) (m_far_plane r) (m_viewport_width r) (m_viewport_height r) (m_resolution_render r) (m_resolution_output r) (m_taa_jitter r) (m_taa_jitter_previous r) (m_options r) (m_option_values r) (m_frame_num r) (m_is_odd_frame r) (m_passes_run r).

Definition set_m_log v (r : Renderer) : Renderer :=
  mkRenderer (m_rhi_device r) (m_swap_chain r) (m_flush_requested r) (m_is_rendering_allowed r) (m_cmd_lists r) (m_cmd_index r) (m_cmd_current r) (m_textures r) (m_descriptor_set_layout_cache r) (m_profiler r) v (m_resources r) (rt_Frame_Output r) (rt_Frame_Render r) (rt_Ssr r) (m_tex_environment r) (m_camera r) (m_entities r) (m_cb_frame_cpu r) (m_cb_frame_cpu_previous r) (m_cb_frame_buffer r) (m_cb_frame_offset_index r) (m_cb_uber_cpu r) (m_cb_uber_cpu_previous r) (m_cb_uber_buffer r) (m_cb_uber_offset_index r) (m_cb_light_offset_index r) (m_cb_material_offset_index r) (m_update_ortho_proj r) (m_near_plane r) (m_far_plane r) (m_viewport_width r) (m_viewport_height r) (m_resolution_render r) (m_resolution_output r) (m_taa_jitter r) (m_taa_jitter_previous r) (m_options r) (m_option_values r) (m_frame_num r) (m_is_odd_frame r) (m_passes_run r).

Definition set_m_resources v (r : Renderer) : Renderer :=
  mkRenderer (m_rhi_device r) (m_swap_chain r) (m_flush_requested r) (m_is_rendering_allowed r) (m_cmd_lists r) (m_cmd_index r) (m_cmd_current r) (m_textures r) (m_descriptor_set_layout_cache r) (m_profiler r) (m_log r) v (rt_Frame_Output r) (rt_Frame_Render r) (rt_Ssr r) (m_tex_environment r) (m_camera r) (m_entities r) (m_cb_frame_cpu r) (m_cb_frame_cpu_previous r) (m_cb_frame_buffer r) (m_cb_frame_offset_index r) (m_cb_uber_cpu r) (m_cb_uber_cpu_previous r) (m_cb_uber_buffer r) (m_cb_uber_offset_index r) (m_cb_light_offset_index r) (m_cb_material_offset_index r) (m_update_ortho_proj r) (m_near_plane r) (m_far_plane r) (m_viewport_width r) (m_viewport_height r) (m_resolution_render r) (m_resolution_output r) (m_taa_jitter r) (m_taa_jitter_previous r) (m_options r) (m_option_values r) (m_frame_num r) (m_is_odd_frame r) (m_passes_run r).

Definition set_rt_Frame_Output v (r : Renderer) : Renderer :=
  mkRenderer (m_rhi_device r) (m_swap_chain r) (m_flush_requested r) (m_is_rendering_allowed r) (m_cmd_lists r) (m_cmd_index r) (m_cmd_current r) (m_textures r) (m_descriptor_set_layout_cache r) (m_profiler r) (m_log r) (m_resources r) v (rt_Frame_Render r) (rt_Ssr r) (m_tex_environment r) (m_camera r) (m_entities r) (m_cb_frame_cpu r) (m_cb_frame_cpu_previous r) (m_cb_frame_buffer r) (m_cb_frame_offset_index r) (m_cb_uber_cpu r) (m_cb_uber_cpu_previous r) (m_cb_uber_buffer r) (m_cb_uber_offset_index r) (m_cb_light_offset_index r) (m_cb_material_offset_index r) (m_update_ortho_proj r) (m_near_plane r) (m_far_plane r) (m_viewport_width r) (m_viewport_height r) (m_resolution_render r) (m_resolution_output r) (m_taa_jitter r) (m_taa_jitter_previous r) (m_options r) (m_option_values r) (m_frame_num r) (m_is_odd_frame r) (m_passes_run r).

Definition set_rt_Frame_Render v (r : Renderer) : Renderer :=
  mkRenderer (m_rhi_device r) (m_swap_chain r) (m_flush_requested r) (m_is_rendering_allowed r) (m_cmd_lists r) (m_cmd_index r) (m_cmd_current r) (m_textures r) (m_descriptor_set_layout_cache r) (m_profiler r) (m_log r) (m_resources r) (rt_Frame_Output r) v (rt_Ssr r) (m_tex_environment r) (m_camera r) (m_entities r) (m_cb_frame_cpu r) (m_cb_frame_cpu_previous r) (m_cb_frame_buffer r) (m_cb_frame_offset_index r) (m_cb_uber_cpu r) (m_cb_uber_cpu_previous r) (m_cb_uber_buffer r) (m_cb_uber_offset_index r) (m_cb_light_offset_index r) (m_cb_material_offset_index r) (m_update_ortho_proj r) (m_near_plane r) (m_far_plane r) (m_viewport_width r) (m_viewport_height r) (m_resolution_render r) (m_resolution_output r) (m_taa_jitter r) (m_taa_jitter_previous r) (m_options r) (m_option_values r) (m_frame_num r) (m_is_odd_frame r) (m_passes_run r).

Definition set_rt_Ssr v (r : Renderer) : Renderer :=
  mkRenderer (m_rhi_device r) (m_swap_chain r) (m_flush_requested r) (m_is_rendering_allowed r) (m_cmd_lists r) (m_cmd_index r) (m_cmd_current r) (m_textures r) (m_descriptor_set_layout_cache r) (m_profiler r) (m_log r) (m_resources r) (rt_Frame_Output r) (rt_Frame_Render r) v (m_tex_environment r) (m_camera r) (m_entities r) (m_cb_frame_cpu r) (m_cb_frame_cpu_previous r) (m_cb_frame_buffer r) (m_cb_frame_offset_index r) (m_cb_uber_cpu r) (m_cb_uber_cpu_previous r) (m_cb_uber_buffer r) (m_cb_uber_offset_index r) (m_cb_light_offset_index r) (m_cb_material_offset_index r) (m_update_ortho_proj r) (m_near_plane r) (m_far_plane r) (m_viewport_width r) (m_viewport_height r) (m_resolution_render r) (m_resolution_output r) (m_taa_jitter r) (m_taa_jitter_previous r) (m_options r) (m_option_values r) (m_frame_num r) (m_is_odd_frame r) (m_passes_run r).

Definition set_m_tex_environment v (r : Renderer) : Renderer :=
  mkRenderer (m_rhi_device r) (m_swap_chain r) (m_flush_requested r) (m_is_rendering_allowed r) (m_cmd_lists r) (m_cmd_index r) (m_cmd_current r) (m_textures r) (m_descriptor_set_layout_cache r) (m_profiler r) (m_log r) (m_resources r) (rt_Frame_Output r) (rt_Frame_Render r) (rt_Ssr r) v (m_camera r) (m_entities r) (m_cb_frame_cpu r) (m_cb_frame_cpu_previous r) (m_cb_frame_buffer r) (m_cb_frame_offset_index r) (m_cb_uber_cpu r) (m_cb_uber_cpu_previous r) (m_cb_uber_buffer r) (m_cb_uber_offset_index r) (m_cb_light_offset_index r) (m_cb_material_offset_index r) (m_update_ortho_proj r) (m_near_plane r) (m_far_plane r) (m_viewport_width r) (m_viewport_height r) (m_resolution_render r) (m_resolution_output r) (m_taa_jitter r) (m_taa_jitter_previous r) (m_options r) (m_option_values r) (m_frame_num r) (m_is_odd_frame r) (m_passes_run r).

Definition set_m_camera v (r : Renderer) : Renderer :=
  mkRenderer (m_rhi_device r) (m_swap_chain r) (m_flush_requested r) (m_is_rendering_allowed r) (m_cmd_lists r) (m_cmd_index r) (m_cmd_current r) (m_textures r) (m_descriptor_set_layout_cache r) (m_profiler r) (m_log r) (m_resources r) (rt_Frame_Output r) (rt_Frame_Render r) (rt_Ssr r) (m_tex_environment r) v (m_entities r) (m_cb_frame_cpu r) (m_cb_frame_cpu_previous r) (m_cb_frame_buffer r) (m_cb_frame_offset_index r) (m_cb_uber_cpu r) (m_cb_uber_cpu_previous r) (m_cb_uber_buffer r) (m_cb_uber_offset_index r) (m_cb_light_offset_index r) (m_cb_material_offset_index r) (m_update_ortho_proj r) (m_near_plane r) (m_far_plane r) (m_viewport_width r) (m_viewport_height r) (m_resolution_render r) (m_resolution_output r) (m_taa_jitter r) (m_taa_jitter_previous r) (m_options r) (m_option_values r) (m_frame_num r) (m_is_odd_frame r) (m_passes_run r).

Definition set_m_entities v (r : Renderer) : Renderer :=
  mkRenderer (m_rhi_device r) (m_swap_chain r) (m_flush_requested r) (m_is_rendering_allowed r) (m_cmd_lists r) (m_cmd_index r) (m_cmd_current r) (m_textures r) (m_descriptor_set_layout_cache r) (m_profiler r) (m_log r) (m_resources r) (rt_Frame_Output r) (rt_Frame_Render r) (rt_Ssr r) (m_tex_environment r) (m_camera r) v (m_cb_frame_cpu r) (m_cb_frame_cpu_previous r) (m_cb_frame_buffer r) (m_cb_frame_offset_index r) (m_cb_uber_cpu r) (m_cb_uber_cpu_previous r) (m_cb_uber_buffer r) (m_cb_uber_offset_index r) (m_cb_light_offset_index r) (m_cb_material_offset_index r) (m_update_ortho_proj r) (m_near_plane r) (m_far_plane r) (m_viewport_width r) (m_viewport_height r) (m_resolution_render r) (m_resolution_output r) (m_taa_jitter r) (m_taa_jitter_previous r) (m_options r) (m_option_values r) (m_frame_num r) (m_is_odd_frame r) (m_passes_run r).

Definition set_m_cb_frame_cpu v (r : Renderer) : Renderer :=
  mkRenderer (m_rhi_device r) (m_swap_chain r) (m_flush_requested r) (m_is_rendering_allowed r) (m_cmd_lists r) (m_cmd_index r) (m_cmd_current r) (m_textures r) (m_descriptor_set_layout_cache r) (m_profiler r) (m_log r) (m_resources r) (rt_Frame_Output r) (rt_Frame_Render r) (rt_Ssr r) (m_tex_environment r) (m_camera r) (m_entities r) v (m_cb_frame_cpu_previous r) (m_cb_frame_buffer r) (m_cb_frame_offset_index r) (m_cb_uber_cpu r) (m_cb_uber_cpu_previous r) (m_cb_uber_buffer r) (m_cb_uber_offset_index r) (m_cb_light_offset_index r) (m_cb_material_offset_index r) (m_update_ortho_proj r) (m_near_plane r) (m_far_plane r) (m_viewport_width r) (m_viewport_height r) (m_resolution_render r) (m_resolution_output r) (m_taa_jitter r) (m_taa_jitter_previous r) (m_options r) (m_option_values r) (m_frame_num r) (m_is_odd_frame r) (m_passes_run r).

Definition set_m_cb_frame_cpu_previous v (r : Renderer) : Renderer :=
  mkRenderer (m_rhi_device r) (m_swap_chain r) (m_flush_requested r) (m_is_rendering_allowed r) (m_cmd_lists r) (m_cmd_index r) (m_cmd_current r) (m_textures r) (m_descriptor_set_layout_cache r) (m_profiler r) (m_log r) (m_resources r) (rt_Frame_Output r) (rt_Frame_Render r) (rt_Ssr r) (m_tex_environment r) (m_camera r) (m_entities r) (m_cb_frame_cpu r) v (m_cb_frame_buffer r) (m_cb_frame_offset_index r) (m_cb_uber_cpu r) (m_cb_uber_cpu_previous r) (m_cb_uber_buffer r) (m_cb_uber_offset_index r) (m_cb_light_offset_index r) (m_cb_material_offset_index r) (m_update_ortho_proj r) (m_near_plane r) (m_far_plane r) (m_viewport_width r) (m_viewport_height r) (m_resolution_render r) (m_resolution_output r) (m_taa_jitter r) (m_taa_jitter_previous r) (m_options r) (m_option_values r) (m_frame_num r) (m_is_odd_frame r) (m_passes_run r).

Definition set_m_cb_frame_buffer v (r : Renderer) : Renderer :=
  mkRenderer (m_rhi_device r) (m_swap_chain r) (m_flush_requested r) (m_is_rendering_allowed r) (m_cmd_lists r) (m_cmd_index r) (m_cmd_current r) (m_textures r) (m_descriptor_set_layout_cache r) (m_profiler r) (m_log r) (m_resources r) (rt_Frame_Output r) (rt_Frame_Render r) (rt_Ssr r) (m_tex_environment r) (m_camera r) (m_entities r) (m_cb_frame_cpu r) (m_cb_frame_cpu_previous r) v (m_cb_frame_offset_index r) (m_cb_uber_cpu r) (m_cb_uber_cpu_previous r) (m_cb_uber_buffer r) (m_cb_uber_offset_index r) (m_cb_light_offset_index r) (m_cb_material_offset_index r) (m_update_ortho_proj r) (m_near_plane r) (m_far_plane r) (m_viewport_width r) (m_viewport_height r) (m_resolution_render r) (m_resolution_output r) (m_taa_jitter r) (m_taa_jitter_previous r) (m_options r) (m_option_values r) (m_frame_num r) (m_is_odd_frame r) (m_passes_run r).

Definition set_m_cb_frame_offset_index v (r : Renderer) : Renderer :=
  mkRenderer (m_rhi_device r) (m_swap_chain r) (m_flush_requested r) (m_is_rendering_allowed r) (m_cmd_lists r) (m_cmd_index r) (m_cmd_current r) (m_textures r) (m_descriptor_set_layout_cache r) (m_profiler r) (m_log r) (m_resources r) (rt_Frame_Output r) (rt_Frame_Render r) (rt_Ssr r) (m_tex_environment r) (m_camera r) (m_entities r) (m_cb_frame_cpu r) (m_cb_frame_cpu_previous r) (m_cb_frame_buffer r) v (m_cb_uber_cpu r) (m_cb_uber_cpu_previous r) (m_cb_uber_buffer r) (m_cb_uber_offset_index r) (m_cb_light_offset_index r) (m_cb_material_offset_index r) (m_update_ortho_proj r) (m_near_plane r) (m_far_plane r) (m_viewport_width r) (m_viewport_height r) (m_resolution_render r) (m_resolution_output r) (m_taa_jitter r) (m_taa_jitter_previous r) (m_options r) (m_option_values r) (m_frame_num r) (m_is_odd_frame r) (m_passes_run r).

Definition set_m_cb_uber_cpu v (r : Renderer) : Renderer :=
  mkRenderer (m_rhi_device r) (m_swap_chain r) (m_flush_requested r) (m_is_rendering_allowed r) (m_cmd_lists r) (m_cmd_index r) (m_cmd_current r) (m_textures r) (m_descriptor_set_layout_cache r) (m_profiler r) (m_log r) (m_resources r) (rt_Frame_Output r) (rt_Frame_Render r) (rt_Ssr r) (m_tex_environment r) (m_camera r) (m_entities r) (m_cb_frame_cpu r) (m_cb_frame_cpu_previous r) (m_cb_frame_buffer r) (m_cb_frame_offset_index r) v (m_cb_uber_cpu_previous r) (m_cb_uber_buffer r) (m_cb_uber_offset_index r) (m_cb_light_offset_index r) (m_cb_material_offset_index r) (m_update_ortho_proj r) (m_near_plane r) (m_far_plane r) (m_viewport_width r) (m_viewport_height r) (m_resolution_render r) (m_resolution_output r) (m_taa_jitter r) (m_taa_jitter_previous r) (m_options r) (m_option_values r) (m_frame_num r) (m_is_odd_frame r) (m_passes_run r).

Definition set_m_cb_uber_cpu_previous v (r : Renderer) : Renderer :=
  mkRenderer (m_rhi_device r) (m_swap_chain r) (m_flush_requested r) (m_is_rendering_allowed r) (m_cmd_lists r) (m_cmd_index r) (m_cmd_current r) (m_textures r) (m_descriptor_set_layout_cache r) (m_profiler r) (m_log r) (m_resources r) (rt_Frame_Output r) (rt_Frame_Render r) (rt_Ssr r) (m_tex_environment r) (m_camera r) (m_entities r) (m_cb_frame_cpu r) (m_cb_frame_cpu_previous r) (m_cb_frame_buffer r) (m_cb_frame_offset_index r) (m_cb_uber_cpu r) v (m_cb_uber_buffer r) (m_cb_uber_offset_index r) (m_cb_light_offset_index r) (m_cb_material_offset_index r) (m_update_ortho_proj r) (m_near_plane r) (m_far_plane r) (m_viewport_width r) (m_viewport_height r) (m_resolution_render r) (m_resolution_output r) (m_taa_jitter r) (m_taa_jitter_previous r) (m_options r) (m_option_values r) (m_frame_num r) (m_is_odd_frame r) (m_passes_run r).

Definition set_m_cb_uber_buffer v (r : Renderer) : Renderer :=
  mkRenderer (m_rhi_device r) (m_swap_chain r) (m_flush_requested r) (m_is_rendering_allowed r) (m_cmd_lists r) (m_cmd_index r) (m_cmd_current r) (m_textures r) (m_descriptor_set_layout_cache r) (m_profiler r) (m_log r) (m_resources r) (rt_Frame_Output r) (rt_Frame_Render r) (rt_Ssr r) (m_tex_environment r) (m_camera r) (m_entities r) (m_cb_frame_cpu r) (m_cb_frame_cpu_previous r) (m_cb_frame_buffer r) (m_cb_frame_offset_index r) (m_cb_uber_cpu r) (m_cb_uber_cpu_previous r) v (m_cb_uber_offset_index r) (m_cb_light_offset_index r) (m_cb_material_offset_index r) (m_update_ortho_proj r) (m_near_plane r) (m_far_plane r) (m_viewport_width r) (m_viewport_height r) (m_resolution_render r) (m_resolution_output r) (m_taa_jitter r) (m_taa_jitter_previous r) (m_options r) (m_option_values r) (m_frame_num r) (m_is_odd_frame r) (m_passes_run r).

Definition set_m_cb_uber_offset_index v (r : Renderer) : Renderer :=
  mkRenderer (m_rhi_device r) (m_swap_chain r) (m_flush_requested r) (m_is_rendering_allowed r) (m_cmd_lists r) (m_cmd_index r) (m_cmd_current r) (m_textures r) (m_descriptor_set_layout_cache r) (m_profiler r) (m_log r) (m_resources r) (rt_Frame_Output r) (rt_Frame_Render r) (rt_Ssr r) (m_tex_environment r) (m_camera r) (m_entities r) (m_cb_frame_cpu r) (m_cb_frame_cpu_previous r) (m_cb_frame_buffer r) (m_cb_frame_offset_index r) (m_cb_uber_cpu r) (m_cb_uber_cpu_previous r) (m_cb_uber_buffer r) v (m_cb_light_offset_index r) (m_cb_material_offset_index r) (m_update_ortho_proj r) (m_near_plane r) (m_far_plane r) (m_viewport_width r) (m_viewport_height r) (m_resolution_render r) (m_resolution_output r) (m_taa_jitter r) (m_taa_jitter_previous r) (m_options r) (m_option_values r) (m_frame_num r) (m_is_odd_frame r) (m_passes_run r).

Definition set_m_cb_light_offset_index v (r : Renderer) : Renderer :=
  mkRenderer (m_rhi_device r) (m_swap_chain r) (m_flush_requested r) (m_is_rendering_allowed r) (m_cmd_lists r) (m_cmd_index r) (m_cmd_current r) (m_textures r) (m_descriptor_set_layout_cache r) (m_profiler r) (m_log r) (m_resources r) (rt_Frame_Output r) (rt_Frame_Render r) (rt_Ssr r) (m_tex_environment r) (m_camera r) (m_entities r) (m_cb_frame_cpu r) (m_cb_frame_cpu_previous r) (m_cb_frame_buffer r) (m_cb_frame_offset_index r) (m_cb_uber_cpu r) (m_cb_uber_cpu_previous r) (m_cb_uber_buffer r) (m_cb_uber_offset_index r) v (m_cb_material_offset_index r) (m_update_ortho_proj r) (m_near_plane r) (m_far_plane r) (m_viewport_width r) (m_viewport_height r) (m_resolution_render r) (m_resolution_output r) (m_taa_jitter r) (m_taa_jitter_previous r) (m_options r) (m_option_values r) (m_frame_num r) (m_is_odd_frame r) (m_passes_run r).

Definition set_m_cb_material_offset_index v (r : Renderer) : Renderer :=
  mkRenderer (m_rhi_device r) (m_swap_chain r) (m_flush_requested r) (m_is_rendering_allowed r) (m_cmd_lists r) (m_cmd_index r) (m_cmd_current r) (m_textures r) (m_descriptor_set_layout_cache r) (m_profiler r) (m_log r) (m_resources r) (rt_Frame_Output r) (rt_Frame_Render r) (rt_Ssr r) (m_tex_environment r) (m_camera r) (m_entities r) (m_cb_frame_cpu r) (m_cb_frame_cpu_previous r) (m_cb_frame_buffer r) (m_cb_frame_offset_index r) (m_cb_uber_cpu r) (m_cb_uber_cpu_previous r) (m_cb_uber_buffer r) (m_cb_uber_offset_index r) (m_cb_light_offset_index r) v (m_update_ortho_proj r) (m_near_plane r) (m_far_plane r) (m_viewport_width r) (m_viewport_height r) (m_resolution_render r) (m_resolution_output r) (m_taa_jitter r) (m_taa_jitter_previous r) (m_options r) (m_option_values r) (m_frame_num r) (m_is_odd_frame r) (m_passes_run r).

Definition set_m_update_ortho_proj v (r : Renderer) : Renderer :=
  mkRenderer (m_rhi_device r) (m_swap_chain r) (m_flush_requested r) (m_is_rendering_allowed r) (m_cmd_lists r) (m_cmd_index r) (m_cmd_current r) (m_textures r) (m_descriptor_set_layout_cache r) (m_profiler r) (m_log r) (m_resources r) (rt_Frame_Output r) (rt_Frame_Render r) (rt_Ssr r) (m_tex_environment r) (m_camera r) (m_entities r) (m_cb_frame_cpu r) (m_cb_frame_cpu_previous r) (m_cb_frame_buffer r) (m_cb_frame_offset_index r) (m_cb_uber_cpu r) (m_cb_uber_cpu_previous r) (m_cb_uber_buffer r) (m_cb_uber_offset_index r) (m_cb_light_offset_index r) (m_cb_material_offset_index r) v (m_near_plane r) (m_far_plane r) (m_viewport_width r) (m_viewport_height r) (m_resolution_render r) (m_resolution_output r) (m_taa_jitter r) (m_taa_jitter_previous r) (m_options r) (m_option_values r) (m_frame_num r) (m_is_odd_frame r) (m_passes_run r).

Definition set_m_near_plane v (r : Renderer) : Renderer :=
  mkRenderer (m_rhi_device r) (m_swap_chain r) (m_flush_requested r) (m_is_rendering_allowed r) (m_cmd_lists r) (m_cmd_index r) (m_cmd_current r) (m_textures r) (m_descriptor_set_layout_cache r) (m_profiler r) (m_log r) (m_resources r) (rt_Frame_Output r) (rt_Frame_Render r) (rt_Ssr r) (m_tex_environment r) (m_camera r) (m_entities r) (m_cb_frame_cpu r) (m_cb_frame_cpu_previous r) (m_cb_frame_buffer r) (m_cb_frame_offset_index r) (m_cb_uber_cpu r) (m_cb_uber_cpu_previous r) (m_cb_uber_buffer r) (m_cb_uber_offset_index r) (m_cb_light_offset_index r) (m_cb_material_offset_index r) (m_update_ortho_proj r) v (m_far_plane r) (m_viewport_width r) (m_viewport_height r) (m_resolution_render r) (m_resolution_output r) (m_taa_jitter r) (m_taa_jitter_previous r) (m_options r) (m_option_values r) (m_frame_num r) (m_is_odd_frame r) (m_passes_run r).

Definition set_m_far_plane v (r : Renderer) : Renderer :=
  mkRenderer (m_rhi_device r) (m_swap_chain r) (m_flush_requested r) (m_is_rendering_allowed r) (m_cmd_lists r) (m_cmd_index r) (m_cmd_current r) (m_textures r) (m_descriptor_set_layout_cache r) (m_profiler r) (m_log r) (m_resources r) (rt_Frame_Output r) (rt_Frame_Render r) (rt_Ssr r) (m_tex_environment r) (m_camera r) (m_entities r) (m_cb_frame_cpu r) (m_cb_frame_cpu_previous r) (m_cb_frame_buffer r) (m_cb_frame_offset_index r) (m_cb_uber_cpu r) (m_cb_uber_cpu_previous r) (m_cb_uber_buffer r) (m_cb_uber_offset_index r) (m_cb_light_offset_index r) (m_cb_material_offset_index r) (m_update_ortho_proj r) (m_near_plane r) v (m_viewport_width r) (m_viewport_height r) (m_resolution_render r) (m_resolution_output r) (m_taa_jitter r) (m_taa_jitter_previous r) (m_options r) (m_option_values r) (m_frame_num r) (m_is_odd_frame r) (m_passes_run r).

Definition set_m_viewport_width v (r : Renderer) : Renderer :=
  mkRenderer (m_rhi_device r) (m_swap_chain r) (m_flush_requested r) (m_is_rendering_allowed r) (m_cmd_lists r) (m_cmd_index r) (m_cmd_current r) (m_textures r) (m_descriptor_set_layout_cache r) (m_profiler r) (m_log r) (m_resources r) (rt_Frame_Output r) (rt_Frame_Render r) (rt_Ssr r) (m_tex_environment r) (m_camera r) (m_entities r) (m_cb_frame_cpu r) (m_cb_frame_cpu_previous r) (m_cb_frame_buffer r) (m_cb_frame_offset_index r) (m_cb_uber_cpu r) (m_cb_uber_cpu_previous r) (m_cb_uber_buffer r) (m_cb_uber_offset_index r) (m_cb_light_offset_index r) (m_cb_material_offset_index r) (m_update_ortho_proj r) (m_near_plane r) (m_far_plane r) v (m_viewport_height r) (m_resolution_render r) (m_resolution_output r) (m_taa_jitter r) (m_taa_jitter_previous r) (m_options r) (m_option_values r) (m_frame_num r) (m_is_odd_frame r) (m_passes_run r).

Definition set_m_viewport_height v (r : Renderer) : Renderer :=
  mkRenderer (m_rhi_device r) (m_swap_chain r) (m_flush_requested r) (m_is_rendering_allowed r) (m_cmd_lists r) (m_cmd_index r) (m_cmd_current r) (m_textures r) (m_descriptor_set_layout_cache r) (m_profiler r) (m_log r) (m_resources r) (rt_Frame_Output r) (rt_Frame_Render r) (rt_Ssr r) (m_tex_environment r) (m_camera r) (m_entities r) (m_cb_frame_cpu r) (m_cb_frame_cpu_previous r) (m_cb_frame_buffer r) (m_cb_frame_offset_index r) (m_cb_uber_cpu r) (m_cb_uber_cpu_previous r) (m_cb_uber_buffer r) (m_cb_uber_offset_index r) (m_cb_light_offset_index r) (m_cb_material_offset_index r) (m_update_ortho_proj r) (m_near_plane r) (m_far_plane r) (m_viewport_width r) v (m_resolution_render r) (m_resolution_output r) (m_taa_jitter r) (m_taa_jitter_previous r) (m_options r) (m_option_values r) (m_frame_num r) (m_is_odd_frame r) (m_passes_run r).

Definition set_m_resolution_render v (r : Renderer) : Renderer :=
  mkRenderer (m_rhi_device r) (m_swap_chain r) (m_flush_requested r) (m_is_rendering_allowed r) (m_cmd_lists r) (m_cmd_index r) (m_cmd_current r) (m_textures r) (m_descriptor_set_layout_cache r) (m_profiler r) (m_log r) (m_resources r) (rt_Frame_Output r) (rt_Frame_Render r) (rt_Ssr r) (m_tex_environment r) (m_camera r) (m_entities r) (m_cb_frame_cpu r) (m_cb_frame_cpu_previous r) (m_cb_frame_buffer r) (m_cb_frame_offset_index r) (m_cb_uber_cpu r) (m_cb_uber_cpu_previous r) (m_cb_uber_buffer r) (m_cb_uber_offset_index r) (m_cb_light_offset_index r) (m_cb_material_offset_index r) (m_update_ortho_proj r) (m_near_plane r) (m_far_plane r) (m_viewport_width r) (m_viewport_height r) v (m_resolution_output r) (m_taa_jitter r) (m_taa_jitter_previous r) (m_options r) (m_option_values r) (m_frame_num r) (m_is_odd_frame r) (m_passes_run r).

Definition set_m_resolution_output v (r : Renderer) : Renderer :=
  mkRenderer (m_rhi_device r) (m_swap_chain r) (m_flush_requested r) (m_is_rendering_allowed r) (m_cmd_lists r) (m_cmd_index r) (m_cmd_current r) (m_textures r) (m_descriptor_set_layout_cache r) (m_profiler r) (m_log r) (m_resources r) (rt_Frame_Output r) (rt_Frame_Render r) (rt_Ssr r) (m_tex_environment r) (m_camera r) (m_entities r) (m_cb_frame_cpu r) (m_cb_frame_cpu_previous r) (m_cb_frame_buffer r) (m_cb_frame_offset_index r) (m_cb_uber_cpu r) (m_cb_uber_cpu_previous r) (m_cb_uber_buffer r) (m_cb_uber_offset_index r) (m_cb_light_offset_index r) (m_cb_material_offset_index r) (m_update_ortho_proj r) (m_near_plane r) (m_far_plane r) (m_viewport_width r) (m_viewport_height r) (m_resolution_render r) v (m_taa_jitter r) (m_taa_jitter_previous r) (m_options r) (m_option_values r) (m_frame_num r) (m_is_odd_frame r) (m_passes_run r).

Definition set_m_taa_jitter v (r : Renderer) : Renderer :=
  mkRenderer (m_rhi_device r) (m_swap_chain r) (m_flush_requested r) (m_is_rendering_allowed r) (m_cmd_lists r) (m_cmd_index r) (m_cmd_current r) (m_textures r) (m_descriptor_set_layout_cache r) (m_profiler r) (m_log r) (m_resources r) (rt_Frame_Output r) (rt_Frame_Render r) (rt_Ssr r) (m_tex_environment r) (m_camera r) (m_entities r) (m_cb_frame_cpu r) (m_cb_frame_cpu_previous r) (m_cb_frame_buffer r) (m_cb_frame_offset_index r) (m_cb_uber_cpu r) (m_cb_uber_cpu_previous r) (m_cb_uber_buffer r) (m_cb_uber_offset_index r) (m_cb_light_offset_index r) (m_cb_material_offset_index r) (m_update_ortho_proj r) (m_near_plane r) (m_far_plane r) (m_viewport_width r) (m_viewport_height r) (m_resolution_render r) (m_resolution_output r) v (m_taa_jitter_previous r) (m_options r) (m_option_values r) (m_frame_num r) (m_is_odd_frame r) (m_passes_run r).

Definition set_m_taa_jitter_previous v (r : Renderer) : Renderer :=
  mkRenderer (m_rhi_device r) (m_swap_chain r) (m_flush_requested r) (m_is_rendering_allowed r) (m_cmd_lists r) (m_cmd_index r) (m_cmd_current r) (m_textures r) (m_descriptor_set_layout_cache r) (m_profiler r) (m_log r) (m_resources r) (rt_Frame_Output r) (rt_Frame_Render r) (rt_Ssr r) (m_tex_environment r) (m_camera r) (m_entities r) (m_cb_frame_cpu r) (m_cb_frame_cpu_previous r) (m_cb_frame_buffer r) (m_cb_frame_offset_index r) (m_cb_uber_cpu r) (m_cb_uber_cpu_previous r) (m_cb_uber_buffer r) (m_cb_uber_offset_index r) (m_cb_light_offset_index r) (m_cb_material_offset_index r) (m_update_ortho_proj r) (m_near_plane r) (m_far_plane r) (m_viewport_width r) (m_viewport_height r) (m_resolution_render r) (m_resolution_output r) (m_taa_jitter r) v (m_options r) (m_option_values r) (m_frame_num r) (m_is_odd_frame r) (m_passes_run r).

Definition set_m_options v (r : Renderer) : Renderer :=
  mkRenderer (m_rhi_device r) (m_swap_chain r) (m_flush_requested r) (m_is_rendering_allowed r) (m_cmd_lists r) (m_cmd_index r) (m_cmd_current r) (m_textures r) (m_descriptor_set_layout_cache r) (m_profiler r) (m_log r) (m_resources r) (rt_Frame_Output r) (rt_Frame_Render r) (rt_Ssr r) (m_tex_environment r) (m_camera r) (m_entities r) (m_cb_frame_cpu r) (m_cb_frame_cpu_previous r) (m_cb_frame_buffer r) (m_cb_frame_offset_index r) (m_cb_uber_cpu r) (m_cb_uber_cpu_previous r) (m_cb_uber_buffer r) (m_cb_uber_offset_index r) (m_cb_light_offset_index r) (m_cb_material_offset_index r) (m_update_ortho_proj r) (m_near_plane r) (m_far_plane r) (m_viewport_width r) (m_viewport_height r) (m_resolution_render r) (m_resolution_output r) (m_taa_jitter r) (m_taa_jitter_previous r) v (m_option_values r) (m_frame_num r) (m_is_odd_frame r) (m_passes_run r).

Definition set_m_option_values v (r : Renderer) : Renderer :=
  mkRenderer (m_rhi_device r) (m_swap_chain r) (m_flush_requested r) (m_is_rendering_allowed r) (m_cmd_lists r) (m_cmd_index r) (m_cmd_current r) (m_textures r) (m_descriptor_set_layout_cache r) (m_profiler r) (m_log r) (m_resources r) (rt_Frame_Output r) (rt_Frame_Render r) (rt_Ssr r) (m_tex_environment r) (m_camera r) (m_entities r) (m_cb_frame_cpu r) (m_cb_frame_cpu_previous r) (m_cb_frame_buffer r) (m_cb_frame_offset_index r) (m_cb_uber_cpu r) (m_cb_uber_cpu_previous r) (m_cb_uber_buffer r) (m_cb_uber_offset_index r) (m_cb_light_offset_index r) (m_cb_material_offset_index r) (m_update_ortho_proj r) (m_near_plane r) (m_far_plane r) (m_viewport_width r) (m_viewport_height r) (m_resolution_render r) (m_resolution_output r) (m_taa_jitter r) (m_taa_jitter_previous r) (m_options r) v (m_frame_num r) (m_is_odd_frame r) (m_passes_run r).

Definition set_m_frame_num v (r : Renderer) : Renderer :=
  mkRenderer (m_rhi_device r) (m_swap_chain r) (m_flush_requested r) (m_is_rendering_allowed r) (m_cmd_lists r) (m_cmd_index r) (m_cmd_current r) (m_textures r) (m_descriptor_set_layout_cache r) (m_profiler r) (m_log r) (m_resources r) (rt_Frame_Output r) (rt_Frame_Render r) (rt_Ssr r) (m_tex_environment r) (m_camera r) (m_entities r) (m_cb_frame_cpu r) (m_cb_frame_cpu_previous r) (m_cb_frame_buffer r) (m_cb_frame_offset_index r) (m_cb_uber_cpu r) (m_cb_uber_cpu_previous r) (m_cb_uber_buffer r) (m_cb_uber_offset_index r) (m_cb_light_offset_index r) (m_cb_material_offset_index r) (m_update_ortho_proj r) (m_near_plane r) (m_far_plane r) (m_viewport_width r) (m_viewport_height r) (m_resolution_render r) (m_resolution_output r) (m_taa_jitter r) (m_taa_jitter_previous r) (m_options r) (m_option_values r) v (m_is_odd_frame r) (m_passes_run r).

Definition set_m_is_odd_frame v (r : Renderer) : Renderer :=
  mkRenderer (m_rhi_device r) (m_swap_chain r) (m_flush_requested r) (m_is_rendering_allowed r) (m_cmd_lists r) (m_cmd_index r) (m_cmd_current r) (m_textures r) (m_descriptor_set_layout_cache r) (m_profiler r) (m_log r) (m_resources r) (rt_Frame_Output r) (rt_Frame_Render r) (rt_Ssr r) (m_tex_environment r) (m_camera r) (m_entities r) (m_cb_frame_cpu r) (m_cb_frame_cpu_previous r) (m_cb_frame_buffer r) (m_cb_frame_offset_index r) (m_cb_uber_cpu r) (m_cb_uber_cpu_previous r) (m_cb_uber_buffer r) (m_cb_uber_offset_index r) (m_cb_light_offset_index r) (m_cb_material_offset_index r) (m_update_ortho_proj r) (m_near_plane r) (m_far_plane r) (m_viewport_width r) (m_viewport_height r) (m_resolution_render r) (m_resolution_output r) (m_taa_jitter r) (m_taa_jitter_previous r) (m_options r) (m_option_values r) (m_frame_num r) v (m_passes_run r).

Definition set_m_passes_run v (r : Renderer) : Renderer :=
  mkRenderer (m_rhi_device r) (m_swap_chain r) (m_flush_requested r) (m_is_rendering_allowed r) (m_cmd_lists r) (m_cmd_index r) (m_cmd_current r) (m_textures r) (m_descriptor_set_layout_cache r) (m_profiler r) (m_log r) (m_resources r) (rt_Frame_Output r) (rt_Frame_Render r) (rt_Ssr r) (m_tex_environment r) (m_camera r) (m_entities r) (m_cb_frame_cpu r) (m_cb_frame_cpu_previous r) (m_cb_frame_buffer r) (m_cb_frame_offset_index r) (m_cb_uber_cpu r) (m_cb_uber_cpu_previous r) (m_cb_uber_buffer r) (m_cb_uber_offset_index r) (m_cb_light_offset_index r) (m_cb_material_offset_index r) (m_update_ortho_proj r) (m_near_plane r) (m_far_plane r) (m_viewport_width r) (m_viewport_height r) (m_resolution_render r) (m_resolution_output r) (m_taa_jitter r) (m_taa_jitter_previous r) (m_options r) (m_option_values r) (m_frame_num r) (m_is_odd_frame r) v.

Definition GetOption (o : Renderer_Option) (r : Renderer) : bool :=
  negb (Z.land (m_options r) (Renderer_Option_bit o) =? 0).

Definition GetOptionValue (o : Renderer_Option_Value) (r : Renderer) : float :=
  m_option_values r o.

(** What the tick reads from the window and the timer. *)
Record TickInput : Type := mkTickInput {
  window_IsMinimised : bool;
  window_GetWidth : Z;
  window_GetHeight : Z;
  timer_GetDeltaTimeSmoothedSec : float;
  timer_GetTimeSec : float;
  delta_time_ : float
}.

(** The passes that are not modelled: they are any functions of the
    renderer.  [default_pipeline_state] is a default-constructed
    [RHI_PipelineState] (the class is declared outside src/). *)
Record Passes : Type := mkPasses {
  default_pipeline_state : RHI_PipelineState;
  Pass_Generate_Mips : Renderer -> Result Renderer;
  Pass_Remaining : Renderer -> Result Renderer;
  TickPrimitives : float -> Renderer -> Result Renderer
}.

(** A call on a command list of the renderer: the command list and the
    objects it shares with the renderer make up the world of the call. *)
Definition world_of (r : Renderer) (cl : RHI_CommandList) : World :=
  mkWorld cl (m_textures r) (m_descriptor_set_layout_cache r) (m_profiler r) (m_log r)
    (m_resources r)
    (match m_swap_chain r with Some sc => m_present_enabled sc | None => false end).

Definition absorb (i : nat) (w : World) (r : Renderer) : Renderer :=
  set_m_log (log w)
    (set_m_profiler (profiler w)
       (set_m_descriptor_set_layout_cache (cache w)
          (set_m_textures (textures w)
             (set_m_cmd_lists (<[i := cmd w]> (m_cmd_lists r)) r)))).

Definition on_cmd {A : Type} (cmd_list : option nat) (f : World -> Result (A * World))
  (r : Renderer) : Result (A * Renderer) :=
  i ← deref cmd_list;
  cl ← deref (m_cmd_lists r !! i);
  '(a, w) ← f (world_of r cl);
  Ok (a, absorb i w r).

Definition on_cmd_ (cmd_list : option nat) (f : World -> Result World) (r : Renderer)
  : Result Renderer :=
  '(_, r) ← on_cmd cmd_list (fun w => w ← f w; Ok (tt, w)) r;
  Ok r.

Definition renderer_log (e : LogEntry) (r : Renderer) : Renderer :=
  set_m_log (m_log r ++ [e]) r.

(** [Renderer::Flush] as the rendering thread runs it.  The branch taken
    by another thread waits for the rendering thread and is not part of
    the model. *)
Definition Renderer_Flush (d : Driver) (r : Renderer) : Result Renderer :=
  let r :=
    if negb (m_is_rendering_allowed r)
    then
      let r := renderer_log (LOG_INFO "Renderer thread is flushing...") r in
      if negb (Queue_WaitAll_ok d) then renderer_log (LOG_ERROR "Failed to flush GPU") r
      else r
    else r in
  r ← match m_cmd_current r with
      | None => Ok r
      | Some _ =>
          '(flushed, r) ← on_cmd (m_cmd_current r) (Flush d false) r;
          Ok (if negb flushed then renderer_log (LOG_ERROR "Failed to flush command list") r
              else r)
      end;
  Ok (set_m_flush_requested false r).

(** ** Per-frame uniform data *)

Definition float_of_int (n : Z) : float := n * 1000.

Definition store_frame (i : nat) (u : Updated Cb_Frame) (r : Renderer) : Renderer :=
  set_m_cb_frame_offset_index (upd_offset_index u)
    (set_m_cb_frame_cpu_previous (upd_buffer_cpu_previous u)
       (set_m_cb_frame_buffer (upd_buffer_gpu u) (absorb i (upd_world u) r))).

Definition store_uber (i : nat) (u : Updated Cb_Uber) (r : Renderer) : Renderer :=
  set_m_cb_uber_offset_index (upd_offset_index u)
    (set_m_cb_uber_cpu_previous (upd_buffer_cpu_previous u)
       (set_m_cb_uber_buffer (upd_buffer_gpu u) (absorb i (upd_world u) r))).

Definition shader_scope_all : Z :=
  Z.lor (Z.lor RHI_Shader_Vertex RHI_Shader_Pixel) RHI_Shader_Compute.

(** Update directional light intensity, just grab the first one (the loop
    keeps the last one it meets). *)
Definition directional_light_intensity_of (lights : list Entity) (cb : Cb_Frame) : Cb_Frame :=
  fold_left
    (fun cb entity =>
       match GetLight entity with
       | Some light =>
           if bool_decide (GetLightType light = Directional)
           then set_directional_light_intensity (GetIntensity light) cb
           else cb
       | None => cb
       end)
    lights cb.

Definition Update_Cb_Frame (d : Driver) (cmd_list : option nat) (r : Renderer)
  : Result (bool * Renderer) :=
  SP_ASSERT (bool_decide (cmd_list <> None));;
  let r := set_m_cb_frame_cpu
             (directional_light_intensity_of (Light_ (m_entities r)) (m_cb_frame_cpu r)) r in
  i ← deref cmd_list;
  cl ← deref (m_cmd_lists r !! i);
  u ← update_and_rebind (fun a b => bool_decide (a = b)) d
         (RendererBindings_Cb_frame (m_resources r)) shader_scope_all
         (m_cb_frame_gpu (m_resources r))
         (world_of r cl) (m_cb_frame_buffer r) (m_cb_frame_cpu r)
         (m_cb_frame_cpu_previous r) (m_cb_frame_offset_index r);
  Ok (upd_result u, store_frame i u r).

Definition Update_Cb_Uber (d : Driver) (cmd_list : option nat) (r : Renderer)
  : Result (bool * Renderer) :=
  SP_ASSERT (bool_decide (cmd_list <> None));;
  i ← deref cmd_list;
  cl ← deref (m_cmd_lists r !! i);
  u ← update_and_rebind (fun a b => bool_decide (a = b)) d
         (RendererBindings_Cb_uber (m_resources r)) shader_scope_all
         (m_cb_uber_gpu (m_resources r))
         (world_of r cl) (m_cb_uber_buffer r) (m_cb_uber_cpu r)
         (m_cb_uber_cpu_previous r) (m_cb_uber_offset_index r);
  Ok (upd_result u, store_uber i u r).

Definition SetGlobalShaderObjectTransform (d : Driver) (cmd_list : option nat)
  (transform_ : Matrix) (r : Renderer) : Result Renderer :=
  let r := set_m_cb_uber_cpu (mkCbUber transform_ (uber_fields (m_cb_uber_cpu r))) r in
  '(_, r) ← Update_Cb_Uber d cmd_list r;
  Ok r.

(** ** The pass graph, as far as it is modelled *)

Definition with_pass_name (name : string) (ps : RHI_PipelineState) : RHI_PipelineState :=
  mkPipelineState (Some name) (render_target_color_textures ps)
    (render_target_depth_texture ps) (render_target_swapchain ps) (clear_color ps)
    (clear_depth ps) (clear_stencil ps) (IsCompute ps) (GetRenderPass ps) (GetFrameBuffer ps)
    (GetWidth ps) (GetHeight ps) (profile ps) (mark ps).

Definition Pass_UpdateFrameBuffer (P : Passes) (d : Driver) (cmd_list : option nat)
  (r : Renderer) : Result Renderer :=
  (* Set render state *)
  let pso := with_pass_name "Pass_UpdateFrameBuffer" (default_pipeline_state P) in
  (* Draw *)
  '(begun, r) ← on_cmd cmd_list (BeginRenderPass d pso) r;
  if (begun : bool)
  then
    '(_, r) ← Update_Cb_Frame d cmd_list r;
    '(_, r) ← on_cmd cmd_list (EndRenderPass d) r;
    Ok r
  else Ok r.

Definition Pass_Main (P : Passes) (d : Driver) (cmd_list : option nat) (r : Renderer)
  : Result Renderer :=
  (* Validate cmd list *)
  SP_ASSERT (bool_decide (cmd_list <> None));;
  i ← deref cmd_list;
  cl ← deref (m_cmd_lists r !! i);
  SP_ASSERT (bool_decide (m_state cl = Recording));;
  let r := set_m_passes_run (S (m_passes_run r)) r in
  (* Generate mips for any pending texture requests *)
  r ← Pass_Generate_Mips P r;
  (* Update frame constant buffer *)
  r ← Pass_UpdateFrameBuffer P d cmd_list r;
  (* Pass_BrdfSpecularLut ... Pass_PostProcess *)
  Pass_Remaining P r.

(** ** OnTick *)

Definition Vector2_Zero : Vector2 := (0, 0).
Definition Vector3_Forward : Vector3 := (0, 0, 1000).
Definition Vector3_Up : Vector3 := (0, 1000, 0).

(** The block "Update frame buffer" of [OnTick]. *)
Definition OnTick_update_frame_buffer (M : MathLib) (t : TickInput) (camera : Camera)
  (r : Renderer) : Result Renderer :=
  let r :=
    if m_update_ortho_proj r
       || negb (m_near_plane r =? GetNearPlane camera)
       || negb (m_far_plane r =? GetFarPlane camera)
    then
      let r := set_m_near_plane (GetNearPlane camera) r in
      let r := set_m_far_plane (GetFarPlane camera) r in
      let ortho := Matrix_CreateOrthographicLH M (m_viewport_width r) (m_viewport_height r)
                     0 (m_far_plane r) in
      let cb := set_projection_ortho ortho (m_cb_frame_cpu r) in
      let cb := set_view_projection_ortho
                  (Matrix_mul M
                     (Matrix_CreateLookAtLH M (0, 0, fsub M 0 (m_near_plane r))
                        Vector3_Forward Vector3_Up)
                     (projection_ortho cb)) cb in
      set_m_update_ortho_proj false (set_m_cb_frame_cpu cb r)
    else r in
  let cb := m_cb_frame_cpu r in
  let cb := set_view (GetViewMatrix camera) cb in
  let cb := set_projection (GetProjectionMatrix camera) cb in
  let cb := set_projection_inverted (Matrix_Invert M (projection cb)) cb in
  (* TAA - Generate jitter *)
  let '(r, cb) :=
    if GetOption Render_AntiAliasing_Taa r
    then
      let r := set_m_taa_jitter_previous (m_taa_jitter r) r in
      let scale := 1000 in
      let samples := 16 in
      let index := m_frame_num r mod samples in
      let '(hx, hy) := Halton2D M index 2 3 in
      let jx := fsub M (fmul M hx 2000) 1000 in
      let jy := fsub M (fmul M hy 2000) 1000 in
      let jx := fmul M (fdiv M jx (fst (m_resolution_render r))) scale in
      let jy := fmul M (fdiv M jy (snd (m_resolution_render r))) scale in
      let r := set_m_taa_jitter (jx, jy) r in
      (r, set_projection (Matrix_mul M (projection cb)
                            (Matrix_CreateTranslation M (jx, jy, 0))) cb)
    else
      (set_m_taa_jitter_previous Vector2_Zero (set_m_taa_jitter Vector2_Zero r), cb) in
  (* Update the remaining of the frame buffer *)
  let cb := set_view_projection_previous (view_projection cb) cb in
  let cb := set_view_projection (Matrix_mul M (view cb) (projection cb)) cb in
  let cb := set_view_projection_inv (Matrix_Invert M (view_projection cb)) cb in
  let cb := set_view_projection_unjittered
              (Matrix_mul M (view cb) (GetProjectionMatrix camera)) cb in
  let cb := set_camera_aperture (GetAperture camera) cb in
  let cb := set_camera_shutter_speed (GetShutterSpeed camera) cb in
  let cb := set_camera_iso (GetIso camera) cb in
  let cb := set_camera_near (GetNearPlane camera) cb in
  let cb := set_camera_far (GetFarPlane camera) cb in
  let cb := set_camera_position (GetPosition camera) cb in
  let cb := set_camera_direction (GetForward camera) cb in
  let cb := set_resolution_output (m_resolution_output r) cb in
  let cb := set_resolution_render (m_resolution_render r) cb in
  let cb := set_taa_jitter_offset
              (fsub M (fst (m_taa_jitter r)) (fst (m_taa_jitter_previous r)),
               fsub M (snd (m_taa_jitter r)) (snd (m_taa_jitter_previous r))) cb in
  let cb := set_delta_time (timer_GetDeltaTimeSmoothedSec t) cb in
  let cb := set_time (timer_GetTimeSec t) cb in
  let cb := set_bloom_intensity (GetOptionValue Bloom_Intensity r) cb in
  let cb := set_sharpen_strength (GetOptionValue Sharpen_Strength r) cb in
  let cb := set_fog (GetOptionValue Fog r) cb in
  let cb := set_tonemapping (GetOptionValue Tonemapping r) cb in
  let cb := set_gamma (GetOptionValue Gamma r) cb in
  let cb := set_shadow_resolution (GetOptionValue ShadowResolution r) cb in
  let cb := set_frame (u32 (m_frame_num r)) cb in
  frame_render ← deref (rt_Frame_Render r);
  frame_render ← deref (m_textures r !! frame_render);
  let cb := set_frame_mip_count (m_mip_count frame_render) cb in
  ssr ← deref (rt_Ssr r);
  ssr ← deref (m_textures r !! ssr);
  let cb := set_ssr_mip_count (m_mip_count ssr) cb in
  environment ← match m_tex_environment r with
                | Some tex =>
                    e ← deref (m_textures r !! tex);
                    Ok (float_of_int (m_width e), float_of_int (m_height e))
                | None => Ok Vector2_Zero
                end;
  let cb := set_resolution_environment environment cb in
  (* These must match what Common_Buffer.hlsl is reading *)
  let cb := set_bit (GetOption Render_ScreenSpaceReflections r) (2 ^ 0) cb in
  let cb := set_bit (GetOption Render_Upsample_TAA r) (2 ^ 1) cb in
  let cb := set_bit (GetOption Render_Ssao r) (2 ^ 2) cb in
  let cb := set_bit (negb (GetOptionValue Ssao_Gi r =? 0)) (2 ^ 3) cb in
  Ok (set_m_cb_frame_cpu cb r).

(** Acquire appropriate command list, and reset the dynamic buffer
    indices when the first command list comes round again. *)
Definition OnTick_acquire_command_list (r : Renderer) : Result Renderer :=
  let size := u32 (Z.of_nat (length (m_cmd_lists r))) in
  if size =? 0 then Fault DivideByZero
  else
    let r := set_m_cmd_index (u32 (m_cmd_index r + 1) mod size) r in
    let r := set_m_cmd_current
               (if m_cmd_index r <? size then Some (Z.to_nat (m_cmd_index r)) else None) r in
    Ok (if m_cmd_index r =? 0
        then set_m_cb_material_offset_index 0
               (set_m_cb_light_offset_index 0
                  (set_m_cb_frame_offset_index 0 (set_m_cb_uber_offset_index 0 r)))
        else r).

Definition OnTick_resize (t : TickInput) (sc : RHI_SwapChain) (r : Renderer) : Renderer :=
  (* Passing zero dimensions will cause the swapchain to not present at all *)
  let width := u32 (if window_IsMinimised t then 0 else window_GetWidth t) in
  let height := u32 (if window_IsMinimised t then 0 else window_GetHeight t) in
  if negb (m_present_enabled sc) || negb (m_width_ sc =? width)
     || negb (m_height_ sc =? height)
  then renderer_log (LOG_INFO "Swapchain resolution has been set")
         (set_m_swap_chain (Some (SwapChain_Resize width height sc)) r)
  else r.

Definition all_buckets_empty (r : Renderer) : bool :=
  match GeometryOpaque (m_entities r), GeometryTransparent (m_entities r),
        Light_ (m_entities r) with
  | [], [], [] => true
  | _, _, _ => false
  end.

Definition opaque_black : Vector4 := (0, 0, 0, 1000).

Definition OnTick (P : Passes) (M : MathLib) (d : Driver) (t : TickInput) (r : Renderer)
  : Result Renderer :=
  device ← (SP_ASSERT (bool_decide (m_rhi_device r <> None));; deref (m_rhi_device r));
  SP_ASSERT device;;
  SP_ASSERT (bool_decide (m_swap_chain r <> None));;
  r ← (if m_flush_requested r then Renderer_Flush d r else Ok r);
  sc ← deref (m_swap_chain r);
  if negb (m_present_enabled sc) || negb (m_is_rendering_allowed r) then Ok r
  else
    (* Resize swapchain to window size (if needed) *)
    let r := OnTick_resize t sc r in
    (* Acquire appropriate command list *)
    r ← OnTick_acquire_command_list r;
    (* Begin *)
    '(_, r) ← on_cmd (m_cmd_current r) (Begin d) r;
    match m_camera r with
    | None =>
        (* If there is no camera, clear to black *)
        on_cmd_ (m_cmd_current r)
          (ClearRenderTarget (rt_Frame_Output r) 0 0 false (clear_to opaque_black)
             rhi_load rhi_load) r
    | Some camera =>
        if all_buckets_empty r
        then
          (* If there is not camera but no other entities to render, clear to camera's color *)
          on_cmd_ (m_cmd_current r)
            (ClearRenderTarget (rt_Frame_Output r) 0 0 false
               (clear_to (GetClearColor camera)) rhi_load rhi_load) r
        else
          (* Update frame buffer *)
          r ← OnTick_update_frame_buffer M t camera r;
          r ← Pass_Main P d (m_cmd_current r) r;
          r ← TickPrimitives P (delta_time_ t) r;
          let r := set_m_frame_num (u64 (m_frame_num r + 1)) r in
          Ok (set_m_is_odd_frame (m_frame_num r mod 2 =? 1) r)
    end.

(** Step 3 of a tick as seen from outside: the command-list index moved to
    the next slot and a current command list is set. *)
Definition selects_next_command_list (r r' : Renderer) : Prop :=
  m_cmd_index r' = u32 (m_cmd_index r + 1) mod u32 (Z.of_nat (length (m_cmd_lists r))) /\
  m_cmd_current r' <> None.

(** ** Sample objects

    A small, well-formed renderer: two textures (the frame output and the
    transparent default), three idle command lists, exact fixed-point
    arithmetic for [float]. *)

Module Sample.

Definition layouts (l : RHI_Image_Layout) : list RHI_Image_Layout := replicate 12 l.

Definition texture (l : RHI_Image_Layout) : RHI_Texture :=
  mkTexture (layouts l) 1 1 64 64 0 true true false true false false false true.

Definition frame_output : nat := 0.
Definition default_transparent : nat := 1.
Definition staging : nat := 2.
Definition no_view : nat := 3.

Definition textures : gmap nat RHI_Texture :=
  <[frame_output := texture Color_Attachment_Optimal]>
    (<[default_transparent := texture Shader_Read_Only_Optimal]>
       (<[staging := texture Undefined]>
          (<[no_view := mkTexture (layouts Shader_Read_Only_Optimal) 1 1 64 64 0 true false
                          false true false false false true]> ∅))).

Definition command_list (st : RHI_CommandListState) : RHI_CommandList :=
  mkCommandList st true true false false false false None None 0 0 0 0 0
    Semaphore_Idle [] 0 0.

Definition cache (layout : bool) : RHI_DescriptorSetLayoutCache :=
  mkCache layout ∅ ∅ ∅ ∅.

Definition profiler : Profiler := mkProfiler 0 0 0 0 0 0 0.

Definition resources : RendererResources :=
  mkResources (Some 10%nat) (Some 11%nat) (Some 12%nat) (Some 13%nat)
    (replicate 7 (Some 20%nat)) (Some default_transparent) (Some default_transparent)
    (Some default_transparent) 0 1 2 3 4 5.

Definition world (st : RHI_CommandListState) (layout : bool) : World :=
  mkWorld (command_list st) textures (cache layout) profiler [] resources true.

Definition driver : Driver :=
  mkDriver false false true true true true true (Some true) true true true true true true.

Definition math : MathLib :=
  mkMathLib Z.add Z.sub (fun a b => a * b / 1000) (fun a b => a * 1000 / b)
    (fun a b => zip_with Z.add a b) (fun a => a) (fun w h n f => [w; h; n; f])
    (fun '(x, y, z) _ _ => [x; y; z]) (fun '(x, y, z) => [x; y; z])
    (fun i _ _ => (i, i)).

Definition pipeline_state (colors : list (Clear Vector4)) : RHI_PipelineState :=
  mkPipelineState (Some "sample") (map (fun _ => Some frame_output) colors) None false
    colors rhi_load rhi_load false true true 64 64 false false.

Definition passes : Passes :=
  mkPasses (mkPipelineState None [] None false [] rhi_load rhi_load false false false 0 0
              false false)
    (fun r => Ok r) (fun r => Ok r) (fun _ r => Ok r).

Definition camera (position : Vector3) : Camera :=
  mkCamera [1000] [1000] 100 100000 1000 1000 1000 position (0, 0, 1000)
    (200, 400, 600, 1000).

Definition renderable_at (center : Vector3) : Entity :=
  mkEntity true (Some (mkRenderable (Some (mkMaterial 1000)) center)) None None.

Definition light_entity : Entity :=
  mkEntity true None (Some (mkLight Directional 5000)) None.

Definition camera_entity : Entity :=
  mkEntity true None None (Some (camera (0, 0, 0))).

Definition cb_frame : Cb_Frame :=
  mkCbFrame [] [] [] [] [] [] [] [] [] 0 0 0 0 0 0 0 0 (0, 0, 0) (0, 0, 0) (0, 0) (0, 0)
    (0, 0) 0 0 0 0 0 0 0 0 (0, 0) 0 0.

Definition constant_buffer {T : Type} (offsets : Z) : RHI_ConstantBuffer T :=
  mkConstantBuffer true offsets 256 0 ∅.

Definition renderer (present : bool) (cam : option Camera) (entities : Entities) : Renderer :=
  mkRenderer (Some true) (Some (mkSwapChain present (if present then 64 else 0)
                                  (if present then 64 else 0)))
    false true
    [command_list Idle; command_list Idle; command_list Idle] (2 ^ 32 - 1) None
    textures (cache false) profiler [] resources
    (Some frame_output) (Some frame_output) (Some frame_output) None
    cam entities
    cb_frame cb_frame (constant_buffer 4) 0
    (mkCbUber [] []) (mkCbUber [] []) (constant_buffer 4) 0 0 0
    true 0 0 64000 64000 (64000, 64000) (64000, 64000) (0, 0) (0, 0)
    0 (fun _ => 0) 0 false 0.

Definition tick_input (minimised : bool) : TickInput :=
  mkTickInput minimised 64 64 16 1000 16.

(** A pass with three colour targets that is opened, bound and never drawn. *)
Definition three_targets : RHI_PipelineState :=
  pipeline_state [clear_to (1000, 0, 0, 1000); clear_to (0, 1000, 0, 1000);
                  clear_to (0, 0, 1000, 1000)].

Definition binds : list (Driver * Op) :=
  [(driver, Op_SetViewport 0 0 64000 64000);
   (driver, Op_SetTexture 7 None (-1) false false)].

Definition pass_opened : World :=
  match BeginRenderPass driver three_targets (world Recording false) with
  | Ok (_, w) => w
  | Fault _ => world Recording false
  end.

Definition pass_bound : World :=
  match run binds pass_opened with
  | Ok w => w
  | Fault _ => pass_opened
  end.

(** Two ticks of a scene with a camera, a renderable and a light. *)
Definition scene : Renderer :=
  renderer true (Some (camera (0, 0, 0)))
    (mkEntities [renderable_at (0, 0, 5000)] [] [light_entity] []).

Definition after_tick (r : Renderer) : Renderer :=
  match OnTick passes math driver (tick_input false) r with
  | Ok r' => r'
  | Fault _ => r
  end.

(** Two textures of three mips with per-mip views, as [Blit] needs them,
    on a command list in any state. *)
Definition mip_texture (l : RHI_Image_Layout) : RHI_Texture :=
  mkTexture (layouts l) 3 1 64 64 0 true true true true false false false true.

Definition mip_world (st : RHI_CommandListState) : World :=
  mkWorld (command_list st)
    (<[0%nat := mip_texture Shader_Read_Only_Optimal]>
       (<[1%nat := mip_texture Color_Attachment_Optimal]> ∅))
    (cache true) profiler [] resources true.

(** A pass that drew and whose command list was then ended. *)
Definition ended_pass : World :=
  match run [(driver, Op_Begin); (driver, Op_BeginRenderPass three_targets);
             (driver, Op_Draw 3); (driver, Op_End)] (world Idle false) with
  | Ok w => w
  | Fault _ => world Idle false
  end.

End Sample.

(** ** Notions used by the statements *)

(** The world after a [Begin] that succeeded on an idle command list. *)
Definition begun (w : World) : World :=
  upd_cmd (set_m_flushed false)
    (set_state Recording
       (upd_cmd (set_recorded [vkCmdResetQueryPool]) (upd_cmd (set_m_timestamp_index 0) w))).

(** What a call leaves alone on the command list. *)
Definition same_recording_state (w w' : World) : Prop :=
  m_state (cmd w') = m_state (cmd w) /\
  m_render_pass_active (cmd w') = m_render_pass_active (cmd w) /\
  m_flushed (cmd w') = m_flushed (cmd w) /\
  m_pipeline (cmd w') = m_pipeline (cmd w) /\
  m_pipeline_state (cmd w') = m_pipeline_state (cmd w) /\
  flushes (cmd w') = flushes (cmd w) /\
  submissions (cmd w') = submissions (cmd w).

(** The colour a tick without scene clears the output to. *)
Definition tick_clear_color (r : Renderer) : Vector4 :=
  match m_camera r with
  | None => opaque_black
  | Some camera => GetClearColor camera
  end.

(** The mip a binding addresses. *)
Definition addressed_mip (mip : Z) : Z := if negb (mip =? -1) then u32 mip else 0.

Definition no_layout (l : RHI_Image_Layout) : bool :=
  bool_decide (l = Undefined) || bool_decide (l = Preinitialized).

Definition error_no_layout : LogEntry :=
  LOG_ERROR "Can't set texture without a layout, replacing with a default texture".
Definition error_pass_active : LogEntry :=
  LOG_ERROR "Can't transition texture to target layout while a render pass is active, replacing with a default texture".

(** The calls of [SetTexture] that end with the default texture: a null
    reference, a texture without shader resource view, a texture whose
    addressed mip has no layout yet, and a texture that would need a
    transition while a render pass is active.  The last index is what the
    call writes to the log. *)
Inductive falls_back (w : World) (mip : Z) (uav : bool)
  : option nat -> list LogEntry -> Prop :=
| fb_null : falls_back w mip uav None []
| fb_no_view (tex : nat) (t : RHI_Texture) :
    textures w !! tex = Some t ->
    (if uav then IsUav t else IsSrv t) = true ->
    m_resource_view_srv t = false ->
    falls_back w mip uav (Some tex) []
| fb_no_layout (tex : nat) (t : RHI_Texture) (l : RHI_Image_Layout) :
    textures w !! tex = Some t ->
    (if uav then IsUav t else IsSrv t) = true ->
    m_resource_view_srv t = true ->
    GetLayout t (addressed_mip mip) = Ok l ->
    no_layout l = true ->
    falls_back w mip uav (Some tex) [error_no_layout]
| fb_pass_active (tex : nat) (t : RHI_Texture) (l : RHI_Image_Layout) :
    textures w !! tex = Some t ->
    (if uav then IsUav t else IsSrv t) = true ->
    m_resource_view_srv t = true ->
    GetLayout t (addressed_mip mip) = Ok l ->
    no_layout l = false ->
    SetTexture_target_layout uav t l <> Undefined ->
    m_render_pass_active (cmd w) = true ->
    falls_back w mip uav (Some tex) [error_pass_active].

(** The array [a] with [count] cells from [start] on set to [x]. *)
Definition list_fill {A : Type} (a : list A) (start count : nat) (x : A) : list A :=
  take start a ++ replicate count x ++ drop (start + count) a.

(** The mips a call of [SetLayout] addresses. *)
Definition SetLayout_mip_start (mip : Z) : Z := if mip =? -1 then 0 else mip.

Definition SetLayout_mip_range (t : RHI_Texture) (mip : Z) (ranged : bool) : Z :=
  if ranged then (if mip =? -1 then m_mip_count t else m_mip_count t - mip) else 1.

(** The world after a transition that takes place. *)
Definition SetLayout_done (new_layout : RHI_Image_Layout) (cmd_list : bool) (mip : Z)
  (ranged : bool) (tex : nat) (t : RHI_Texture) (current_layout : RHI_Image_Layout)
  (w : World) : World :=
  let w1 :=
    if cmd_list
    then upd_profiler
           (fun p => set_m_rhi_pipeline_barriers (u32 (m_rhi_pipeline_barriers p + 1)) p)
           (record_cmd (vkCmdPipelineBarrier tex (SetLayout_mip_start mip)
                          (SetLayout_mip_range t mip ranged) (m_array_length t)
                          current_layout new_layout) w)
    else w in
  set_textures
    (<[tex := set_m_layout
                (list_fill (m_layout t) (Z.to_nat (SetLayout_mip_start mip))
                   (Z.to_nat (SetLayout_mip_range t mip ranged)) new_layout) t]>
       (textures w1)) w1.

(** The mips addressed lie inside the array of layouts. *)
Definition SetLayout_in_range (t : RHI_Texture) (mip : Z) (ranged : bool) : Prop :=
  (mip = -1 \/ 0 <= mip < 2 ^ 32 /\ HasPerMipView t = true) /\
  0 <= SetLayout_mip_range t mip ranged /\
  SetLayout_mip_start mip + SetLayout_mip_range t mip ranged
  <= Z.of_nat (length (m_layout t)) /\
  SetLayout_mip_start mip + SetLayout_mip_range t mip ranged < 2 ^ 32.

(** The statements of [SetTexture] from "Transition to appropriate layout"
    on: the texture to bind and the layout it was found in are known. *)
Definition SetTexture_transition_and_set (slot : Z) (mip : Z) (ranged uav : bool)
  (texture : option nat) (current_layout : RHI_Image_Layout) (w : World) : Result World :=
  tex ← deref texture;
  t ← lookup_texture tex w;
  (* Transition to appropriate layout (if needed) *)
  let target_layout := SetTexture_target_layout uav t current_layout in
  let transition_required := negb (bool_decide (target_layout = Undefined)) in
  '(texture, w) ←
    (if transition_required && negb (m_render_pass_active (cmd w))
     then w ← SetLayout target_layout true mip ranged tex w; Ok (texture, w)
     else if transition_required && m_render_pass_active (cmd w)
     then Ok (GetDefaultTextureTransparent w, write_log error_pass_active w)
     else Ok (texture, w));
  (* Set (will only happen if it's not already set) *)
  Ok (upd_cache (fun c => set_bound_textures
                            (<[slot := mkTextureBinding texture mip ranged]> (bound_textures c)) c) w).

(** The statements of [SetTexture] from the reading of the layout on: the
    texture to bind is known, null and view-less textures have been
    replaced. *)
Definition SetTexture_read_layout_and_set (slot : Z) (mip : Z) (ranged uav : bool)
  (texture : option nat) (w : World) : Result World :=
  tex ← deref texture;
  t ← lookup_texture tex w;
  current_layout ← GetLayout t (addressed_mip mip);
  (* If the image has an invalid layout, replace with a default texture *)
  '(texture, current_layout, w) ←
    (if no_layout current_layout
     then
       let w := write_log error_no_layout w in
       let texture := GetDefaultTextureTransparent w in
       tex ← deref texture;
       t ← lookup_texture tex w;
       current_layout ← GetLayout t 0;
       Ok (texture, current_layout, w)
     else Ok (texture, current_layout, w));
  SetTexture_transition_and_set slot mip ranged uav texture current_layout w.

(** The default texture is there and has the mips a binding addresses (with
    per-mip views when a single mip is addressed), so that its layout can
    be read and it can be transitioned itself. *)
Definition placeholder_ready (w : World) (mip : Z) (ranged : bool) (dflt : nat) : Prop :=
  exists td : RHI_Texture,
    textures w !! dflt = Some td /\
    SetLayout_in_range td mip ranged /\
    (Z.to_nat (SetLayout_mip_start mip) < length (m_layout td))%nat.

(** What a call that fell back to the default texture leaves: the slot
    holds the default texture, the other slots and the state are kept, the
    log has gained the errors of the case (and what the default texture
    itself added), and inside a render pass nothing was recorded and no
    layout changed. *)
Definition bound_as_default (slot : Z) (mip : Z) (ranged : bool) (dflt : nat)
  (errors : list LogEntry) (w w' : World) : Prop :=
  bound_textures (cache w') !! slot = Some (mkTextureBinding (Some dflt) mip ranged) /\
  (forall other : Z, other <> slot ->
     bound_textures (cache w') !! other = bound_textures (cache w) !! other) /\
  m_state (cmd w') = m_state (cmd w) /\
  (exists more : list LogEntry, log w' = log w ++ errors ++ more) /\
  (m_render_pass_active (cmd w) = true ->
   recorded (cmd w') = recorded (cmd w) /\ textures w' = textures w).

Definition warning_no_descriptor_layout : LogEntry :=
  LOG_WARNING "Descriptor layout not set, try setting texture within a render pass".

(** What [EndRenderPass] records for a pass that never drew: the clear
    values of the deferred [vkCmdBeginRenderPass], the attachments of
    [vkCmdClearAttachments], and the commands in order. *)
Definition begin_clear_values (ps : RHI_PipelineState) : list VkClearValue :=
  color_clear_values ps
  ++ match render_target_depth_texture ps with
     | Some _ => [ClearValue_depthStencil (clear_depth ps) (clear_stencil ps)]
     | None => []
     end
  ++ (if render_target_swapchain ps
      then match clear_color ps with
           | color :: _ => [ClearValue_color color]
           | [] => []
           end
      else []).

Definition clear_attachments (ps : RHI_PipelineState) : list VkClearAttachment :=
  let depth := negb (is_load (clear_depth ps)) && negb (is_dont_care (clear_depth ps)) in
  let stencil := negb (is_load (clear_stencil ps)) && negb (is_dont_care (clear_stencil ps)) in
  color_clear_attachments ps
  ++ (if depth || stencil
      then [mkClearAttachment false depth stencil 0
              (ClearValue_depthStencil (clear_depth ps) (clear_stencil ps))]
      else []).

Definition end_pass_commands (d : Driver) (ps : RHI_PipelineState) : list VkCmd :=
  [vkCmdBeginRenderPass (begin_clear_values ps) (GetWidth ps) (GetHeight ps)]
  ++ match clear_attachments ps with
     | [] => []
     | attachments => [vkCmdClearAttachments attachments (GetWidth ps) (GetHeight ps)]
     end
  ++ [vkCmdEndRenderPass]
  ++ (if context_markers d && mark ps then [marker_end] else []).

(** [c] is the smallest power of two that is at least [n]. *)
Definition smallest_power_of_two_at_least (n c : Z) : Prop :=
  (exists k, 0 <= k /\ c = 2 ^ k) /\
  n <= c /\
  forall k, 0 <= k -> n <= 2 ^ k -> c <= 2 ^ k.

(** One flush of a recording command list that restores the recording:
    the list was ended, submitted (the queue received one submission, none
    when the pipeline targets a swap chain that does not present), waited
    for (the processed semaphore is idle) and begun again with a fresh
    command buffer, and is marked as flushed.  [flushes] counts the calls
    of [Flush]. *)
Definition flushed_once (w w' : World) : Prop :=
  flushes (cmd w') = S (flushes (cmd w)) /\
  submissions (cmd w') =
    (if swapchain_of_pipeline w && negb (PresentEnabled w)
     then submissions (cmd w) else S (submissions (cmd w))) /\
  m_processed_semaphore (cmd w') = Semaphore_Idle /\
  recorded (cmd w') = [vkCmdResetQueryPool] /\
  m_flushed (cmd w') = true /\
  m_state (cmd w') = Recording.

(** The answers of the driver a growing update needs. *)
Definition driver_succeeds (d : Driver) : Prop :=
  vkEndCommandBuffer_ok d = true /\
  QueueSubmit_ok d = true /\
  Fence_Wait_ok d = true /\
  vkBeginCommandBuffer_ok d = true /\
  ConstantBuffer_Create_ok d = true /\
  ConstantBuffer_Map_ok d = true /\
  ConstantBuffer_Unmap_ok d = true.

(** The frame block of the renderer and what a tick needs to reach the
    pass graph. *)
Definition frame_block (r : Renderer) : Cb_Frame * Cb_Frame * Z * Z :=
  (m_cb_frame_cpu r, m_cb_frame_cpu_previous r, m_cb_frame_offset_index r, m_frame_num r).

(** The passes that are not modelled never write the frame block or the
    frame counter (in the source only [OnTick] and [Update_Cb_Frame] do). *)
Definition keeps_frame_block (P : Passes) : Prop :=
  (forall r r', Pass_Generate_Mips P r = Ok r' -> frame_block r' = frame_block r) /\
  (forall r r', Pass_Remaining P r = Ok r' -> frame_block r' = frame_block r) /\
  (forall dt r r', TickPrimitives P dt r = Ok r' -> frame_block r' = frame_block r).

Definition reaches_pass_graph (r : Renderer) : Prop :=
  m_rhi_device r = Some true /\
  (exists sc, m_swap_chain r = Some sc /\ m_present_enabled sc = true) /\
  m_is_rendering_allowed r = true /\
  m_flush_requested r = false /\
  m_camera r <> None /\
  all_buckets_empty r = false.

Definition same_frame_data (r r' : Renderer) : Prop :=
  m_cb_frame_cpu r' = m_cb_frame_cpu r /\
  m_cb_frame_cpu_previous r' = m_cb_frame_cpu_previous r /\
  m_frame_num r' = m_frame_num r /\
  m_camera r' = m_camera r /\
  m_entities r' = m_entities r.

(** The offset index of the frame block after the command list of the
    tick is selected: back to 0 with the first command list. *)
Definition frame_offset_base (r : Renderer) : Z :=
  if u32 (m_cmd_index r + 1) mod u32 (Z.of_nat (length (m_cmd_lists r))) =? 0
  then 0 else m_cb_frame_offset_index r.

(** ** More of the renderer and of the vocabulary of the statements *)


(** While [Blit] restores the layouts mip by mip: the mips below [i] and
    the cells past the last mip are as in [initial], the mips from [i] on
    have some layout. *)
Definition restored_below (n i : nat) (layouts initial : list RHI_Image_Layout) : Prop :=
  length layouts = length initial /\
  (forall j : nat, (j < i \/ n <= j)%nat -> layouts !! j = initial !! j) /\
  (forall j : nat, (i <= j < n)%nat ->
     exists l, layouts !! j = Some l /\ l <> Undefined).

(** Every mip of the texture has a layout. *)
Definition all_mips_defined (t : RHI_Texture) : Prop :=
  forall j : nat, (Z.of_nat j < m_mip_count t) ->
    exists l, m_layout t !! j = Some l /\ l <> Undefined.

(** What [Blit] asserts of its two textures. *)
Definition Blit_compatible (s t : RHI_Texture) : Prop :=
  m_texture_resource s = true /\ m_texture_resource t = true /\
  m_format s = m_format t /\ m_width s = m_width t /\ m_height s = m_height t /\
  m_array_length s = m_array_length t /\ m_mip_count s = m_mip_count t.

(** The buckets an entity of the world belongs to. *)
Definition is_transparent (e : Entity) : bool :=
  match GetRenderable e with
  | Some renderable =>
      match GetMaterial renderable with
      | Some material => GetColorAlbedo_w material <? 1000
      | None => false
      end
  | None => false
  end.

Definition has_renderable (e : Entity) : bool :=
  match GetRenderable e with Some _ => true | None => false end.

Definition has_light (e : Entity) : bool :=
  match GetLight e with Some _ => true | None => false end.

Definition has_camera (e : Entity) : bool :=
  match GetCamera e with Some _ => true | None => false end.

(** The entities [OnRenderablesAcquire] looks at: those that exist and are
    active, in the order of the world. *)
Definition active_entities (entities : list (option Entity)) : list Entity :=
  List.filter IsActive (omap id entities).

(** [k] consecutive selections of a command list (step 3 of [k] ticks). *)
Fixpoint acquire_command_lists (k : nat) (r : Renderer) : Result Renderer :=
  match k with
  | O => Ok r
  | S k => r ← OnTick_acquire_command_list r; acquire_command_lists k r
  end.

(** The four offset indices the first command list resets. *)
Definition dynamic_offsets (r : Renderer) : Z * Z * Z * Z :=
  (m_cb_uber_offset_index r, m_cb_frame_offset_index r, m_cb_light_offset_index r,
   m_cb_material_offset_index r).

(** ** Options, viewport and clearing of the renderer *)

(** [Renderer::SetOption].  [CreateRenderTextures] is declared outside
    src/ and stands for any function of the renderer.  Of the two
    upsampling options whose toggling re-creates the render textures,
    [Render_Upsample_TAA] is the one among the options of the model. *)
Definition SetOption (CreateRenderTextures : Renderer -> Renderer)
  (option : Renderer_Option) (enable : bool) (r : Renderer) : Renderer :=
  let '(toggled, r) :=
    if enable && negb (GetOption option r)
    then (true, set_m_options (u64 (Z.lor (m_options r) (Renderer_Option_bit option))) r)
    else if negb enable && GetOption option r
    then (true,
          set_m_options (Z.land (m_options r) (u64 (Z.lnot (Renderer_Option_bit option)))) r)
    else (false, r) in
  if (toggled : bool)
  then match option with
       | Render_Upsample_TAA => CreateRenderTextures r
       | _ => r
       end
  else r.

(** [Renderer::SetViewport]; the quad of the viewport and its buffers are
    outside the model. *)
Definition Renderer_SetViewport (d : Driver) (width height : float) (r : Renderer)
  : Result Renderer :=
  if negb (m_viewport_width r =? width) || negb (m_viewport_height r =? height)
  then
    let r := set_m_viewport_height height (set_m_viewport_width width r) in
    r ← Renderer_Flush d r;
    Ok (set_m_update_ortho_proj true r)
  else Ok r.

(** [Renderer::OnClear]: flush to remove references to entity resources
    that will be deallocated, then forget the entities. *)
Definition OnClear (d : Driver) (r : Renderer) : Result Renderer :=
  r ← Renderer_Flush d r;
  Ok (set_m_entities Entities_clear r).

(** [Renderer::OnWorldLoaded]. *)
Definition OnWorldLoaded (r : Renderer) : Renderer :=
  set_m_is_rendering_allowed true r.

(** What a flush of the renderer has no business with. *)
Definition renderer_settings (r : Renderer) :=
  (m_is_rendering_allowed r, m_swap_chain r, m_frame_num r, m_cmd_current r,
   m_camera r, m_entities r, m_options r,
   (m_viewport_width r, m_viewport_height r, m_update_ortho_proj r)).

(** ** More sample objects *)

Module Scenario.

(** A driver that refuses every call of the life cycle, one whose buffers
    cannot be mapped and one that cannot create buffers. *)
Definition refusing : Driver :=
  mkDriver false false false false false false true (Some true) true true true true true true.

Definition no_map : Driver :=
  mkDriver false false true true true true true (Some true) true true true true false true.

Definition no_create : Driver :=
  mkDriver false false true true true true true (Some true) true true true false true true.

(** A recording command list after a flush that restored the recording. *)
Definition flushed : World :=
  match Flush Sample.driver true (Sample.world Recording true) with
  | Ok (_, w) => w
  | Fault _ => Sample.world Recording true
  end.

(** An ended command list whose pipeline targets a swap chain that does
    not present. *)
Definition swapchain_pass : RHI_PipelineState :=
  mkPipelineState (Some "present") [] None true [clear_to (0, 0, 0, 1000)] rhi_load rhi_load
    false true true 64 64 false false.

Definition minimised : World :=
  mkWorld
    (mkCommandList Ended true true false false false false
       (Some (mkPipeline (Some swapchain_pass) true)) (Some swapchain_pass) 0 0 0 0 0
       Semaphore_Idle [vkCmdResetQueryPool] 0 0)
    Sample.textures (Sample.cache true) Sample.profiler [] Sample.resources false.

(** The pass of [Sample.pass_opened] after one draw. *)
Definition drawn : World :=
  match Draw Sample.driver 3 Sample.pass_opened with
  | Ok (_, w) => w
  | Fault _ => Sample.pass_opened
  end.

Definition bucket : list Entity :=
  [Sample.renderable_at (0, 0, 5000); Sample.renderable_at (0, 0, 1000);
   Sample.renderable_at (0, 0, 3000)].

(** A renderer after one tick of the sample scene, and its command list. *)
Definition ticked : Renderer := Sample.after_tick Sample.scene.

Definition ticked_list : RHI_CommandList :=
  match m_cmd_lists ticked !! 0%nat with
  | Some cl => cl
  | None => Sample.command_list Idle
  end.

Definition after_flush : Renderer :=
  match Renderer_Flush Sample.driver ticked with
  | Ok r => r
  | Fault _ => ticked
  end.

Definition static_buffer : RHI_ConstantBuffer Z := mkConstantBuffer false 1 256 0 ∅.

Definition resized : Renderer :=
  match Renderer_SetViewport Sample.driver 32000 32000 Sample.scene with
  | Ok r => r
  | Fault _ => Sample.scene
  end.

(** A renderer whose first command list records inside a pass. *)
Definition recording : Renderer :=
  set_m_descriptor_set_layout_cache (Sample.cache true)
    (set_m_cmd_lists [Sample.command_list Recording] Sample.scene).

Definition cleared : Renderer :=
  match OnClear Sample.driver Sample.scene with
  | Ok r => r
  | Fault _ => Sample.scene
  end.

End Scenario.
(** * Properties *)

Lemma bind_Ok {A B : Type} (a : A) (k : A -> Result B) : (Ok a ≫= k) = k a.
Proof. reflexivity. Qed.

Lemma bind_Fault {A B : Type} (e : Abort) (k : A -> Result B) :
  (Fault e ≫= k) = Fault e.
Proof. reflexivity. Qed.

Lemma bind_inv {A B : Type} (m : Result A) (k : A -> Result B) (b : B) :
  (m ≫= k) = Ok b -> exists a, m = Ok a /\ k a = Ok b.
Proof. destruct m as [a|e]; [eauto | discriminate]. Qed.

Lemma SP_ASSERT_inv (b : bool) (u : unit) : SP_ASSERT b = Ok u -> b = true.
Proof. destruct b; [reflexivity | discriminate]. Qed.

Lemma run_app (ops1 ops2 : list (Driver * Op)) (w : World) :
  run (ops1 ++ ops2) w = (run ops1 w ≫= run ops2).
Proof.
  revert w; induction ops1 as [|[d op] ops1 IH]; intros w; simpl; [reflexivity|].
  destruct (exec d op w) as [w1|e]; simpl; [apply IH | reflexivity].
Qed.

Lemma not_recording (w : World) :
  m_state (cmd w) <> Recording -> is_recording w = false.
Proof. intros H; unfold is_recording; apply bool_decide_eq_false_2; exact H. Qed.

(** A call made in a state other than the one it validates stops at its
    first statement. *)
Lemma exec_wrong_state (d : Driver) (op : Op) (w : World) (st : RHI_CommandListState) :
  required_state op = Some st ->
  m_state (cmd w) <> st ->
  exec d op w = Fault AssertFail.
Proof.
  intros Hreq Hst.
  destruct op; simpl in Hreq; inversion Hreq; subst st; clear Hreq;
    unfold exec, End, Submit, Reset, Wait, BeginRenderPass,
      ClearPipelineStateRenderTargets, ClearRenderTarget, Draw, DrawIndexed, Dispatch,
      draw_with, SetViewport, SetScissorRectangle, SetBufferVertex, SetBufferIndex,
      SetConstantBuffer, SetSampler, SetTexture, SetStructuredBuffer, Timestamp;
    rewrite ?(not_recording w Hst), ?(bool_decide_eq_false_2 _ Hst);
    reflexivity.
Qed.



(** C7.  [SetLayout] with the layout the addressed mip already has returns
    at once: the world is the same, so no barrier was recorded, the
    barrier counter of the profiler did not move and every per-mip layout is
    as before. *)
Theorem SetLayout_current_layout_is_noop
  (w : World) (tex : nat) (t : RHI_Texture) (new_layout : RHI_Image_Layout)
  (cmd_list : bool) (mip : Z) (ranged : bool) :
  textures w !! tex = Some t ->
  (mip <> -1 -> HasPerMipView t = true) ->
  array_get (m_layout t) (if negb (mip =? -1) then u32 mip else 0) = Ok new_layout ->
  SetLayout new_layout cmd_list mip ranged tex w = Ok w.
Proof.
  intros Htex Hview Hcur. unfold SetLayout, lookup_texture.
  rewrite Htex; simpl.
  assert (Hassert : implb (negb (mip =? -1)) (HasPerMipView t) = true).
  { destruct (Z.eqb_spec mip (-1)) as [->|Hne]; simpl; [reflexivity | auto]. }
  rewrite Hassert; simpl. rewrite Hcur; simpl.
  destruct (decide (new_layout = Undefined)); [reflexivity|].
  destruct (decide (new_layout = new_layout)); [reflexivity | congruence].
Qed.

(** C10.  While the addressed mip is still [Undefined], [SetLayout]
    returns without recording a barrier and without storing the requested
    layout, whatever layout was requested. *)
Theorem SetLayout_undefined_is_kept
  (w : World) (tex : nat) (t : RHI_Texture) (new_layout : RHI_Image_Layout)
  (cmd_list : bool) (mip : Z) (ranged : bool) :
  textures w !! tex = Some t ->
  (mip <> -1 -> HasPerMipView t = true) ->
  array_get (m_layout t) (if negb (mip =? -1) then u32 mip else 0) = Ok Undefined ->
  SetLayout new_layout cmd_list mip ranged tex w = Ok w.
Proof.
  intros Htex Hview Hcur. unfold SetLayout, lookup_texture.
  rewrite Htex; simpl.
  assert (Hassert : implb (negb (mip =? -1)) (HasPerMipView t) = true).
  { destruct (Z.eqb_spec mip (-1)) as [->|Hne]; simpl; [reflexivity | auto]. }
  rewrite Hassert; simpl. rewrite Hcur; simpl.
  destruct (decide (Undefined = Undefined)); [reflexivity | congruence].
Qed.

(** ** Renderer: buckets *)

(** C9.  A bucket of two renderables is left as it was acquired: with the
    camera at the origin, a renderable at distance 5 acquired before one at
    distance 1 stays in front of it, so the opaque bucket is not ordered
    front to back after [OnRenderablesAcquire]. *)
Theorem RenderablesSort_skips_two_entries :
  exists (entities : Entities) (camera : Camera),
    OnRenderablesAcquire Sample.math
      [Some (Sample.renderable_at (0, 0, 5000)); Some (Sample.renderable_at (0, 0, 1000));
       Some Sample.camera_entity] = (entities, Some camera) /\
    GeometryOpaque entities =
      [Sample.renderable_at (0, 0, 5000); Sample.renderable_at (0, 0, 1000)] /\
    ~ depth_sorted Sample.math camera (GeometryOpaque entities).
Proof.
  eexists; eexists; split; [vm_compute; reflexivity|].
  split; [reflexivity|].
  intros Hsorted.
  specialize (Hsorted 0%nat _ _ eq_refl eq_refl).
  vm_compute in Hsorted. apply Hsorted; reflexivity.
Qed.

(** ** Renderer: the tick *)

Lemma on_cmd_swap_chain {A : Type} (c : option nat) (f : World -> Result (A * World))
  (r r' : Renderer) (a : A) :
  on_cmd c f r = Ok (a, r') -> m_swap_chain r' = m_swap_chain r.
Proof.
  unfold on_cmd. intros H.
  destruct c as [i|]; simpl in H; [|discriminate].
  destruct (m_cmd_lists r !! i) as [cl|]; simpl in H; [|discriminate].
  destruct (f (world_of r cl)) as [[a' w]|e]; simpl in H; [|discriminate].
  inversion H; subst; reflexivity.
Qed.

Lemma Renderer_Flush_swap_chain (d : Driver) (r r' : Renderer) :
  Renderer_Flush d r = Ok r' -> m_swap_chain r' = m_swap_chain r.
Proof.
  unfold Renderer_Flush. intros H.
  set (r1 := if negb (m_is_rendering_allowed r) then _ else r) in H.
  assert (H1 : m_swap_chain r1 = m_swap_chain r).
  { subst r1. destruct (m_is_rendering_allowed r); simpl; [reflexivity|].
    destruct (Queue_WaitAll_ok d); reflexivity. }
  destruct (m_cmd_current r1) as [i|] eqn:Hcur; simpl in H.
  - destruct (on_cmd (Some i) (Flush d false) r1) as [[flushed r2]|e] eqn:Hf;
      simpl in H; [|discriminate].
    apply on_cmd_swap_chain in Hf.
    inversion H; subst r'. destruct flushed; simpl; congruence.
  - inversion H; subst r'. exact H1.
Qed.

(** C8, as the code has it.  A tick that starts with presentation disabled
    (the swap chain was resized to zero dimensions because the window is
    minimised) serves a pending flush request and returns: the swap chain
    is not resized, no command list is selected or begun, no pass runs and
    the frame counter stays. *)
Theorem OnTick_returns_when_not_presenting
  (P : Passes) (M : MathLib) (d : Driver) (t : TickInput) (r : Renderer)
  (sc : RHI_SwapChain) :
  m_rhi_device r = Some true ->
  m_swap_chain r = Some sc ->
  m_present_enabled sc = false ->
  OnTick P M d t r = if m_flush_requested r then Renderer_Flush d r else Ok r.
Proof.
  intros Hdev Hsc Hpresent. unfold OnTick.
  rewrite Hdev, Hsc; simpl.
  destruct (m_flush_requested r).
  - destruct (Renderer_Flush d r) as [r'|e] eqn:Hf; simpl; [|reflexivity].
    rewrite (Renderer_Flush_swap_chain _ _ _ Hf), Hsc; simpl.
    rewrite Hpresent; reflexivity.
  - simpl. rewrite Hsc; simpl. rewrite Hpresent; reflexivity.
Qed.

Lemma OnTick_returns_when_not_presenting_witness :
  OnTick Sample.passes Sample.math Sample.driver (Sample.tick_input true)
    (Sample.renderer false None Entities_clear)
  = Ok (Sample.renderer false None Entities_clear).
Proof.
  exact (OnTick_returns_when_not_presenting Sample.passes Sample.math Sample.driver
           (Sample.tick_input true) (Sample.renderer false None Entities_clear)
           (mkSwapChain false 0 0) eq_refl eq_refl eq_refl).
Defined.

(** The tick of a minimised window does not run the per-tick steps: no
    command list is selected (and so none is begun), and the frame counter
    is not advanced. *)
Lemma minimised_tick_skips_the_contract :
  exists r' : Renderer,
    OnTick Sample.passes Sample.math Sample.driver (Sample.tick_input true)
      (Sample.renderer false None Entities_clear) = Ok r' /\
    ~ selects_next_command_list (Sample.renderer false None Entities_clear) r' /\
    Forall (fun cl => m_state cl = Idle) (m_cmd_lists r') /\
    m_frame_num r' = 0.
Proof.
  eexists; split; [vm_compute; reflexivity|].
  split; [intros [_ H]; apply H; reflexivity|].
  split; [repeat constructor | reflexivity].
Qed.

(** ** Transitions of a whole texture *)

Lemma array_fill_Ok {A : Type} (count : nat) :
  forall (a : list A) (start : nat) (x : A),
    (start + count <= length a)%nat ->
    exists a', array_fill a start count x = Ok a' /\ length a' = length a.
Proof.
  induction count as [|n IH]; intros a start x Hlen; simpl.
  - eauto.
  - destruct (decide (start < length a)%nat) as [Hlt|Hge]; [|lia].
    destruct (IH (<[start := x]> a) (S start) x) as (a' & Ha' & Hl).
    { rewrite length_insert; lia. }
    exists a'; split; [exact Ha'|]. rewrite Hl, length_insert; reflexivity.
Qed.

Lemma u32_small (x : Z) : 0 <= x < 2 ^ 32 -> u32 x = x.
Proof. intros H; unfold u32; apply Z.mod_small; exact H. Qed.

Lemma same_recording_state_refl (w : World) : same_recording_state w w.
Proof. repeat split. Qed.

Lemma same_recording_state_trans (w1 w2 w3 : World) :
  same_recording_state w1 w2 -> same_recording_state w2 w3 -> same_recording_state w1 w3.
Proof.
  unfold same_recording_state. intros (?&?&?&?&?&?&?) (?&?&?&?&?&?&?).
  repeat split; congruence.
Qed.

Lemma SetLayout_whole_texture (w : World) (tex : nat) (t : RHI_Texture)
  (new_layout : RHI_Image_Layout) :
  textures w !! tex = Some t ->
  m_layout t <> [] ->
  0 <= m_mip_count t <= Z.of_nat (length (m_layout t)) ->
  m_mip_count t < 2 ^ 32 ->
  exists w',
    SetLayout new_layout true (-1) true tex w = Ok w' /\
    recorded (cmd w') = recorded (cmd w) ++ whole_texture_barrier tex t new_layout /\
    same_recording_state w w' /\
    cache w' = cache w /\ log w' = log w.
Proof.
  intros Htex Hne Hmip Hmax. unfold SetLayout, lookup_texture, whole_texture_barrier.
  rewrite Htex; simpl.
  destruct (m_layout t) as [|current rest] eqn:Hl; [congruence|].
  unfold array_get; simpl.
  destruct (decide (current = Undefined)).
  { exists w; rewrite app_nil_r; repeat split. }
  destruct (decide (current = new_layout)).
  { exists w; rewrite app_nil_r; repeat split. }
  replace (u32 (0 + m_mip_count t) - 0) with (m_mip_count t)
    by (rewrite Z.add_0_l, u32_small; lia).
  change (Z.to_nat 0) with 0%nat.
  destruct (array_fill_Ok (Z.to_nat (m_mip_count t)) (current :: rest) 0 new_layout)
    as (a' & Ha' & _).
  { simpl in *. lia. }
  rewrite Ha'; simpl.
  eexists; split; [reflexivity|]. repeat split.
Qed.

(** ** Begin and ClearRenderTarget *)

Lemma Begin_idle (d : Driver) (w : World) :
  m_state (cmd w) = Idle ->
  m_resource (cmd w) = true ->
  vkBeginCommandBuffer_ok d = true ->
  Begin d w = Ok (true, begun w).
Proof.
  intros Hst Hres Hok. unfold Begin.
  rewrite Hst; simpl. rewrite Hres; simpl. rewrite Hst; simpl. rewrite Hok; simpl.
  reflexivity.
Qed.

Lemma ClearRenderTarget_color (w : World) (tex : nat) (t : RHI_Texture)
  (color_index depth_stencil_index : Z) (storage : bool) (color : Clear Vector4)
  (depth : Clear float) (stencil : Clear Z) :
  m_state (cmd w) = Recording ->
  m_render_pass_active (cmd w) = false ->
  textures w !! tex = Some t ->
  CanBeCleared t = true ->
  m_resource_view_srv t = true ->
  IsDepthFormat t = false ->
  m_layout t <> [] ->
  0 <= m_mip_count t <= Z.of_nat (length (m_layout t)) ->
  m_mip_count t < 2 ^ 32 ->
  exists w',
    ClearRenderTarget (Some tex) color_index depth_stencil_index storage color depth stencil w
    = Ok w' /\
    recorded (cmd w') =
      recorded (cmd w) ++ whole_texture_barrier tex t Transfer_Dst_Optimal
        ++ [vkCmdClearColorImage tex color] /\
    same_recording_state w w' /\
    log w' = log w.
Proof.
  intros Hst Hrp Htex Hclear Hsrv Hdepth Hne Hmip Hmax.
  unfold ClearRenderTarget, is_recording, lookup_texture.
  rewrite Hst; simpl. rewrite Htex; simpl. rewrite Hclear; simpl.
  rewrite Hrp, Hsrv; simpl.
  destruct (SetLayout_whole_texture w tex t Transfer_Dst_Optimal Htex Hne Hmip Hmax)
    as (w1 & Hset & Hrec & Hsame & _ & Hlog).
  rewrite Hset; simpl. unfold IsColorFormat; rewrite Hdepth; simpl.
  eexists; split; [reflexivity|].
  split; [simpl; rewrite Hrec, <- app_assoc; reflexivity|].
  split; [exact Hsame | exact Hlog].
Qed.

Lemma on_cmd_Ok {A : Type} (i : nat) (f : World -> Result (A * World)) (r : Renderer)
  (cl : RHI_CommandList) (a : A) (w : World) :
  m_cmd_lists r !! i = Some cl ->
  f (world_of r cl) = Ok (a, w) ->
  on_cmd (Some i) f r = Ok (a, absorb i w r).
Proof. intros Hcl Hf. unfold on_cmd; simpl. rewrite Hcl; simpl. rewrite Hf. reflexivity. Qed.

Lemma on_cmd__Ok (i : nat) (f : World -> Result World) (r : Renderer)
  (cl : RHI_CommandList) (w : World) :
  m_cmd_lists r !! i = Some cl ->
  f (world_of r cl) = Ok w ->
  on_cmd_ (Some i) f r = Ok (absorb i w r).
Proof.
  intros Hcl Hf. unfold on_cmd_.
  rewrite (on_cmd_Ok i _ r cl tt w Hcl); [reflexivity|]. rewrite Hf; reflexivity.
Qed.

Lemma absorb_cmd_lists (i : nat) (w : World) (r : Renderer) :
  m_cmd_lists (absorb i w r) = <[i := cmd w]> (m_cmd_lists r).
Proof. reflexivity. Qed.

Lemma absorb_kept (i : nat) (w : World) (r : Renderer) :
  m_cmd_current (absorb i w r) = m_cmd_current r /\
  m_cmd_index (absorb i w r) = m_cmd_index r /\
  rt_Frame_Output (absorb i w r) = rt_Frame_Output r /\
  m_camera (absorb i w r) = m_camera r /\
  m_entities (absorb i w r) = m_entities r /\
  m_passes_run (absorb i w r) = m_passes_run r /\
  m_frame_num (absorb i w r) = m_frame_num r /\
  m_swap_chain (absorb i w r) = m_swap_chain r /\
  m_textures (absorb i w r) = textures w.
Proof. repeat split. Qed.

Lemma tick_clear_tail (d : Driver) (r : Renderer) (i : nat) (cl : RHI_CommandList)
  (out : nat) (tex : RHI_Texture) (color : Clear Vector4) :
  m_cmd_current r = Some i ->
  m_cmd_lists r !! i = Some cl ->
  m_state cl = Idle ->
  m_resource cl = true ->
  m_render_pass_active cl = false ->
  vkBeginCommandBuffer_ok d = true ->
  rt_Frame_Output r = Some out ->
  m_textures r !! out = Some tex ->
  CanBeCleared tex = true ->
  m_resource_view_srv tex = true ->
  IsDepthFormat tex = false ->
  m_layout tex <> [] ->
  0 <= m_mip_count tex <= Z.of_nat (length (m_layout tex)) ->
  m_mip_count tex < 2 ^ 32 ->
  exists (r1 r' : Renderer) (cl' : RHI_CommandList),
    on_cmd (m_cmd_current r) (Begin d) r = Ok (true, r1) /\
    m_camera r1 = m_camera r /\
    m_entities r1 = m_entities r /\
    on_cmd_ (m_cmd_current r1)
      (ClearRenderTarget (rt_Frame_Output r1) 0 0 false color rhi_load rhi_load) r1 = Ok r' /\
    m_cmd_current r' = Some i /\
    m_cmd_lists r' !! i = Some cl' /\
    m_state cl' = Recording /\
    recorded cl' =
      vkCmdResetQueryPool
        :: whole_texture_barrier out tex Transfer_Dst_Optimal
        ++ [vkCmdClearColorImage out color] /\
    m_passes_run r' = m_passes_run r /\
    m_frame_num r' = m_frame_num r.
Proof.
  intros Hcur Hcl Hidle Hres Hrp Hbegin Hout Htex Hclear Hsrv Hdepth Hne Hmip Hmax.
  assert (Hlt : (i < length (m_cmd_lists r))%nat) by (eapply lookup_lt_Some; eauto).
  pose proof (Begin_idle d (world_of r cl) Hidle Hres Hbegin) as Hb.
  pose proof (on_cmd_Ok i (Begin d) r cl true _ Hcl Hb) as Hb1.
  set (w0 := begun (world_of r cl)) in *.
  set (r1 := absorb i w0 r) in *.
  destruct (absorb_kept i w0 r) as (Hk1 & _ & Hk3 & Hk4 & Hk5 & Hk6 & Hk7 & _ & Hk9).
  fold r1 in Hk1, Hk3, Hk4, Hk5, Hk6, Hk7, Hk9.
  assert (Hcl1 : m_cmd_lists r1 !! i = Some (cmd w0)).
  { subst r1. rewrite absorb_cmd_lists. apply list_lookup_insert_eq. exact Hlt. }
  assert (Hlt1 : (i < length (m_cmd_lists r1))%nat) by (eapply lookup_lt_Some; eauto).
  destruct (ClearRenderTarget_color (world_of r1 (cmd w0)) out tex 0 0 false color
              rhi_load rhi_load) as (w' & Hc & Hrec & Hsame & _);
    try assumption; try reflexivity.
  pose proof (on_cmd__Ok i _ r1 (cmd w0) w' Hcl1 Hc) as Hc1.
  destruct (absorb_kept i w' r1) as (Hq1 & _ & _ & _ & _ & Hq6 & Hq7 & _ & _).
  exists r1, (absorb i w' r1), (cmd w').
  rewrite Hcur. split; [exact Hb1|].
  split; [exact Hk4|]. split; [exact Hk5|].
  split; [rewrite Hk1, Hcur, Hk3, Hout; exact Hc1|].
  split; [rewrite Hq1, Hk1; exact Hcur|].
  split; [rewrite absorb_cmd_lists; apply list_lookup_insert_eq; exact Hlt1|].
  destruct Hsame as (Hst & _).
  split; [rewrite Hst; reflexivity|].
  split; [rewrite Hrec; reflexivity|].
  split; congruence.
Qed.

Lemma acquire_command_list_spec (r : Renderer) (i : nat) :
  Z.of_nat (length (m_cmd_lists r)) < 2 ^ 32 ->
  (i < length (m_cmd_lists r))%nat ->
  u32 (m_cmd_index r + 1) mod u32 (Z.of_nat (length (m_cmd_lists r))) = Z.of_nat i ->
  exists r',
    OnTick_acquire_command_list r = Ok r' /\
    m_cmd_current r' = Some i /\
    m_cmd_index r' = Z.of_nat i /\
    m_cmd_lists r' = m_cmd_lists r /\
    m_textures r' = m_textures r /\
    rt_Frame_Output r' = rt_Frame_Output r /\
    m_camera r' = m_camera r /\
    m_entities r' = m_entities r /\
    m_passes_run r' = m_passes_run r /\
    m_frame_num r' = m_frame_num r.
Proof.
  intros Hsize Hlt Hidx.
  assert (Hu : u32 (Z.of_nat (length (m_cmd_lists r))) = Z.of_nat (length (m_cmd_lists r)))
    by (apply u32_small; lia).
  unfold OnTick_acquire_command_list.
  rewrite Hu in *.
  destruct (Z.eqb_spec (Z.of_nat (length (m_cmd_lists r))) 0) as [H0|_]; [lia|].
  simpl. rewrite Hidx.
  destruct (Z.ltb_spec (Z.of_nat i) (Z.of_nat (length (m_cmd_lists r)))) as [_|H]; [|lia].
  rewrite Nat2Z.id.
  eexists; split; [reflexivity|].
  destruct (Z.of_nat i =? 0); repeat split.
Qed.


(** ** SetTexture *)


(** ** Layout transitions *)

Lemma array_fill_list_fill {A : Type} (count : nat) :
  forall (a : list A) (start : nat) (x : A),
    (start + count <= length a)%nat ->
    array_fill a start count x = Ok (list_fill a start count x).
Proof.
  induction count as [|n IH]; intros a start x Hlen; simpl.
  - unfold list_fill. simpl. rewrite Nat.add_0_r, take_drop. reflexivity.
  - destruct (decide (start < length a)%nat) as [Hlt|Hge]; [|lia].
    rewrite IH by (rewrite length_insert; lia).
    f_equal. unfold list_fill.
    rewrite (take_S_r (<[start := x]> a) start x) by (apply list_lookup_insert_eq; exact Hlt).
    rewrite take_insert_ge by lia.
    rewrite drop_insert_lt by lia.
    rewrite <- app_assoc. simpl.
    replace (start + S n)%nat with (S (start + n)) by lia. reflexivity.
Qed.

Lemma list_fill_lookup {A : Type} (a : list A) (start count : nat) (x : A) (i : nat) :
  (start + count <= length a)%nat ->
  list_fill a start count x !! i =
  if decide (start <= i < start + count)%nat then Some x else a !! i.
Proof.
  intros Hlen. unfold list_fill.
  destruct (decide (start <= i < start + count)%nat) as [Hin|Hout].
  - rewrite lookup_app_r by (rewrite length_take; lia).
    rewrite length_take, Nat.min_l by lia.
    rewrite lookup_app_l by (rewrite length_replicate; lia).
    apply lookup_replicate_2. lia.
  - destruct (decide (i < start)%nat) as [Hlt|Hge].
    + rewrite lookup_app_l by (rewrite length_take; lia).
      apply lookup_take_lt. exact Hlt.
    + rewrite lookup_app_r by (rewrite length_take; lia).
      rewrite length_take, Nat.min_l by lia.
      rewrite lookup_app_r by (rewrite length_replicate; lia).
      rewrite length_replicate, lookup_drop. f_equal. lia.
Qed.

Lemma list_fill_length {A : Type} (a : list A) (start count : nat) (x : A) :
  (start + count <= length a)%nat -> length (list_fill a start count x) = length a.
Proof.
  intros H. unfold list_fill.
  rewrite !length_app, length_take, length_replicate, length_drop. lia.
Qed.

Lemma SetLayout_eq (new_layout : RHI_Image_Layout) (cmd_list : bool) (mip : Z)
  (ranged : bool) (tex : nat) (t : RHI_Texture) (current_layout : RHI_Image_Layout)
  (w : World) :
  textures w !! tex = Some t ->
  SetLayout_in_range t mip ranged ->
  m_layout t !! Z.to_nat (SetLayout_mip_start mip) = Some current_layout ->
  SetLayout new_layout cmd_list mip ranged tex w =
  Ok (if decide (current_layout = Undefined) then w
      else if decide (current_layout = new_layout) then w
      else SetLayout_done new_layout cmd_list mip ranged tex t current_layout w).
Proof.
  intros Htex (Hmip & Hrange & Hlen & Hmax) Hcur.
  unfold SetLayout, lookup_texture. rewrite Htex.
  cbn [deref mbind Result_bind].
  unfold SetLayout_done, SetLayout_mip_start, SetLayout_mip_range in *.
  assert (Hstart : (if negb (mip =? -1) then u32 mip else 0) = (if mip =? -1 then 0 else mip)).
  { destruct Hmip as [->|[Hm _]]; [reflexivity|].
    destruct (Z.eqb_spec mip (-1)); [lia|]. simpl. apply u32_small; exact Hm. }
  assert (Hassert : implb (negb (mip =? -1)) (HasPerMipView t) = true).
  { destruct Hmip as [->|[_ ->]]; [reflexivity|]. destruct (negb _); reflexivity. }
  assert (Hr : (if ranged
                then if negb (mip =? -1) then u32 (m_mip_count t - mip) else m_mip_count t
                else 1)
               = (if ranged then if mip =? -1 then m_mip_count t else m_mip_count t - mip
                  else 1)).
  { destruct ranged; [|reflexivity].
    destruct (Z.eqb_spec mip (-1)); simpl; [reflexivity|].
    apply u32_small. destruct Hmip as [?|[Hm _]]; [contradiction|]. lia. }
  rewrite Hassert, Hstart, Hr. cbn [SP_ASSERT mbind Result_bind].
  set (start := if mip =? -1 then 0 else mip) in *.
  set (range := if ranged then _ else 1) in *.
  assert (Hstart0 : 0 <= start).
  { subst start. destruct Hmip as [->|[Hm _]]; [simpl; lia|].
    destruct (mip =? -1); lia. }
  unfold array_get. destruct (Z.ltb_spec start 0) as [|_]; [lia|].
  rewrite Hcur. cbn [mbind Result_bind].
  destruct (decide (current_layout = Undefined)); [reflexivity|].
  destruct (decide (current_layout = new_layout)); [reflexivity|].
  replace (u32 (start + range) - start) with range
    by (rewrite u32_small by lia; lia).
  rewrite array_fill_list_fill by lia.
  reflexivity.
Qed.

(** A transition that takes place (the addressed mip has a layout and it
    is not the one asked for) records one barrier for the addressed mips,
    counts it, and gives the new layout to exactly those mips; the other
    mips and the other textures keep theirs. *)

Lemma SetTexture_with_layout (slot : Z) (texture : option nat) (mip : Z) (ranged uav : bool)
  (w : World) :
  m_state (cmd w) = Recording ->
  GetCurrentDescriptorSetLayout (cache w) = true ->
  SetTexture slot texture mip ranged uav w =
  (match texture with
   | Some tex => t ← lookup_texture tex w; SP_ASSERT (if uav then IsUav t else IsSrv t)
   | None => Ok tt
   end;;
   texture ← match texture with
             | None => Ok (GetDefaultTextureTransparent w)
             | Some tex =>
                 t ← lookup_texture tex w;
                 Ok (if m_resource_view_srv t then Some tex
                     else GetDefaultTextureTransparent w)
             end;
   SetTexture_read_layout_and_set slot mip ranged uav texture w).
Proof.
  intros Hst Hlayout. unfold SetTexture, is_recording.
  rewrite (bool_decide_eq_true_2 _ Hst), Hlayout. reflexivity.
Qed.

Lemma SetLayout_returns (new_layout : RHI_Image_Layout) (mip : Z) (ranged : bool)
  (tex : nat) (t : RHI_Texture) (w : World) :
  textures w !! tex = Some t ->
  SetLayout_in_range t mip ranged ->
  (Z.to_nat (SetLayout_mip_start mip) < length (m_layout t))%nat ->
  exists w', SetLayout new_layout true mip ranged tex w = Ok w'.
Proof.
  intros Htex Hin Hlen.
  destruct (lookup_lt_is_Some_2 _ _ Hlen) as [current_layout Hcur].
  rewrite (SetLayout_eq new_layout true mip ranged tex t current_layout w Htex Hin Hcur).
  eexists. reflexivity.
Qed.

Lemma SetLayout_keeps (new_layout : RHI_Image_Layout) (cmd_list : bool) (mip : Z)
  (ranged : bool) (tex : nat) (w w' : World) :
  SetLayout new_layout cmd_list mip ranged tex w = Ok w' ->
  cache w' = cache w /\ log w' = log w /\ m_state (cmd w') = m_state (cmd w).
Proof.
  unfold SetLayout, lookup_texture. intros H.
  apply bind_inv in H as (t & _ & H).
  apply bind_inv in H as (u & _ & H).
  apply bind_inv in H as (current_layout & _ & H).
  destruct (decide (current_layout = Undefined)).
  { inversion H; subst w'. repeat split. }
  destruct (decide (current_layout = new_layout)).
  { inversion H; subst w'. repeat split. }
  apply bind_inv in H as (layouts & _ & H).
  inversion H; subst w'; clear H.
  destruct cmd_list; repeat split.
Qed.

(** From the transition on, a call that has come to the default texture
    binds it if it returns, and it returns when the default texture is
    ready. *)
Lemma transition_and_set_default (slot : Z) (mip : Z) (ranged uav : bool) (dflt : nat)
  (current_layout : RHI_Image_Layout) (w w' : World) :
  GetDefaultTextureTransparent w = Some dflt ->
  SetTexture_transition_and_set slot mip ranged uav (Some dflt) current_layout w = Ok w' ->
  bound_as_default slot mip ranged dflt [] w w'.
Proof.
  intros Hdef H. unfold SetTexture_transition_and_set in H.
  cbn [deref mbind Result_bind] in H.
  apply bind_inv in H as (td & _ & H).
  destruct (negb (bool_decide (SetTexture_target_layout uav td current_layout = Undefined)));
    destruct (m_render_pass_active (cmd w)) eqn:Hactive; cbn [andb negb] in H.
  - rewrite Hdef in H. inversion H; subst w'; clear H.
    split; [apply lookup_insert_eq|].
    split; [intros other Hother; apply lookup_insert_ne; congruence|].
    split; [reflexivity|].
    split; [exists [error_pass_active]; reflexivity|].
    intros _. split; reflexivity.
  - apply bind_inv in H as ([texture w1] & H1 & H).
    apply bind_inv in H1 as (w2 & Hset & H1).
    inversion H1; subst texture w2; clear H1.
    inversion H; subst w'; clear H.
    destruct (SetLayout_keeps _ _ _ _ _ _ _ Hset) as (Hc & Hl & Hst).
    split; [apply lookup_insert_eq|].
    split; [intros other Hother; rewrite <- Hc; apply lookup_insert_ne; congruence|].
    split; [exact Hst|].
    split; [exists []; rewrite app_nil_r; exact Hl | intros Ha; congruence].
  - inversion H; subst w'; clear H.
    split; [apply lookup_insert_eq|].
    split; [intros other Hother; apply lookup_insert_ne; congruence|].
    split; [reflexivity|].
    split; [exists []; rewrite app_nil_r; reflexivity|].
    intros _. split; reflexivity.
  - inversion H; subst w'; clear H.
    split; [apply lookup_insert_eq|].
    split; [intros other Hother; apply lookup_insert_ne; congruence|].
    split; [reflexivity|].
    split; [exists []; rewrite app_nil_r; reflexivity | intros Ha; congruence].
Qed.

Lemma transition_and_set_default_returns (slot : Z) (mip : Z) (ranged uav : bool)
  (dflt : nat) (current_layout : RHI_Image_Layout) (w : World) :
  placeholder_ready w mip ranged dflt ->
  exists w',
    SetTexture_transition_and_set slot mip ranged uav (Some dflt) current_layout w = Ok w'.
Proof.
  intros (td & Htd & Hin & Hlen).
  unfold SetTexture_transition_and_set, lookup_texture.
  cbn [deref mbind Result_bind]. rewrite Htd. cbn [deref mbind Result_bind].
  destruct (negb (bool_decide (SetTexture_target_layout uav td current_layout = Undefined)));
    destruct (m_render_pass_active (cmd w)); cbn [andb negb];
    try (eexists; reflexivity).
  destruct (SetLayout_returns (SetTexture_target_layout uav td current_layout) mip ranged
              dflt td w Htd Hin Hlen) as (w1 & Hw1).
  rewrite Hw1. eexists. reflexivity.
Qed.

(** The same from the reading of the layout on: a default texture that is
    found without a layout is replaced by itself. *)
Lemma read_layout_and_set_default (slot : Z) (mip : Z) (ranged uav : bool) (dflt : nat)
  (w w' : World) :
  GetDefaultTextureTransparent w = Some dflt ->
  SetTexture_read_layout_and_set slot mip ranged uav (Some dflt) w = Ok w' ->
  bound_as_default slot mip ranged dflt [] w w'.
Proof.
  intros Hdef H. unfold SetTexture_read_layout_and_set in H.
  cbn [deref mbind Result_bind] in H.
  apply bind_inv in H as (td & Htd & H).
  apply bind_inv in H as (l & _ & H).
  destruct (no_layout l).
  - cbv zeta in H.
    change (GetDefaultTextureTransparent (write_log error_no_layout w))
      with (GetDefaultTextureTransparent w) in H.
    rewrite Hdef in H. cbn [deref mbind Result_bind] in H.
    apply bind_inv in H as ([[texture l0] w1] & H1 & H).
    apply bind_inv in H1 as (td' & _ & H1).
    apply bind_inv in H1 as (l0' & _ & H1).
    inversion H1; subst texture l0' w1; clear H1.
    destruct (transition_and_set_default slot mip ranged uav dflt l0
                (write_log error_no_layout w) w' Hdef H)
      as (Hb & Hothers & Hst & (more & Hlog) & Hpass).
    split; [exact Hb|]. split; [exact Hothers|]. split; [exact Hst|].
    split; [|exact Hpass].
    exists ([error_no_layout] ++ more). rewrite Hlog.
    change (log (write_log error_no_layout w)) with (log w ++ [error_no_layout]).
    rewrite <- app_assoc. reflexivity.
  - exact (transition_and_set_default slot mip ranged uav dflt l w w' Hdef H).
Qed.

Lemma read_layout_and_set_default_returns (slot : Z) (mip : Z) (ranged uav : bool)
  (dflt : nat) (w : World) :
  GetDefaultTextureTransparent w = Some dflt ->
  placeholder_ready w mip ranged dflt ->
  exists w', SetTexture_read_layout_and_set slot mip ranged uav (Some dflt) w = Ok w'.
Proof.
  intros Hdef Hready. pose proof Hready as (td & Htd & Hin & Hlen).
  destruct (lookup_lt_is_Some_2 _ _ Hlen) as [l Hl].
  assert (Hget : GetLayout td (addressed_mip mip) = Ok l).
  { unfold GetLayout, addressed_mip, array_get.
    destruct Hin as ([->|[Hm _]] & _).
    - change (match m_layout td !! Z.to_nat (SetLayout_mip_start (-1)) with
              | Some x => Ok x | None => Fault OutOfBounds end = Ok l).
      rewrite Hl. reflexivity.
    - unfold SetLayout_mip_start in Hl.
      destruct (Z.eqb_spec mip (-1)) as [|_]; [lia|]. cbn [negb].
      rewrite (u32_small mip) by lia.
      destruct (Z.ltb_spec mip 0) as [|_]; [lia|]. rewrite Hl. reflexivity. }
  assert (Hfirst : exists l0, GetLayout td 0 = Ok l0).
  { unfold GetLayout, array_get.
    destruct (m_layout td) as [|l0 rest]; [simpl in Hlen; lia|]. exists l0. reflexivity. }
  destruct Hfirst as (l0 & Hl0).
  unfold SetTexture_read_layout_and_set, lookup_texture.
  cbn [deref mbind Result_bind]. rewrite Htd.
  cbn [deref mbind Result_bind]. rewrite Hget. cbn [mbind Result_bind].
  destruct (no_layout l).
  - cbv zeta.
    change (GetDefaultTextureTransparent (write_log error_no_layout w))
      with (GetDefaultTextureTransparent w).
    rewrite Hdef. cbn [deref mbind Result_bind].
    change (textures (write_log error_no_layout w)) with (textures w).
    rewrite Htd. cbn [deref mbind Result_bind]. rewrite Hl0. cbn [mbind Result_bind].
    exact (transition_and_set_default_returns slot mip ranged uav dflt l0
             (write_log error_no_layout w) Hready).
  - exact (transition_and_set_default_returns slot mip ranged uav dflt l w Hready).
Qed.


(** ** What the binding calls leave alone *)

Ltac step H :=
  match type of H with
  | context [mbind _ ?m] =>
      destruct m eqn:?; simpl in H; try discriminate
  | context [if ?b then _ else _] =>
      destruct b eqn:?; simpl in H; try discriminate
  | context [match ?x with _ => _ end] =>
      destruct x eqn:?; simpl in H; try discriminate
  end.

Ltac steps H := repeat step H.

Lemma SetLayout_same_state (new_layout : RHI_Image_Layout) (cmd_list : bool) (mip : Z)
  (ranged : bool) (tex : nat) (w w' : World) :
  SetLayout new_layout cmd_list mip ranged tex w = Ok w' -> same_recording_state w w'.
Proof.
  unfold SetLayout, lookup_texture. intros H.
  steps H; inversion H; subst; repeat split.
Qed.

Ltac binv H :=
  let x := fresh "x" in
  let E := fresh "E" in
  apply bind_inv in H; destruct H as (x & E & H).

Lemma same_state_upd_cache (f : RHI_DescriptorSetLayoutCache -> RHI_DescriptorSetLayoutCache)
  (w w' : World) :
  same_recording_state w w' -> same_recording_state w (upd_cache f w').
Proof. intros H; exact H. Qed.

Lemma same_state_write_log (e : LogEntry) (w w' : World) :
  same_recording_state w w' -> same_recording_state w (write_log e w').
Proof. intros H; exact H. Qed.

Lemma SetTexture_same_state (slot : Z) (texture : option nat) (mip : Z) (ranged uav : bool)
  (w w' : World) :
  SetTexture slot texture mip ranged uav w = Ok w' -> same_recording_state w w'.
Proof.
  unfold SetTexture. intros H.
  binv H. binv H.
  destruct (negb (GetCurrentDescriptorSetLayout (cache w))).
  - binv H. binv H. inversion H; subst. repeat split.
  - binv H. binv H. binv H. binv H. binv H.
    destruct x5 as [[o current] w0].
    assert (H0 : same_recording_state w w0).
    { steps E5; inversion E5; subst; repeat split. }
    binv H. binv H. binv H. destruct x7 as [o1 w1].
    assert (H1 : same_recording_state w0 w1).
    { destruct (_ && negb _) in E8.
      - binv E8. inversion E8; subst. eapply SetLayout_same_state; eauto.
      - destruct (_ && _) in E8; inversion E8; subst; repeat split. }
    inversion H; subst.
    apply same_state_upd_cache. eapply same_recording_state_trans; eauto.
Qed.

Lemma SetConstantBuffer_same_state (slot scope : Z) (b : option nat) (w w' : World) :
  SetConstantBuffer slot scope b w = Ok w' -> same_recording_state w w'.
Proof. unfold SetConstantBuffer. intros H. steps H; inversion H; subst; repeat split. Qed.

Lemma SetSampler_same_state (slot : Z) (s : option nat) (w w' : World) :
  SetSampler slot s w = Ok w' -> same_recording_state w w'.
Proof. unfold SetSampler. intros H. steps H; inversion H; subst; repeat split. Qed.

Lemma SetSamplers_same_state (samplers : list (option nat)) :
  forall (slot : Z) (w w' : World),
    SetSamplers slot samplers w = Ok w' -> same_recording_state w w'.
Proof.
  induction samplers as [|s rest IH]; intros slot w w' H; simpl in H.
  - inversion H; subst; apply same_recording_state_refl.
  - binv H. eapply same_recording_state_trans;
      [eapply SetSampler_same_state; eauto | eapply IH; eauto].
Qed.

Lemma SetGlobalShaderResources_same_state (w w' : World) :
  SetGlobalShaderResources w = Ok w' -> same_recording_state w w'.
Proof.
  unfold SetGlobalShaderResources. intros H.
  binv H. binv H. binv H. binv H. binv H. binv H.
  repeat match goal with
         | Hc : SetConstantBuffer _ _ _ _ = Ok _ |- _ => apply SetConstantBuffer_same_state in Hc
         | Hc : SetSamplers _ _ _ = Ok _ |- _ => apply SetSamplers_same_state in Hc
         | Hc : SetTexture _ _ _ _ _ _ = Ok _ |- _ => apply SetTexture_same_state in Hc
         end.
  repeat (eapply same_recording_state_trans; [eassumption|]).
  apply same_recording_state_refl.
Qed.

Lemma Timestamp_same_state (d : Driver) (b : bool) (w w' : World) :
  Timestamp d w = Ok (b, w') -> same_recording_state w w'.
Proof. unfold Timestamp. intros H. steps H; inversion H; subst; repeat split. Qed.

Lemma exec_binds_only (d : Driver) (op : Op) (w w' : World) :
  binds_only op = true ->
  exec d op w = Ok w' ->
  same_recording_state w w'.
Proof.
  destruct op; simpl; try discriminate; intros _ H;
    try (inversion H; subst; repeat split; fail);
    try (eapply SetTexture_same_state; eassumption);
    try (unfold drop_bool in H; binv H; destruct x; inversion H; subst;
         eapply Timestamp_same_state; eassumption);
    unfold SetViewport, SetScissorRectangle, SetBufferVertex, SetBufferIndex,
      SetConstantBuffer, SetSampler, SetStructuredBuffer in H;
    steps H; inversion H; subst; repeat split.
Qed.

Lemma run_binds_only (ops : list (Driver * Op)) :
  forall w w' : World,
    Forall (fun dop => binds_only (snd dop) = true) ops ->
    run ops w = Ok w' ->
    same_recording_state w w'.
Proof.
  induction ops as [|[d op] ops IH]; intros w w' Hall H; simpl in H.
  - inversion H; subst; apply same_recording_state_refl.
  - inversion Hall as [|? ? Hop Hrest]; subst. binv H.
    eapply same_recording_state_trans;
      [eapply exec_binds_only; eauto | eapply IH; eauto].
Qed.

Lemma BeginRenderPass_opens (d : Driver) (ps : RHI_PipelineState) (w w' : World) :
  BeginRenderPass d ps w = Ok (true, w') ->
  m_state (cmd w') = Recording /\
  m_render_pass_active (cmd w') = m_render_pass_active (cmd w) /\
  m_pipeline_state (cmd w') = Some ps /\
  exists valid, m_pipeline (cmd w') = Some (mkPipeline (Some ps) valid).
Proof.
  unfold BeginRenderPass, cache_GetPipeline. intros H.
  binv H. apply SP_ASSERT_inv in E. unfold is_recording in E.
  apply bool_decide_eq_true_1 in E.
  simpl in H.
  destruct (GetPipeline_found d) as [valid|]; simpl in H; [|inversion H].
  binv H. inversion H; subst. apply SetGlobalShaderResources_same_state in E0.
  destruct E0 as (Hst & Hrp & _ & Hp & Hps & _).
  rewrite Hst, Hrp, Hp, Hps.
  unfold Timeblock_Start.
  destruct (pass_name ps); [destruct (context_markers d && mark ps)|];
    (split; [exact E|]; split; [reflexivity|]; split; [reflexivity|]; eexists; reflexivity).
Qed.

(** ** Leaving a render pass that never drew *)

Lemma EndRenderPass_deferred_clear (d : Driver) (ps : RHI_PipelineState) (valid : bool)
  (w : World) :
  m_state (cmd w) = Recording ->
  m_render_pass_active (cmd w) = false ->
  m_pipeline_state (cmd w) = Some ps ->
  m_pipeline (cmd w) = Some (mkPipeline (Some ps) valid) ->
  HasClearValues ps = true ->
  GetRenderPass ps = true ->
  GetFrameBuffer ps = true ->
  (render_target_swapchain ps = true -> clear_color ps <> []) ->
  exists w',
    EndRenderPass d w = Ok (true, w') /\
    recorded (cmd w') = recorded (cmd w) ++ end_pass_commands d ps /\
    m_render_pass_active (cmd w') = false /\
    m_state (cmd w') = Recording.
Proof.
  intros Hst Hrp Hps Hp Hclear Hpass Hfb Hsw.
  unfold EndRenderPass. rewrite Hps; simpl. rewrite Hclear, Hrp; simpl.
  unfold Deferred_BeginRenderPass, is_recording. rewrite Hst; simpl.
  rewrite Hp; simpl. rewrite Hpass, Hfb; simpl. rewrite Hps; simpl.
  assert (Hswap :
            (if render_target_swapchain ps
             then array_get (clear_color ps) 0 ≫= λ color, Ok [ClearValue_color color]
             else Ok []) =
            Ok (if render_target_swapchain ps
                then match clear_color ps with
                     | color :: _ => [ClearValue_color color]
                     | [] => []
                     end
                else [])).
  { destruct (render_target_swapchain ps); [|reflexivity].
    destruct (clear_color ps) as [|c rest]; [exfalso; apply Hsw; reflexivity|].
    reflexivity. }
  rewrite Hswap; simpl.
  unfold ClearPipelineStateRenderTargets, is_recording; simpl. rewrite Hst; simpl.
  unfold end_pass_commands, begin_clear_values.
  fold (clear_attachments ps).
  change (color_clear_attachments ps ++
          (if negb (is_load (clear_depth ps)) && negb (is_dont_care (clear_depth ps))
              || negb (is_load (clear_stencil ps)) && negb (is_dont_care (clear_stencil ps))
           then [mkClearAttachment false
                   (negb (is_load (clear_depth ps)) && negb (is_dont_care (clear_depth ps)))
                   (negb (is_load (clear_stencil ps))
                    && negb (is_dont_care (clear_stencil ps))) 0
                   (ClearValue_depthStencil (clear_depth ps) (clear_stencil ps))]
           else [])) with (clear_attachments ps).
  destruct (clear_attachments ps) as [|a rest]; simpl; rewrite Hps; simpl;
    destruct (context_markers d && mark ps); simpl;
    (eexists; split; [reflexivity|]; simpl;
     split; [rewrite <- ?app_assoc; reflexivity|]; split; [reflexivity | exact Hst]).
Qed.

Lemma begin_clear_values_cover (ps : RHI_PipelineState) (i : nat) (tex : nat)
  (c : Clear Vector4) :
  render_target_color_textures ps !! i = Some (Some tex) ->
  clear_color ps !! i = Some c ->
  ClearValue_color c ∈ begin_clear_values ps.
Proof.
  intros Ht Hc. unfold begin_clear_values, color_clear_values.
  apply elem_of_app; left.
  apply list_elem_of_omap. exists (Some tex, c). split; [|reflexivity].
  apply list_elem_of_lookup. exists i.
  apply lookup_zip_Some. split; assumption.
Qed.

Lemma clear_attachments_cover (ps : RHI_PipelineState) (i : nat) (c : Clear Vector4) :
  clear_color ps !! i = Some c ->
  is_load c = false ->
  mkClearAttachment true false false 0 (ClearValue_color c) ∈ clear_attachments ps.
Proof.
  intros Hc Hload. unfold clear_attachments, color_clear_attachments.
  apply elem_of_app; left.
  apply list_elem_of_omap. exists c. split.
  - apply list_elem_of_lookup; eauto.
  - rewrite Hload; reflexivity.
Qed.

(** C4.  A render pass opened by [BeginRenderPass] with a pipeline state
    that has clear values, in which only binding calls were made (no draw,
    no dispatch), is closed by [EndRenderPass] as follows: the deferred
    [vkCmdBeginRenderPass] is recorded with a clear value for every bound
    colour target (the colour declared for that target), then one
    [vkCmdClearAttachments] with an entry for every colour whose policy is
    not "load", then [vkCmdEndRenderPass]; the render pass is left
    inactive.  Every entry of [vkCmdClearAttachments] names colour
    attachment 0, as the source writes it. *)
Theorem EndRenderPass_clears_pass_without_draw
  (d0 d1 : Driver) (ps : RHI_PipelineState) (ops : list (Driver * Op)) (w0 w1 w2 : World) :
  m_render_pass_active (cmd w0) = false ->
  BeginRenderPass d0 ps w0 = Ok (true, w1) ->
  Forall (fun dop => binds_only (snd dop) = true) ops ->
  run ops w1 = Ok w2 ->
  HasClearValues ps = true ->
  GetRenderPass ps = true ->
  GetFrameBuffer ps = true ->
  (render_target_swapchain ps = true -> clear_color ps <> []) ->
  exists w3,
    EndRenderPass d1 w2 = Ok (true, w3) /\
    recorded (cmd w3) = recorded (cmd w2) ++ end_pass_commands d1 ps /\
    m_render_pass_active (cmd w3) = false /\
    (forall (i tex : nat) (c : Clear Vector4),
        render_target_color_textures ps !! i = Some (Some tex) ->
        clear_color ps !! i = Some c ->
        ClearValue_color c ∈ begin_clear_values ps) /\
    (forall (i : nat) (c : Clear Vector4),
        clear_color ps !! i = Some c ->
        is_load c = false ->
        mkClearAttachment true false false 0 (ClearValue_color c) ∈ clear_attachments ps).
Proof.
  intros Hrp Hbegin Hops Hrun Hclear Hpass Hfb Hsw.
  destruct (BeginRenderPass_opens d0 ps w0 w1 Hbegin) as (Hst1 & Hrp1 & Hps1 & valid & Hp1).
  destruct (run_binds_only ops w1 w2 Hops Hrun) as (Hst2 & Hrp2 & _ & Hp2 & Hps2 & _).
  destruct (EndRenderPass_deferred_clear d1 ps valid w2) as (w3 & Hend & Hrec & Hoff & _);
    try assumption; try congruence.
  exists w3. split; [exact Hend|]. split; [exact Hrec|]. split; [exact Hoff|].
  split; [apply begin_clear_values_cover | apply clear_attachments_cover].
Qed.

(** ** Flush *)

Lemma decide_state_true (st : RHI_CommandListState) (w : World) :
  m_state (cmd w) = st -> bool_decide (m_state (cmd w) = st) = true.
Proof. intros H; apply bool_decide_eq_true_2; exact H. Qed.

Lemma decide_state_false (st st' : RHI_CommandListState) (w : World) :
  m_state (cmd w) = st -> st <> st' -> bool_decide (m_state (cmd w) = st') = false.
Proof. intros H Hne; apply bool_decide_eq_false_2; congruence. Qed.

Lemma End_recording (d : Driver) (w : World) :
  m_state (cmd w) = Recording ->
  vkEndCommandBuffer_ok d = true ->
  End d w = Ok (true, set_state Ended w).
Proof.
  intros Hst Hend. unfold End, is_recording.
  rewrite (decide_state_true Recording w Hst), Hend. reflexivity.
Qed.

Lemma Submit_ended (d : Driver) (s : option nat) (w : World) :
  m_state (cmd w) = Ended ->
  QueueSubmit_ok d = true ->
  (swapchain_of_pipeline w = true -> PresentEnabled w = true ->
   m_processed_semaphore (cmd w) = Semaphore_Idle) ->
  exists w',
    Submit d s w = Ok (true, w') /\
    m_state (cmd w') = Submitted /\
    m_resource (cmd w') = m_resource (cmd w) /\
    flushes (cmd w') = flushes (cmd w) /\
    cache w' = cache w /\ textures w' = textures w /\ log w' = log w /\
    submissions (cmd w') =
      (if swapchain_of_pipeline w && negb (PresentEnabled w)
       then submissions (cmd w) else S (submissions (cmd w))).
Proof.
  intros Hst Hsubmit Hsem. unfold Submit.
  rewrite (decide_state_true Ended w Hst).
  destruct (swapchain_of_pipeline w) eqn:Hsw; destruct (PresentEnabled w) eqn:Hpe.
  - rewrite (Hsem eq_refl eq_refl), Hsubmit.
    eexists; split; [reflexivity|]. repeat split.
  - eexists; split; [reflexivity|]. repeat split.
  - rewrite Hsubmit. eexists; split; [reflexivity|]. repeat split.
  - rewrite Hsubmit. eexists; split; [reflexivity|]. repeat split.
Qed.

Lemma Wait_submitted (d : Driver) (w : World) :
  m_state (cmd w) = Submitted ->
  Fence_Wait_ok d = true ->
  Wait d w = Ok (set_state Idle (upd_cmd (set_m_processed_semaphore Semaphore_Idle) w)).
Proof.
  intros Hst Hfence. unfold Wait.
  rewrite (decide_state_true Submitted w Hst), Hfence. reflexivity.
Qed.

Lemma Flush_while_recording (d : Driver) (w : World) :
  m_state (cmd w) = Recording ->
  m_resource (cmd w) = true ->
  vkEndCommandBuffer_ok d = true ->
  QueueSubmit_ok d = true ->
  Fence_Wait_ok d = true ->
  vkBeginCommandBuffer_ok d = true ->
  (swapchain_of_pipeline w = true -> PresentEnabled w = true ->
   m_processed_semaphore (cmd w) = Semaphore_Idle) ->
  exists w',
    Flush d true w = Ok (true, w') /\
    flushed_once w w' /\
    cache w' = cache w /\
    textures w' = textures w /\
    log w' = log w.
Proof.
  intros Hst Hres Hend Hsubmit Hfence Hbegin Hsem.
  unfold Flush.
  set (w0 := upd_cmd (fun c => set_flushes (S (flushes c)) c) w).
  assert (Hst0 : m_state (cmd w0) = Recording) by exact Hst.
  rewrite (decide_state_false Recording Idle w0 Hst0) by discriminate.
  unfold is_recording. rewrite (decide_state_true Recording w0 Hst0).
  rewrite (End_recording d w0 Hst0 Hend).
  set (w1 := set_state Ended w0).
  assert (Hst1 : m_state (cmd w1) = Ended) by reflexivity.
  destruct (Submit_ended d None w1 Hst1 Hsubmit)
    as (w2 & Hs & Hst2 & Hres2 & Hfl2 & Hc2 & Ht2 & Hl2 & Hsub2).
  { exact Hsem. }
  change (Ok (true, w1) ≫= (λ '(ended, w), _)) with
    (if negb true then Ok (false, w1)
     else (if bool_decide (m_state (cmd w1) = Ended) then Submit d None w1 else Ok (true, w1))
            ≫= (λ '(submitted, w3),
                  if negb submitted then Ok (false, w3)
                  else Wait d w3 ≫= λ w4,
                       (if true && bool_decide (m_state (cmd w4) = Idle) && true
                        then Begin d w4 ≫= λ '(_, w5), Ok w5 else Ok w4)
                       ≫= λ w5, Ok (true, upd_cmd (set_m_flushed true) w5))).
  cbv beta iota delta [negb].
  rewrite (decide_state_true Ended w1 Hst1), Hs.
  change (Ok (true, w2) ≫= ?k) with (k (true, w2)).
  cbv beta iota delta [negb].
  rewrite (Wait_submitted d w2 Hst2 Hfence).
  set (w3 := set_state Idle (upd_cmd (set_m_processed_semaphore Semaphore_Idle) w2)).
  assert (Hst3 : m_state (cmd w3) = Idle) by reflexivity.
  change (Ok w3 ≫= ?k) with (k w3). cbv beta.
  rewrite (decide_state_true Idle w3 Hst3).
  assert (Hres3 : m_resource (cmd w3) = true) by (change (m_resource (cmd w2) = true); rewrite Hres2; exact Hres).
  rewrite (Begin_idle d w3 Hst3 Hres3 Hbegin).
  eexists. split; [reflexivity|].
  split.
  { unfold flushed_once.
    split; [change (flushes (cmd w2) = S (flushes (cmd w))); rewrite Hfl2; reflexivity|].
    split; [change (submissions (cmd w2) =
                    (if swapchain_of_pipeline w && negb (PresentEnabled w)
                     then submissions (cmd w) else S (submissions (cmd w))));
            rewrite Hsub2; reflexivity|].
    split; [reflexivity|]. split; [reflexivity|]. split; reflexivity. }
  split; [change (cache w2 = cache w); rewrite Hc2; reflexivity|].
  split; [change (textures w2 = textures w); rewrite Ht2; reflexivity|].
  change (log w2 = log w); rewrite Hl2; reflexivity.
Qed.

(** ** Dynamic constant buffers *)

Lemma NextPowerOfTwo_smallest (n : Z) :
  1 <= n -> smallest_power_of_two_at_least n (NextPowerOfTwo n).
Proof.
  intros Hn. unfold smallest_power_of_two_at_least, NextPowerOfTwo.
  pose proof (Z.log2_up_nonneg n) as Hk.
  split; [exists (Z.log2_up n); split; [exact Hk | reflexivity]|].
  split.
  - destruct (Z.eq_dec n 1) as [->|Hne]; [reflexivity|].
    apply (Z.log2_up_spec n); lia.
  - intros k Hk0 Hle. apply Z.pow_le_mono_r; [lia|].
    apply Z.log2_up_le_pow2; [lia | exact Hle].
Qed.

Lemma NextPowerOfTwo_bound (n : Z) :
  1 <= n <= 2 ^ 31 -> 1 <= NextPowerOfTwo n <= 2 ^ 31.
Proof.
  intros Hn. destruct (NextPowerOfTwo_smallest n) as ((k & Hk & Hc) & Hle & Hmin); [lia|].
  split; [lia|]. apply (Hmin 31); lia.
Qed.

Lemma SetConstantBuffer_bound (slot scope : Z) (handle : option nat) (w : World) :
  m_state (cmd w) = Recording ->
  GetCurrentDescriptorSetLayout (cache w) = true ->
  SetConstantBuffer slot scope handle w =
  Ok (upd_cache (fun c => set_bound_constant_buffers
                            (<[slot := handle]> (bound_constant_buffers c)) c) w).
Proof.
  intros Hst Hlayout. unfold SetConstantBuffer, is_recording.
  rewrite (decide_state_true Recording w Hst), Hlayout. reflexivity.
Qed.

Section DynamicBuffer.

Context {T : Type}.
Variable equal : T -> T -> bool.
Variables (d : Driver) (slot scope : Z) (handle : option nat).
Variables (w : World) (buffer_gpu : RHI_ConstantBuffer T).
Variables (buffer_cpu buffer_cpu_previous : T) (offset_index : Z).

Hypothesis Hdynamic : IsDynamic buffer_gpu = true.
Hypothesis Hindex : 0 <= offset_index /\ offset_index + 2 <= 2 ^ 31.
Hypothesis Hstride :
  0 <= GetStride buffer_gpu /\ (offset_index + 1) * GetStride buffer_gpu < 2 ^ 64.
Hypothesis Hrecording : m_state (cmd w) = Recording.
Hypothesis Hresource : m_resource (cmd w) = true.
Hypothesis Hlayout : GetCurrentDescriptorSetLayout (cache w) = true.
Hypothesis Hdriver : driver_succeeds d.
Hypothesis Hsemaphore :
  swapchain_of_pipeline w = true -> PresentEnabled w = true ->
  m_processed_semaphore (cmd w) = Semaphore_Idle.
Hypothesis Hchanged : equal buffer_cpu buffer_cpu_previous = false.

Let bind_buffer (c : RHI_DescriptorSetLayoutCache) : RHI_DescriptorSetLayoutCache :=
  set_bound_constant_buffers (<[slot := handle]> (bound_constant_buffers c)) c.

Lemma update_within_capacity :
  offset_index + 1 < GetOffsetCount buffer_gpu ->
  update_and_rebind equal d slot scope handle w buffer_gpu buffer_cpu buffer_cpu_previous
    offset_index =
  Ok (mkUpdated true (upd_cache bind_buffer w)
        (ConstantBuffer_write ((offset_index + 1) * GetStride buffer_gpu) buffer_cpu
           (SetOffsetIndexDynamic (offset_index + 1) buffer_gpu))
        buffer_cpu (offset_index + 1)).
Proof.
  intros Hfits. destruct Hdriver as (_ & _ & _ & _ & _ & Hmap & Hunmap).
  unfold update_and_rebind, update_dynamic_buffer.
  rewrite Hchanged, Hdynamic.
  rewrite (u32_small (offset_index + 1)) by lia.
  destruct (Z.leb_spec (GetOffsetCount buffer_gpu) (offset_index + 1)) as [Hle|_]; [lia|].
  cbn [andb negb mbind Result_bind]. rewrite Hdynamic, Hmap, Hunmap.
  cbn [negb upd_result upd_world upd_buffer_gpu upd_buffer_cpu_previous upd_offset_index
         mbind Result_bind SetOffsetIndexDynamic IsDynamic GetStride].
  unfold u64. rewrite Z.mod_small by nia.
  rewrite (SetConstantBuffer_bound slot scope handle w Hrecording Hlayout).
  rewrite ?Hdynamic. reflexivity.
Qed.

Lemma update_beyond_capacity :
  GetOffsetCount buffer_gpu <= offset_index + 1 ->
  exists w',
    update_and_rebind equal d slot scope handle w buffer_gpu buffer_cpu
      buffer_cpu_previous offset_index =
    Ok (mkUpdated true (upd_cache bind_buffer w')
          (ConstantBuffer_write ((offset_index + 1) * GetStride buffer_gpu) buffer_cpu
             (SetOffsetIndexDynamic (offset_index + 1)
                (ConstantBuffer_Create (NextPowerOfTwo (offset_index + 1 + 1)) buffer_gpu)))
          buffer_cpu (offset_index + 1)) /\
    flushed_once w w'.
Proof.
  intros Hfull.
  destruct Hdriver as (Hend & Hsubmit & Hfence & Hbegin & Hcreate & Hmap & Hunmap).
  destruct (Flush_while_recording d w Hrecording Hresource Hend Hsubmit Hfence Hbegin
              Hsemaphore) as (wf & Hflush & Honce & Hcache & _ & _).
  assert (Hstf : m_state (cmd wf) = Recording) by (destruct Honce as (_ & _ & _ & _ & _ & H); exact H).
  exists (write_log (LOG_INFO "Increased buffer offsets") wf).
  split; [|exact Honce].
  unfold update_and_rebind, update_dynamic_buffer.
  rewrite Hchanged, Hdynamic.
  rewrite (u32_small (offset_index + 1)) by lia.
  destruct (Z.leb_spec (GetOffsetCount buffer_gpu) (offset_index + 1)) as [_|Hlt]; [|lia].
  cbn [andb negb]. rewrite Hflush.
  cbn [mbind Result_bind]. rewrite Hcreate.
  rewrite (u32_small (offset_index + 1 + 1)) by lia.
  rewrite (u32_small (NextPowerOfTwo (offset_index + 1 + 1)))
    by (destruct (NextPowerOfTwo_bound (offset_index + 1 + 1)); lia).
  cbn [negb mbind Result_bind ConstantBuffer_Create IsDynamic]. rewrite Hdynamic, Hmap, Hunmap.
  cbn [negb upd_result upd_world upd_buffer_gpu upd_buffer_cpu_previous upd_offset_index
         mbind Result_bind SetOffsetIndexDynamic ConstantBuffer_Create IsDynamic GetStride].
  unfold u64. rewrite Z.mod_small by nia.
  rewrite (SetConstantBuffer_bound slot scope handle
             (write_log (LOG_INFO "Increased buffer offsets") wf)).
  - rewrite ?Hdynamic. reflexivity.
  - exact Hstf.
  - change (GetCurrentDescriptorSetLayout (cache wf) = true). rewrite Hcache. exact Hlayout.
Qed.

End DynamicBuffer.


(** ** Two consecutive ticks *)

Lemma two_ticks_upload_the_frame_block_twice :
  let r0 := Sample.renderer true (Some (Sample.camera (0, 0, 0)))
              (mkEntities [Sample.renderable_at (0, 0, 5000)] [] [Sample.light_entity] []) in
  exists r1 r2 : Renderer,
    OnTick Sample.passes Sample.math Sample.driver (Sample.tick_input false) r0 = Ok r1 /\
    OnTick Sample.passes Sample.math Sample.driver (Sample.tick_input false) r1 = Ok r2 /\
    m_camera r1 = m_camera r0 /\ m_options r1 = m_options r0 /\
    m_cb_frame_cpu r2 <> m_cb_frame_cpu r1 /\
    m_cb_frame_offset_index r1 = 1 /\
    m_cb_frame_offset_index r2 = 2 /\
    m_mapped (m_cb_frame_buffer r2) !! (2 * 256) = Some (m_cb_frame_cpu r2).
Proof.
  eexists; eexists.
  split; [vm_compute; reflexivity|].
  split; [vm_compute; reflexivity|].
  split; [reflexivity|]. split; [reflexivity|].
  split; [intros H; apply (f_equal frame) in H; vm_compute in H; discriminate|].
  split; [reflexivity|]. split; [reflexivity|].
  vm_compute. reflexivity.
Qed.

Lemma same_frame_data_refl (r : Renderer) : same_frame_data r r.
Proof. repeat split. Qed.

Lemma same_frame_data_trans (r1 r2 r3 : Renderer) :
  same_frame_data r1 r2 -> same_frame_data r2 r3 -> same_frame_data r1 r3.
Proof.
  unfold same_frame_data. intros (?&?&?&?&?) (?&?&?&?&?). repeat split; congruence.
Qed.

Lemma on_cmd_frame_data {A : Type} (c : option nat) (f : World -> Result (A * World))
  (r r' : Renderer) (a : A) :
  on_cmd c f r = Ok (a, r') ->
  same_frame_data r r' /\
  m_cb_frame_offset_index r' = m_cb_frame_offset_index r /\
  m_cmd_current r' = m_cmd_current r.
Proof.
  unfold on_cmd. intros H.
  binv H. binv H. binv H. destruct x1 as [a' w]. inversion H; subst.
  repeat split.
Qed.

Lemma resize_frame_data (t : TickInput) (sc : RHI_SwapChain) (r : Renderer) :
  same_frame_data r (OnTick_resize t sc r) /\
  m_cb_frame_offset_index (OnTick_resize t sc r) = m_cb_frame_offset_index r /\
  m_cmd_index (OnTick_resize t sc r) = m_cmd_index r /\
  m_cmd_lists (OnTick_resize t sc r) = m_cmd_lists r.
Proof.
  unfold OnTick_resize. destruct (negb (m_present_enabled sc) || _ || _); repeat split.
Qed.

Lemma acquire_frame_data (r r' : Renderer) :
  OnTick_acquire_command_list r = Ok r' ->
  same_frame_data r r' /\
  m_cb_frame_offset_index r' = frame_offset_base r.
Proof.
  unfold OnTick_acquire_command_list, frame_offset_base. intros H.
  destruct (u32 (Z.of_nat (length (m_cmd_lists r))) =? 0); [discriminate|].
  inversion H; subst; clear H. cbn [m_cmd_index set_m_cmd_index set_m_cmd_current].
  destruct (u32 (m_cmd_index r + 1) mod u32 (Z.of_nat (length (m_cmd_lists r))) =? 0);
    repeat split.
Qed.

Lemma update_frame_buffer_stamps_frame (M : MathLib) (t : TickInput) (camera : Camera)
  (r r' : Renderer) :
  OnTick_update_frame_buffer M t camera r = Ok r' ->
  frame (m_cb_frame_cpu r') = u32 (m_frame_num r) /\
  m_cb_frame_cpu_previous r' = m_cb_frame_cpu_previous r /\
  m_frame_num r' = m_frame_num r /\
  m_cb_frame_offset_index r' = m_cb_frame_offset_index r /\
  m_cmd_current r' = m_cmd_current r.
Proof.
  unfold OnTick_update_frame_buffer. intros H.
  destruct (m_update_ortho_proj r || _ || _);
    destruct (GetOption Render_AntiAliasing_Taa _);
    try destruct (Halton2D M _ 2 3) as [hx hy];
    cbv zeta in H;
    binv H; binv H; binv H; binv H; binv H;
    inversion H; subst; clear H; repeat split.
Qed.

Lemma update_dynamic_buffer_advances {T : Type} (equal : T -> T -> bool) (d : Driver)
  (w : World) (buffer_gpu : RHI_ConstantBuffer T) (buffer_cpu buffer_cpu_previous : T)
  (offset_index : Z) (u : Updated T) :
  equal buffer_cpu buffer_cpu_previous = false ->
  update_dynamic_buffer equal d w buffer_gpu buffer_cpu buffer_cpu_previous offset_index
  = Ok u ->
  upd_offset_index u = u32 (offset_index + 1).
Proof.
  intros Hne H. unfold update_dynamic_buffer in H. rewrite Hne in H.
  binv H. destruct x as [[created w1] gpu1].
  destruct (negb created); [inversion H; reflexivity|].
  destruct (negb (ConstantBuffer_Map_ok d)); inversion H; reflexivity.
Qed.

Lemma update_and_rebind_advances {T : Type} (equal : T -> T -> bool) (d : Driver)
  (slot scope : Z) (handle : option nat)
  (w : World) (buffer_gpu : RHI_ConstantBuffer T) (buffer_cpu buffer_cpu_previous : T)
  (offset_index : Z) (u : Updated T) :
  equal buffer_cpu buffer_cpu_previous = false ->
  update_and_rebind equal d slot scope handle w buffer_gpu buffer_cpu buffer_cpu_previous
    offset_index = Ok u ->
  upd_offset_index u = u32 (offset_index + 1).
Proof.
  intros Hne H. unfold update_and_rebind in H. binv H.
  pose proof (update_dynamic_buffer_advances _ _ _ _ _ _ _ _ Hne E) as Hadv.
  destruct (negb (upd_result x)); [inversion H; subst; exact Hadv|].
  binv H. inversion H; subst. exact Hadv.
Qed.

Lemma directional_light_keeps_frame (lights : list Entity) (cb : Cb_Frame) :
  frame (directional_light_intensity_of lights cb) = frame cb.
Proof.
  unfold directional_light_intensity_of. revert cb.
  induction lights as [|e rest IH]; intros cb; simpl; [reflexivity|].
  rewrite IH. destruct (GetLight e) as [l|]; [|reflexivity].
  destruct (bool_decide (GetLightType l = Directional)); reflexivity.
Qed.

Lemma Update_Cb_Frame_advances (d : Driver) (c : option nat) (r r' : Renderer) (b : bool) :
  Update_Cb_Frame d c r = Ok (b, r') ->
  frame (m_cb_frame_cpu r') = frame (m_cb_frame_cpu r) /\
  m_frame_num r' = m_frame_num r /\
  (frame (m_cb_frame_cpu_previous r) <> frame (m_cb_frame_cpu r) ->
   m_cb_frame_offset_index r' = u32 (m_cb_frame_offset_index r + 1)).
Proof.
  unfold Update_Cb_Frame. intros H.
  binv H. binv H. binv H. binv H. inversion H; subst; clear H.
  split; [apply directional_light_keeps_frame|].
  split; [reflexivity|].
  intros Hne.
  apply update_and_rebind_advances in E2; [exact E2|].
  apply bool_decide_eq_false_2. intros Heq.
  apply Hne. apply (f_equal frame) in Heq.
  cbn [m_cb_frame_cpu set_m_cb_frame_cpu m_cb_frame_cpu_previous] in Heq.
  rewrite directional_light_keeps_frame in Heq. congruence.
Qed.

Lemma on_cmd_inv {A : Type} (c : option nat) (f : World -> Result (A * World))
  (r r' : Renderer) (a : A) :
  on_cmd c f r = Ok (a, r') ->
  exists i cl w,
    c = Some i /\ m_cmd_lists r !! i = Some cl /\
    f (world_of r cl) = Ok (a, w) /\ r' = absorb i w r.
Proof.
  unfold on_cmd. intros H.
  destruct c as [i|]; [|discriminate]. simpl in H.
  destruct (m_cmd_lists r !! i) as [cl|] eqn:Hcl; [|discriminate]. simpl in H.
  destruct (f (world_of r cl)) as [[a' w]|e] eqn:Hf; [|discriminate]. simpl in H.
  inversion H; subst. exists i, cl, w. repeat split; assumption.
Qed.

Lemma BeginRenderPass_found (d : Driver) (ps : RHI_PipelineState) (w w' : World)
  (b valid : bool) :
  GetPipeline_found d = Some valid ->
  BeginRenderPass d ps w = Ok (b, w') ->
  b = true.
Proof.
  unfold BeginRenderPass, cache_GetPipeline. intros Hfound H.
  binv H. simpl in H. rewrite Hfound in H. simpl in H.
  binv H. inversion H; reflexivity.
Qed.

Lemma Pass_UpdateFrameBuffer_advances (P : Passes) (d : Driver) (c : option nat)
  (r r' : Renderer) :
  Pass_UpdateFrameBuffer P d c r = Ok r' ->
  frame (m_cb_frame_cpu r') = frame (m_cb_frame_cpu r) /\
  m_frame_num r' = m_frame_num r /\
  (GetPipeline_found d <> None ->
   frame (m_cb_frame_cpu_previous r) <> frame (m_cb_frame_cpu r) ->
   m_cb_frame_offset_index r' = u32 (m_cb_frame_offset_index r + 1)).
Proof.
  unfold Pass_UpdateFrameBuffer. intros H.
  binv H. destruct x as [b ra].
  pose proof (on_cmd_frame_data _ _ _ _ _ E) as ((Hc & Hp & Hn & _) & Ho & _).
  destruct (on_cmd_inv _ _ _ _ _ E) as (i & cl & w & _ & _ & Hb & _).
  destruct b.
  - binv H. destruct x as [b1 rb]. binv H. destruct x as [b2 rc].
    inversion H; subst; clear H.
    pose proof (on_cmd_frame_data _ _ _ _ _ E1) as ((Hc1 & Hp1 & Hn1 & _) & Ho1 & _).
    destruct (Update_Cb_Frame_advances _ _ _ _ _ E0) as (Hf & Hnum & Hadv).
    split; [rewrite Hc1, Hf, Hc; reflexivity|].
    split; [rewrite Hn1, Hnum, Hn; reflexivity|].
    intros _ Hne. rewrite Ho1, Hadv, Ho; [reflexivity|].
    rewrite Hp, Hc. exact Hne.
  - inversion H; subst; clear H.
    split; [rewrite Hc; reflexivity|]. split; [exact Hn|].
    intros Hfound _. exfalso.
    destruct (GetPipeline_found d) as [valid|] eqn:Hf; [|congruence].
    pose proof (BeginRenderPass_found _ _ _ _ _ _ Hf Hb). discriminate.
Qed.

Lemma frame_block_inv (r r' : Renderer) :
  frame_block r' = frame_block r ->
  m_cb_frame_cpu r' = m_cb_frame_cpu r /\
  m_cb_frame_cpu_previous r' = m_cb_frame_cpu_previous r /\
  m_cb_frame_offset_index r' = m_cb_frame_offset_index r /\
  m_frame_num r' = m_frame_num r.
Proof. unfold frame_block. intros H. inversion H. repeat split; assumption. Qed.

Lemma Pass_Main_advances (P : Passes) (d : Driver) (c : option nat) (r r' : Renderer) :
  keeps_frame_block P ->
  Pass_Main P d c r = Ok r' ->
  frame (m_cb_frame_cpu r') = frame (m_cb_frame_cpu r) /\
  m_frame_num r' = m_frame_num r /\
  (GetPipeline_found d <> None ->
   frame (m_cb_frame_cpu_previous r) <> frame (m_cb_frame_cpu r) ->
   m_cb_frame_offset_index r' = u32 (m_cb_frame_offset_index r + 1)).
Proof.
  intros (Hmips & Hrest & _) H. unfold Pass_Main in H.
  binv H. binv H. binv H. binv H. binv H. binv H.
  apply Hmips in E3. apply frame_block_inv in E3. destruct E3 as (Ha & Hb & Hc & Hd).
  cbn [m_cb_frame_cpu m_cb_frame_cpu_previous m_cb_frame_offset_index m_frame_num
         set_m_passes_run] in Ha, Hb, Hc, Hd.
  destruct (Pass_UpdateFrameBuffer_advances _ _ _ _ _ E4) as (Hf & Hn & Hadv).
  apply Hrest in H. apply frame_block_inv in H. destruct H as (Ha' & Hb' & Hc' & Hd').
  split; [rewrite Ha', Hf, Ha; reflexivity|].
  split; [rewrite Hd', Hn, Hd; reflexivity|].
  intros Hfound Hne. rewrite Hc', Hadv, Hc; [reflexivity | exact Hfound |].
  rewrite Hb, Ha. exact Hne.
Qed.

Lemma u32_u64 (x : Z) : u32 (u64 x) = u32 x.
Proof.
  unfold u32, u64. apply Z.mod_mod_divide. exists (2 ^ 32). reflexivity.
Qed.

Lemma u32_succ_differs (n : Z) : u32 (n + 1) <> u32 n.
Proof.
  unfold u32. intros H.
  pose proof (Z.div_mod n (2 ^ 32)) as H1.
  pose proof (Z.div_mod (n + 1) (2 ^ 32)) as H2.
  pose proof (Z.mod_pos_bound n (2 ^ 32)) as H3.
  lia.
Qed.

(** One tick that reaches the pass graph. *)
Lemma OnTick_reaching_pass_graph (P : Passes) (M : MathLib) (d : Driver) (t : TickInput)
  (r r' : Renderer) :
  keeps_frame_block P ->
  reaches_pass_graph r ->
  OnTick P M d t r = Ok r' ->
  frame (m_cb_frame_cpu r') = u32 (m_frame_num r) /\
  m_frame_num r' = u64 (m_frame_num r + 1) /\
  (GetPipeline_found d <> None ->
   frame (m_cb_frame_cpu_previous r) <> u32 (m_frame_num r) ->
   m_cb_frame_offset_index r' = u32 (frame_offset_base r + 1)).
Proof.
  intros Hkeep (Hdev & (sc & Hsc & Hpresent) & Hallowed & Hflush & Hcam & Hbuckets) H.
  unfold OnTick in H. rewrite Hdev, Hsc in H. simpl in H. rewrite Hflush in H. simpl in H.
  rewrite Hsc in H. simpl in H. rewrite Hpresent, Hallowed in H. simpl in H.
  destruct (resize_frame_data t sc r) as ((Hc0 & Hp0 & Hn0 & Hk0 & He0) & Ho0 & Hi0 & Hl0).
  binv H.
  destruct (acquire_frame_data _ _ E) as ((Hc1 & Hp1 & Hn1 & Hk1 & He1) & Ho1).
  binv H. destruct x0 as [b rb].
  destruct (on_cmd_frame_data _ _ _ _ _ E0) as ((Hc2 & Hp2 & Hn2 & Hk2 & He2) & Ho2 & _).
  assert (Hcamera : m_camera rb = m_camera r) by congruence.
  assert (Hentities : m_entities rb = m_entities r) by congruence.
  destruct (m_camera r) as [camera|] eqn:Hcr; [|congruence].
  rewrite Hcamera in H.
  assert (Hb : all_buckets_empty rb = false).
  { unfold all_buckets_empty in *. rewrite Hentities. exact Hbuckets. }
  rewrite Hb in H.
  binv H. binv H. binv H. inversion H; subst; clear H.
  destruct (update_frame_buffer_stamps_frame _ _ _ _ _ E1) as (Hf3 & Hp3 & Hn3 & Ho3 & _).
  destruct (Pass_Main_advances _ _ _ _ _ Hkeep E2) as (Hf4 & Hn4 & Hadv).
  destruct Hkeep as (_ & _ & Hprim).
  apply Hprim in E3. apply frame_block_inv in E3. destruct E3 as (Hc5 & Hp5 & Ho5 & Hn5).
  cbn [m_cb_frame_cpu m_frame_num m_cb_frame_offset_index set_m_is_odd_frame set_m_frame_num].
  split; [rewrite Hc5, Hf4, Hf3; congruence|].
  split; [rewrite Hn5, Hn4, Hn3; congruence|].
  intros Hfound Hne.
  rewrite Ho5, Hadv; [| exact Hfound |].
  - rewrite Ho3, Ho2, Ho1. unfold frame_offset_base. rewrite Hi0, Hl0, Ho0. reflexivity.
  - rewrite Hp3, Hf3, Hp2, Hp1, Hp0, Hn2, Hn1, Hn0. exact Hne.
Qed.

(** C6, as the code has it.  Of two consecutive ticks that both reach the
    pass graph, the second recomputes a per-frame struct whose [frame] field
    is the frame counter the first tick advanced: the struct differs from
    the one of the first tick, whatever the camera and the options.  So
    when the struct of the first tick is the value the buffer was last
    given, the update of the second tick is not skipped: with a pipeline
    for the pass, the offset index of the frame block advances by one. *)
Theorem next_tick_changes_frame_block
  (P : Passes) (M : MathLib) (d1 d2 : Driver) (t1 t2 : TickInput) (r0 r1 r2 : Renderer) :
  keeps_frame_block P ->
  reaches_pass_graph r0 ->
  OnTick P M d1 t1 r0 = Ok r1 ->
  reaches_pass_graph r1 ->
  OnTick P M d2 t2 r1 = Ok r2 ->
  frame (m_cb_frame_cpu r1) = u32 (m_frame_num r0) /\
  frame (m_cb_frame_cpu r2) = u32 (m_frame_num r0 + 1) /\
  m_cb_frame_cpu r2 <> m_cb_frame_cpu r1 /\
  (m_cb_frame_cpu_previous r1 = m_cb_frame_cpu r1 ->
   GetPipeline_found d2 <> None ->
   m_cb_frame_offset_index r2 = u32 (frame_offset_base r1 + 1)).
Proof.
  intros Hkeep Hreach0 Htick1 Hreach1 Htick2.
  destruct (OnTick_reaching_pass_graph P M d1 t1 r0 r1 Hkeep Hreach0 Htick1)
    as (Hf1 & Hn1 & _).
  destruct (OnTick_reaching_pass_graph P M d2 t2 r1 r2 Hkeep Hreach1 Htick2)
    as (Hf2 & _ & Hadv).
  assert (Hframe2 : frame (m_cb_frame_cpu r2) = u32 (m_frame_num r0 + 1))
    by (rewrite Hf2, Hn1; apply u32_u64).
  assert (Hdiff : frame (m_cb_frame_cpu r2) <> frame (m_cb_frame_cpu r1))
    by (rewrite Hframe2, Hf1; apply u32_succ_differs).
  split; [exact Hf1|]. split; [exact Hframe2|].
  split; [intros Heq; apply Hdiff; rewrite Heq; reflexivity|].
  intros Hprev Hfound. apply Hadv; [exact Hfound|].
  rewrite Hprev, Hf1, Hn1, u32_u64. intros Heq. symmetry in Heq.
  exact (u32_succ_differs _ Heq).
Qed.

(** * The statements at concrete inputs *)


Lemma SetLayout_current_layout_is_noop_witness :
  SetLayout Shader_Read_Only_Optimal true (-1) true Sample.default_transparent
    (Sample.world Recording true) = Ok (Sample.world Recording true).
Proof.
  apply (SetLayout_current_layout_is_noop (Sample.world Recording true)
           Sample.default_transparent (Sample.texture Shader_Read_Only_Optimal)).
  - reflexivity.
  - intros H; exfalso; apply H; reflexivity.
  - reflexivity.
Defined.

Lemma SetLayout_undefined_is_kept_witness :
  SetLayout Transfer_Dst_Optimal true (-1) true Sample.staging
    (Sample.world Recording true) = Ok (Sample.world Recording true).
Proof.
  apply (SetLayout_undefined_is_kept (Sample.world Recording true)
           Sample.staging (Sample.texture Undefined)).
  - reflexivity.
  - intros H; exfalso; apply H; reflexivity.
  - reflexivity.
Defined.



Lemma EndRenderPass_clears_pass_without_draw_witness :
  exists w3,
    EndRenderPass Sample.driver Sample.pass_bound = Ok (true, w3) /\
    recorded (cmd w3) =
      recorded (cmd Sample.pass_bound) ++ end_pass_commands Sample.driver Sample.three_targets /\
    m_render_pass_active (cmd w3) = false /\
    (forall (i tex : nat) (c : Clear Vector4),
        render_target_color_textures Sample.three_targets !! i = Some (Some tex) ->
        clear_color Sample.three_targets !! i = Some c ->
        ClearValue_color c ∈ begin_clear_values Sample.three_targets) /\
    (forall (i : nat) (c : Clear Vector4),
        clear_color Sample.three_targets !! i = Some c ->
        is_load c = false ->
        mkClearAttachment true false false 0 (ClearValue_color c)
          ∈ clear_attachments Sample.three_targets).
Proof.
  apply (EndRenderPass_clears_pass_without_draw Sample.driver Sample.driver
           Sample.three_targets Sample.binds (Sample.world Recording false)
           Sample.pass_opened Sample.pass_bound).
  - reflexivity.
  - vm_compute; reflexivity.
  - repeat constructor.
  - vm_compute; reflexivity.
  - reflexivity.
  - reflexivity.
  - reflexivity.
  - discriminate.
Defined.


Lemma next_tick_changes_frame_block_witness :
  frame (m_cb_frame_cpu (Sample.after_tick Sample.scene)) = u32 (m_frame_num Sample.scene) /\
  frame (m_cb_frame_cpu (Sample.after_tick (Sample.after_tick Sample.scene)))
  = u32 (m_frame_num Sample.scene + 1) /\
  m_cb_frame_cpu (Sample.after_tick (Sample.after_tick Sample.scene))
  <> m_cb_frame_cpu (Sample.after_tick Sample.scene) /\
  (m_cb_frame_cpu_previous (Sample.after_tick Sample.scene)
   = m_cb_frame_cpu (Sample.after_tick Sample.scene) ->
   GetPipeline_found Sample.driver <> None ->
   m_cb_frame_offset_index (Sample.after_tick (Sample.after_tick Sample.scene))
   = u32 (frame_offset_base (Sample.after_tick Sample.scene) + 1)).
Proof.
  apply (next_tick_changes_frame_block Sample.passes Sample.math Sample.driver Sample.driver
           (Sample.tick_input false) (Sample.tick_input false) Sample.scene
           (Sample.after_tick Sample.scene)
           (Sample.after_tick (Sample.after_tick Sample.scene))).
  - split; [|split]; intros; simpl in *; congruence.
  - split; [reflexivity|]. split; [eexists; split; reflexivity|].
    split; [reflexivity|]. split; [reflexivity|]. split; [discriminate | reflexivity].
  - vm_compute; reflexivity.
  - split; [vm_compute; reflexivity|].
    split; [exists (mkSwapChain true 64 64); split; vm_compute; reflexivity|].
    split; [vm_compute; reflexivity|]. split; [vm_compute; reflexivity|].
    split; [vm_compute; discriminate | vm_compute; reflexivity].
  - vm_compute; reflexivity.
Defined.

(** * Further properties *)

(** ** The life cycle of a command list *)

Lemma run_cons (d : Driver) (op : Op) (rest : list (Driver * Op)) (w w1 : World) :
  exec d op w = Ok w1 -> run ((d, op) :: rest) w = run rest w1.
Proof. intros H. simpl. rewrite H. reflexivity. Qed.

Lemma Submit_not_presenting (d : Driver) (s : option nat) (w : World) :
  m_state (cmd w) = Ended ->
  swapchain_of_pipeline w = true ->
  PresentEnabled w = false ->
  Submit d s w = Ok (true, set_state Submitted w).
Proof.
  intros Hst Hsw Hpe. unfold Submit.
  rewrite (decide_state_true Ended w Hst), Hsw, Hpe. reflexivity.
Qed.

Lemma Submit_queued (d : Driver) (s : option nat) (w : World) :
  m_state (cmd w) = Ended ->
  swapchain_of_pipeline w && negb (PresentEnabled w) = false ->
  QueueSubmit_ok d = true ->
  (swapchain_of_pipeline w = true -> m_processed_semaphore (cmd w) = Semaphore_Idle) ->
  Submit d s w = Ok (true, set_state Submitted (QueueSubmit (swapchain_of_pipeline w) w)).
Proof.
  intros Hst Hcase Hsubmit Hsem. unfold Submit.
  rewrite (decide_state_true Ended w Hst), Hcase, Hsubmit.
  destruct (swapchain_of_pipeline w); cbn [SP_ASSERT mbind Result_bind implb negb].
  - rewrite (Hsem eq_refl). reflexivity.
  - reflexivity.
Qed.

Lemma exec_Begin_idle (d : Driver) (w : World) :
  m_state (cmd w) = Idle ->
  m_resource (cmd w) = true ->
  vkBeginCommandBuffer_ok d = true ->
  exec d Op_Begin w = Ok (begun w).
Proof. intros Hst Hres Hok. unfold exec. rewrite (Begin_idle d w Hst Hres Hok). reflexivity. Qed.

Lemma exec_End_recording (d : Driver) (w : World) :
  m_state (cmd w) = Recording ->
  vkEndCommandBuffer_ok d = true ->
  exec d Op_End w = Ok (set_state Ended w).
Proof. intros Hst Hok. unfold exec. rewrite (End_recording d w Hst Hok). reflexivity. Qed.

(** Begin, End, Submit and Wait take an idle command list once round the
    state machine: it is idle again, the processed semaphore is idle, the
    command buffer holds only the reset of the query pool, and the queue
    received one submission (none when the pipeline targets a swap chain
    that does not present). *)
Theorem life_cycle_round_trip (d : Driver) (s : option nat) (w : World) :
  m_state (cmd w) = Idle ->
  m_resource (cmd w) = true ->
  vkBeginCommandBuffer_ok d = true ->
  vkEndCommandBuffer_ok d = true ->
  QueueSubmit_ok d = true ->
  Fence_Wait_ok d = true ->
  (swapchain_of_pipeline w = true -> PresentEnabled w = true ->
   m_processed_semaphore (cmd w) = Semaphore_Idle) ->
  exists w',
    run [(d, Op_Begin); (d, Op_End); (d, Op_Submit s); (d, Op_Wait)] w = Ok w' /\
    m_state (cmd w') = Idle /\
    m_processed_semaphore (cmd w') = Semaphore_Idle /\
    recorded (cmd w') = [vkCmdResetQueryPool] /\
    submissions (cmd w') =
      (if swapchain_of_pipeline w && negb (PresentEnabled w)
       then submissions (cmd w) else S (submissions (cmd w))).
Proof.
  intros Hst Hres Hbegin Hend Hsubmit Hfence Hsem.
  rewrite (run_cons _ _ _ _ _ (exec_Begin_idle d w Hst Hres Hbegin)).
  assert (Hst1 : m_state (cmd (begun w)) = Recording) by reflexivity.
  rewrite (run_cons _ _ _ _ _ (exec_End_recording d (begun w) Hst1 Hend)).
  set (w2 := set_state Ended (begun w)).
  assert (Hsw : swapchain_of_pipeline w2 = swapchain_of_pipeline w) by reflexivity.
  assert (Hpe : PresentEnabled w2 = PresentEnabled w) by reflexivity.
  assert (Hse : m_processed_semaphore (cmd w2) = m_processed_semaphore (cmd w)) by reflexivity.
  assert (Hsub : submissions (cmd w2) = submissions (cmd w)) by reflexivity.
  assert (Hrec : recorded (cmd w2) = [vkCmdResetQueryPool]) by reflexivity.
  assert (Hst2 : m_state (cmd w2) = Ended) by reflexivity.
  clearbody w2.
  assert (Hwait : forall w3, m_state (cmd w3) = Submitted ->
            run [(d, Op_Wait)] w3
            = Ok (set_state Idle (upd_cmd (set_m_processed_semaphore Semaphore_Idle) w3))).
  { intros w3 H3. unfold run, exec. rewrite (Wait_submitted d w3 H3 Hfence). reflexivity. }
  destruct (swapchain_of_pipeline w && negb (PresentEnabled w)) eqn:Hcase.
  - apply andb_true_iff in Hcase as [Esw Epe]. apply negb_true_iff in Epe.
    rewrite (run_cons d (Op_Submit s) _ w2 (set_state Submitted w2)).
    2:{ unfold exec. rewrite (Submit_not_presenting d s w2) by congruence. reflexivity. }
    rewrite Hwait by reflexivity.
    eexists; split; [reflexivity|].
    repeat split; assumption.
  - rewrite (run_cons d (Op_Submit s) _ w2
               (set_state Submitted (QueueSubmit (swapchain_of_pipeline w2) w2))).
    2:{ unfold exec. rewrite (Submit_queued d s w2); try congruence; [reflexivity|].
        intros Esw. rewrite Hse. rewrite Hsw in Esw. apply Hsem; [exact Esw|].
        rewrite Esw in Hcase. destruct (PresentEnabled w); [reflexivity | discriminate]. }
    set (w3 := set_state Submitted (QueueSubmit (swapchain_of_pipeline w2) w2)).
    assert (Hst3 : m_state (cmd w3) = Submitted) by reflexivity.
    assert (Hrec3 : recorded (cmd w3) = recorded (cmd w2))
      by (subst w3; unfold QueueSubmit; destruct (swapchain_of_pipeline w2); reflexivity).
    assert (Hsub3 : submissions (cmd w3) = S (submissions (cmd w2)))
      by (subst w3; unfold QueueSubmit; destruct (swapchain_of_pipeline w2); reflexivity).
    clearbody w3.
    rewrite (Hwait w3 Hst3).
    eexists; split; [reflexivity|].
    split; [reflexivity|]. split; [reflexivity|].
    split.
    + change (recorded (cmd w3) = [vkCmdResetQueryPool]). rewrite Hrec3. exact Hrec.
    + change (submissions (cmd w3) = S (submissions (cmd w))). rewrite Hsub3, Hsub. reflexivity.
Qed.
(** ** What the life-cycle calls return *)

Tactic Notation "bind_in" hyp(H) "as" ident(x) ident(E) :=
  apply bind_inv in H; destruct H as (x & E & H).

Lemma End_inv (d : Driver) (w w' : World) (b : bool) : End d w = Ok (b, w') ->
  m_state (cmd w) = Recording /\
  (if b then w' = set_state Ended w else w' = w).
Proof.
  unfold End, is_recording. intros H.
  destruct (bool_decide (m_state (cmd w) = Recording)) eqn:E; [|discriminate].
  apply bool_decide_eq_true_1 in E. split; [exact E|].
  cbn [SP_ASSERT mbind Result_bind] in H.
  destruct (negb (vkEndCommandBuffer_ok d)); inversion H; reflexivity.
Qed.

Lemma Submit_inv (d : Driver) (s : option nat) (w w' : World) :
  Submit d s w = Ok (true, w') -> m_state (cmd w') = Submitted.
Proof.
  unfold Submit. intros H.
  destruct (bool_decide (m_state (cmd w) = Ended)); [|discriminate].
  cbn [SP_ASSERT mbind Result_bind] in H.
  destruct (swapchain_of_pipeline w && negb (PresentEnabled w)).
  - inversion H. reflexivity.
  - destruct (implb _ _); [|discriminate].
    cbn [SP_ASSERT mbind Result_bind] in H.
    destruct (negb (QueueSubmit_ok d)); inversion H. reflexivity.
Qed.

Lemma Wait_inv (d : Driver) (w w' : World) :
  Wait d w = Ok w' ->
  m_state (cmd w) = Submitted /\ m_state (cmd w') = Idle /\
  m_resource (cmd w') = m_resource (cmd w).
Proof.
  unfold Wait. intros H.
  destruct (bool_decide (m_state (cmd w) = Submitted)) eqn:E; [|discriminate].
  apply bool_decide_eq_true_1 in E.
  destruct (Fence_Wait_ok d); [|discriminate].
  inversion H. repeat split. exact E.
Qed.

Lemma Begin_inv (d : Driver) (w w' : World) (b : bool) :
  Begin d w = Ok (b, w') ->
  if b
  then m_state (cmd w') = Recording /\ recorded (cmd w') = [vkCmdResetQueryPool] /\
       m_flushed (cmd w') = false
  else m_state (cmd w') = Idle.
Proof.
  unfold Begin. intros H.
  binv H.
  destruct (m_resource (cmd x)); [|discriminate].
  destruct (bool_decide (m_state (cmd x) = Idle)) eqn:Eidle; [|discriminate].
  apply bool_decide_eq_true_1 in Eidle.
  cbn [SP_ASSERT mbind Result_bind] in H.
  destruct (negb (vkBeginCommandBuffer_ok d)); inversion H.
  - exact Eidle.
  - repeat split.
Qed.

Lemma Flush_inv (d : Driver) (restore : bool) (w w' : World) :
  Flush d restore w = Ok (true, w') ->
  m_state (cmd w) <> Idle ->
  m_flushed (cmd w') = true /\
  (m_state (cmd w') = Idle \/
   m_state (cmd w') = Recording /\ restore = true /\ m_state (cmd w) = Recording /\
   recorded (cmd w') = [vkCmdResetQueryPool]).
Proof.
  unfold Flush. intros H Hnot.
  set (w0 := upd_cmd (fun c => set_flushes (S (flushes c)) c) w) in H.
  assert (Hst0 : m_state (cmd w0) = m_state (cmd w)) by reflexivity.
  clearbody w0.
  rewrite (bool_decide_eq_false_2 (m_state (cmd w0) = Idle)) in H by congruence.
  bind_in H as x E1. destruct x as [ended w1].
  destruct ended; [|discriminate H].
  cbn [negb] in H. bind_in H as x E2. destruct x as [submitted w2].
  destruct submitted; [|discriminate H].
  cbn [negb] in H. bind_in H as w3 E3.
  apply Wait_inv in E3 as (_ & Hst3 & _).
  bind_in H as w4 E4. inversion H; subst w'; clear H.
  split; [reflexivity|].
  change (m_state (cmd w4) = Idle \/
          m_state (cmd w4) = Recording /\ restore = true /\ m_state (cmd w) = Recording /\
          recorded (cmd w4) = [vkCmdResetQueryPool]).
  destruct (restore && bool_decide (m_state (cmd w3) = Idle) && is_recording w0) eqn:Ecase.
  - apply andb_true_iff in Ecase as [Ecase Erec].
    apply andb_true_iff in Ecase as [Eres _].
    unfold is_recording in Erec. apply bool_decide_eq_true_1 in Erec.
    bind_in E4 as x E5. destruct x as [b w5]. inversion E4; subst w5; clear E4.
    apply Begin_inv in E5. destruct b.
    + right. destruct E5 as (? & ? & ?). repeat split; congruence.
    + left. exact E5.
  - inversion E4; subst w4. left. exact Hst3.
Qed.


Lemma OnDraw_flushed (d : Driver) (w : World) :
  m_flushed (cmd w) = true -> OnDraw d w = Ok (false, w).
Proof. intros H. unfold OnDraw. rewrite H. reflexivity. Qed.

Lemma draw_with_flushed (d : Driver) (c : VkCmd) (count : Profiler -> Profiler) (w : World) :
  m_state (cmd w) = Recording ->
  m_flushed (cmd w) = true ->
  draw_with d c count w = Ok (false, w).
Proof.
  intros Hst Hfl. unfold draw_with, is_recording.
  rewrite (decide_state_true Recording w Hst), (OnDraw_flushed d w Hfl). reflexivity.
Qed.

(** Once a command list has been flushed, the recording resumed by the
    flush drops every draw and dispatch: the call returns false, records
    nothing and counts nothing. *)
Theorem draws_after_flush_are_dropped (d d' : Driver) (restore : bool) (w w' : World) :
  Flush d restore w = Ok (true, w') ->
  m_state (cmd w) <> Idle ->
  m_state (cmd w') = Recording ->
  (forall n, Draw d' n w' = Ok (false, w')) /\
  (forall a b c, DrawIndexed d' a b c w' = Ok (false, w')) /\
  (forall x y z async, Dispatch d' x y z async w' = Ok (false, w')).
Proof.
  intros Hflush Hnot Hrec.
  destruct (Flush_inv d restore w w' Hflush Hnot) as [Hfl _].
  unfold Draw, DrawIndexed, Dispatch.
  repeat split; intros; apply draw_with_flushed; assumption.
Qed.

(** A submission for a swap chain that does not present (minimised
    window) hands nothing to the queue, whatever the driver would answer:
    the list counts as submitted, the submission count, the processed
    semaphore, the command buffer and the log are as before. *)
Theorem Submit_without_presentation_submits_nothing (d : Driver) (s : option nat)
  (w : World) :
  m_state (cmd w) = Ended ->
  swapchain_of_pipeline w = true ->
  PresentEnabled w = false ->
  exists w',
    Submit d s w = Ok (true, w') /\
    m_state (cmd w') = Submitted /\
    submissions (cmd w') = submissions (cmd w) /\
    m_processed_semaphore (cmd w') = m_processed_semaphore (cmd w) /\
    recorded (cmd w') = recorded (cmd w) /\
    log w' = log w.
Proof.
  intros Hst Hsw Hpe. exists (set_state Submitted w).
  split; [apply Submit_not_presenting; assumption|]. repeat split.
Qed.


(** A transition that takes place (the addressed mip has a layout and it
    is not the one asked for) records one barrier for the addressed mips,
    counts it, and gives the new layout to exactly those mips; the other
    mips and the other textures keep theirs. *)
Theorem SetLayout_transition (new_layout current_layout : RHI_Image_Layout) (mip : Z)
  (ranged : bool) (tex : nat) (t : RHI_Texture) (w : World) :
  textures w !! tex = Some t ->
  SetLayout_in_range t mip ranged ->
  m_layout t !! Z.to_nat (SetLayout_mip_start mip) = Some current_layout ->
  current_layout <> Undefined ->
  current_layout <> new_layout ->
  exists (w' : World) (t' : RHI_Texture),
    SetLayout new_layout true mip ranged tex w = Ok w' /\
    recorded (cmd w') =
      recorded (cmd w) ++
      [vkCmdPipelineBarrier tex (SetLayout_mip_start mip) (SetLayout_mip_range t mip ranged)
         (m_array_length t) current_layout new_layout] /\
    m_rhi_pipeline_barriers (profiler w') = u32 (m_rhi_pipeline_barriers (profiler w) + 1) /\
    textures w' !! tex = Some t' /\
    (forall i : nat,
        m_layout t' !! i =
        if decide (SetLayout_mip_start mip <= Z.of_nat i
                   < SetLayout_mip_start mip + SetLayout_mip_range t mip ranged)
        then Some new_layout else m_layout t !! i) /\
    (forall other : nat, other <> tex -> textures w' !! other = textures w !! other).
Proof.
  intros Htex Hin Hcur Hdef Hnew.
  rewrite (SetLayout_eq new_layout true mip ranged tex t current_layout w Htex Hin Hcur).
  destruct (decide (current_layout = Undefined)); [contradiction|].
  destruct (decide (current_layout = new_layout)); [contradiction|].
  destruct Hin as (Hmip & Hrange & Hlen & Hmax).
  assert (Hstart0 : 0 <= SetLayout_mip_start mip).
  { unfold SetLayout_mip_start. destruct Hmip as [->|[Hm _]]; [simpl; lia|].
    destruct (mip =? -1); lia. }
  eexists; eexists. split; [reflexivity|].
  split; [reflexivity|]. split; [reflexivity|].
  split; [apply lookup_insert_eq|].
  split.
  - intros i. cbn [m_layout set_m_layout].
    rewrite list_fill_lookup by lia.
    destruct (decide (Z.to_nat (SetLayout_mip_start mip) <= i
                      < Z.to_nat (SetLayout_mip_start mip)
                        + Z.to_nat (SetLayout_mip_range t mip ranged))%nat) as [H1|H1];
      destruct (decide (SetLayout_mip_start mip <= Z.of_nat i
                        < SetLayout_mip_start mip + SetLayout_mip_range t mip ranged))
        as [H2|H2]; try reflexivity; lia.
  - intros other Hother. apply lookup_insert_ne. congruence.
Qed.

(** ** Blit *)

Lemma set_m_layout_id (t : RHI_Texture) : set_m_layout (m_layout t) t = t.
Proof. destruct t; reflexivity. Qed.

Lemma SetLayout_restore_step (new_layout l : RHI_Image_Layout) (tex : nat) (t : RHI_Texture)
  (layouts : list RHI_Image_Layout) (i : nat) (w : World) :
  textures w !! tex = Some (set_m_layout layouts t) ->
  HasPerMipView t = true ->
  Z.of_nat i < m_mip_count t ->
  m_mip_count t <= Z.of_nat (length layouts) ->
  m_mip_count t < 2 ^ 32 ->
  layouts !! i = Some l ->
  l <> Undefined ->
  exists w',
    SetLayout new_layout true (Z.of_nat i) true tex w = Ok w' /\
    textures w' =
      <[tex := set_m_layout
                 (if decide (l = new_layout) then layouts
                  else list_fill layouts i (Z.to_nat (m_mip_count t - Z.of_nat i)) new_layout)
                 t]> (textures w) /\
    (exists post, recorded (cmd w') = recorded (cmd w) ++ post) /\
    m_state (cmd w') = m_state (cmd w).
Proof.
  intros Htex Hview Hi Hlen Hmax Hl Hdef.
  assert (Hne : (Z.of_nat i =? -1) = false) by (apply Z.eqb_neq; lia).
  assert (Hin : SetLayout_in_range (set_m_layout layouts t) (Z.of_nat i) true).
  { unfold SetLayout_in_range, SetLayout_mip_start, SetLayout_mip_range.
    rewrite Hne. cbn [m_mip_count set_m_layout m_layout HasPerMipView].
    split; [right; split; [lia | exact Hview]|]. lia. }
  rewrite (SetLayout_eq new_layout true (Z.of_nat i) true tex (set_m_layout layouts t) l w
             Htex Hin).
  2:{ unfold SetLayout_mip_start. rewrite Hne, Nat2Z.id. exact Hl. }
  destruct (decide (l = Undefined)); [contradiction|].
  destruct (decide (l = new_layout)).
  - exists w. split; [reflexivity|].
    split; [symmetry; apply insert_id; exact Htex|].
    split; [exists []; rewrite app_nil_r; reflexivity | reflexivity].
  - eexists. split; [reflexivity|].
    unfold SetLayout_done, SetLayout_mip_start, SetLayout_mip_range.
    rewrite Hne, Nat2Z.id.
    split; [reflexivity|].
    split; [eexists; reflexivity | reflexivity].
Qed.

Lemma restored_below_step (n i : nat) (layouts initial : list RHI_Image_Layout)
  (l new_layout : RHI_Image_Layout) :
  (i < n)%nat ->
  (n <= length layouts)%nat ->
  restored_below n i layouts initial ->
  layouts !! i = Some l ->
  initial !! i = Some new_layout ->
  new_layout <> Undefined ->
  restored_below n (S i)
    (if decide (l = new_layout) then layouts else list_fill layouts i (n - i) new_layout)
    initial.
Proof.
  intros Hi Hn (Hlen & Hkeep & Hsome) Hl Hinit Hdef.
  destruct (decide (l = new_layout)) as [->|Hne].
  - split; [exact Hlen|]. split.
    + intros j Hj. destruct (decide (j = i)) as [->|Hji]; [congruence|].
      apply Hkeep. lia.
    + intros j Hj. apply Hsome. lia.
  - split; [rewrite list_fill_length by lia; exact Hlen|]. split.
    + intros j Hj. rewrite list_fill_lookup by lia.
      destruct (decide (i <= j < i + (n - i))%nat) as [Hin|Hout].
      * assert (j = i) by lia. subst j. congruence.
      * apply Hkeep. lia.
    + intros j Hj. rewrite list_fill_lookup by lia.
      destruct (decide (i <= j < i + (n - i))%nat) as [Hin|Hout]; [|lia].
      exists new_layout. split; [reflexivity | exact Hdef].
Qed.

Lemma restored_below_all (n : nat) (layouts initial : list RHI_Image_Layout) :
  restored_below n n layouts initial -> layouts = initial.
Proof.
  intros (_ & Hkeep & _). apply list_eq. intros j. apply Hkeep. lia.
Qed.

Lemma array_get_nat {A : Type} (a : list A) (i : nat) (x : A) :
  a !! i = Some x -> array_get a (Z.of_nat i) = Ok x.
Proof.
  intros H. unfold array_get.
  destruct (Z.ltb_spec (Z.of_nat i) 0) as [|_]; [lia|].
  rewrite Nat2Z.id, H. reflexivity.
Qed.

Lemma Blit_restore_spec (source destination : nat) (s t : RHI_Texture)
  (initial_s initial_t : list RHI_Image_Layout) (n : nat) :
  source <> destination ->
  HasPerMipView s = true -> HasPerMipView t = true ->
  m_mip_count s = Z.of_nat n -> m_mip_count t = Z.of_nat n ->
  Z.of_nat n < 2 ^ 32 ->
  (forall j, (j < n)%nat -> exists l, initial_s !! j = Some l /\ l <> Undefined) ->
  (forall j, (j < n)%nat -> exists l, initial_t !! j = Some l /\ l <> Undefined) ->
  forall (k i : nat) (layouts_s layouts_t : list RHI_Image_Layout) (w : World),
    (i + k = n)%nat ->
    (n <= length layouts_s)%nat -> (n <= length layouts_t)%nat ->
    textures w !! source = Some (set_m_layout layouts_s s) ->
    textures w !! destination = Some (set_m_layout layouts_t t) ->
    restored_below n i layouts_s initial_s ->
    restored_below n i layouts_t initial_t ->
    exists w',
      Blit_restore source destination initial_s initial_t (Z.of_nat i) k w = Ok w' /\
      textures w' !! source = Some (set_m_layout initial_s s) /\
      textures w' !! destination = Some (set_m_layout initial_t t) /\
      (forall other, other <> source -> other <> destination ->
         textures w' !! other = textures w !! other) /\
      (exists post, recorded (cmd w') = recorded (cmd w) ++ post) /\
      m_state (cmd w') = m_state (cmd w).
Proof.
  intros Hdiff Hvs Hvt Hns Hnt Hmax Hinit_s Hinit_t.
  induction k as [|k IH]; intros i layouts_s layouts_t w Hik Hls Hlt Hsrc Hdst Hrs Hrt.
  - assert (i = n) by lia. subst i.
    rewrite (restored_below_all n _ _ Hrs) in Hsrc.
    rewrite (restored_below_all n _ _ Hrt) in Hdst.
    exists w. simpl. split; [reflexivity|].
    split; [exact Hsrc|]. split; [exact Hdst|].
    split; [reflexivity|]. split; [exists []; rewrite app_nil_r; reflexivity | reflexivity].
  - assert (Hi : (i < n)%nat) by lia.
    destruct (Hinit_s i Hi) as (new_s & Hnew_s & Hdef_s).
    destruct (Hinit_t i Hi) as (new_t & Hnew_t & Hdef_t).
    destruct Hrs as (Hlen_s & Hkeep_s & Hsome_s).
    destruct Hrt as (Hlen_t & Hkeep_t & Hsome_t).
    destruct (Hsome_s i) as (ls & Hls_i & Hls_def); [lia|].
    destruct (Hsome_t i) as (lt & Hlt_i & Hlt_def); [lia|].
    cbn [Blit_restore].
    rewrite (array_get_nat _ _ _ Hnew_s). cbn [mbind Result_bind].
    destruct (SetLayout_restore_step new_s ls source s layouts_s i w)
      as (w1 & Hw1 & Htex1 & (post1 & Hrec1) & Hst1); try assumption; try lia.
    rewrite Hw1. cbn [mbind Result_bind].
    rewrite (array_get_nat _ _ _ Hnew_t). cbn [mbind Result_bind].
    assert (Hdst1 : textures w1 !! destination = Some (set_m_layout layouts_t t)).
    { rewrite Htex1, lookup_insert_ne by congruence. exact Hdst. }
    destruct (SetLayout_restore_step new_t lt destination t layouts_t i w1)
      as (w2 & Hw2 & Htex2 & (post2 & Hrec2) & Hst2); try assumption; try lia.
    rewrite Hw2. cbn [mbind Result_bind].
    replace (Z.of_nat i + 1) with (Z.of_nat (S i)) by lia.
    rewrite Hns in Htex1. rewrite Hnt in Htex2.
    replace (Z.to_nat (Z.of_nat n - Z.of_nat i)) with (n - i)%nat in Htex1, Htex2 by lia.
    set (layouts_s' := if decide (ls = new_s) then layouts_s
                       else list_fill layouts_s i (n - i) new_s) in *.
    set (layouts_t' := if decide (lt = new_t) then layouts_t
                       else list_fill layouts_t i (n - i) new_t) in *.
    assert (Hrs' : restored_below n (S i) layouts_s' initial_s).
    { apply (restored_below_step n i layouts_s initial_s ls new_s); try assumption.
      repeat split; assumption. }
    assert (Hrt' : restored_below n (S i) layouts_t' initial_t).
    { apply (restored_below_step n i layouts_t initial_t lt new_t); try assumption.
      repeat split; assumption. }
    destruct (IH (S i) layouts_s' layouts_t' w2) as (w' & Hw' & Hs' & Ht' & Ho' & (post & Hrec') & Hst');
      try assumption; try lia.
    + destruct Hrs' as (Hl' & _). rewrite Hl', <- Hlen_s. exact Hls.
    + destruct Hrt' as (Hl' & _). rewrite Hl', <- Hlen_t. exact Hlt.
    + rewrite Htex2, lookup_insert_ne by congruence.
      rewrite Htex1. apply lookup_insert_eq.
    + rewrite Htex2. apply lookup_insert_eq.
    + exists w'. split; [exact Hw'|]. split; [exact Hs'|]. split; [exact Ht'|].
      split.
      * intros other Hos Hod. rewrite (Ho' other Hos Hod), Htex2.
        rewrite lookup_insert_ne by congruence.
        rewrite Htex1. apply lookup_insert_ne. congruence.
      * split; [|congruence].
        exists (post1 ++ post2 ++ post). rewrite Hrec', Hrec2, Hrec1, <- !app_assoc. reflexivity.
Qed.

Lemma SetLayout_whole_step (new_layout l : RHI_Image_Layout) (tex : nat) (t : RHI_Texture)
  (n : nat) (w : World) :
  textures w !! tex = Some t ->
  m_mip_count t = Z.of_nat n ->
  (n <= length (m_layout t))%nat ->
  Z.of_nat n < 2 ^ 32 ->
  m_layout t !! 0%nat = Some l ->
  l <> Undefined ->
  new_layout <> Undefined ->
  all_mips_defined t ->
  exists (w' : World) (layouts : list RHI_Image_Layout),
    SetLayout new_layout true (-1) true tex w = Ok w' /\
    textures w' = <[tex := set_m_layout layouts t]> (textures w) /\
    restored_below n 0 layouts (m_layout t) /\
    (exists post, recorded (cmd w') = recorded (cmd w) ++ post) /\
    m_state (cmd w') = m_state (cmd w).
Proof.
  intros Htex Hn Hlen Hmax Hl Hdef Hnew Hall.
  assert (Hin : SetLayout_in_range t (-1) true).
  { unfold SetLayout_in_range, SetLayout_mip_start, SetLayout_mip_range. simpl.
    split; [left; reflexivity|]. lia. }
  rewrite (SetLayout_eq new_layout true (-1) true tex t l w Htex Hin Hl).
  destruct (decide (l = Undefined)); [contradiction|].
  destruct (decide (l = new_layout)).
  - exists w, (m_layout t). split; [reflexivity|].
    split; [rewrite set_m_layout_id; symmetry; apply insert_id; exact Htex|].
    split.
    + split; [reflexivity|]. split; [reflexivity|].
      intros j Hj. apply Hall. lia.
    + split; [exists []; rewrite app_nil_r; reflexivity | reflexivity].
  - eexists; eexists. split; [reflexivity|].
    unfold SetLayout_done, SetLayout_mip_start, SetLayout_mip_range. simpl.
    rewrite Hn, Nat2Z.id. change (Z.to_nat 0) with 0%nat.
    split; [reflexivity|].
    split.
    + split; [apply list_fill_length; lia|]. split.
      * intros j Hj. rewrite list_fill_lookup by lia.
        destruct (decide (0 <= j < 0 + n)%nat); [lia | reflexivity].
      * intros j Hj. rewrite list_fill_lookup by lia.
        destruct (decide (0 <= j < 0 + n)%nat); [|lia].
        exists new_layout. split; [reflexivity | exact Hnew].
    + split; [eexists; reflexivity | reflexivity].
Qed.

(** A blit between two compatible textures with per-mip views, all of
    whose mips have a layout, records the copy and puts every mip of both
    textures back into the layout it had; no other texture is touched and
    the state of the command list stays. *)
Theorem Blit_restores_layouts (source destination : nat) (s t : RHI_Texture) (w : World) :
  textures w !! source = Some s ->
  textures w !! destination = Some t ->
  source <> destination ->
  Blit_compatible s t ->
  HasPerMipView s = true ->
  HasPerMipView t = true ->
  1 <= m_mip_count s < 2 ^ 32 ->
  m_mip_count s <= Z.of_nat (length (m_layout s)) ->
  m_mip_count t <= Z.of_nat (length (m_layout t)) ->
  all_mips_defined s ->
  all_mips_defined t ->
  exists w',
    Blit (Some source) (Some destination) w = Ok w' /\
    textures w' !! source = Some s /\
    textures w' !! destination = Some t /\
    (forall other, other <> source -> other <> destination ->
       textures w' !! other = textures w !! other) /\
    vkCmdBlitImage source destination ∈ recorded (cmd w') /\
    m_state (cmd w') = m_state (cmd w).
Proof.
  intros Hsrc Hdst Hdiff (Hrs & Hrt & Hfmt & Hwd & Hht & Harr & Hmips) Hvs Hvt Hcount
    Hlen_s Hlen_t Hall_s Hall_t.
  set (n := Z.to_nat (m_mip_count s)).
  assert (Hns : m_mip_count s = Z.of_nat n) by (subst n; lia).
  assert (Hnt : m_mip_count t = Z.of_nat n) by congruence.
  destruct (Hall_s 0%nat) as (l0s & Hl0s & Hd0s); [lia|].
  destruct (Hall_t 0%nat) as (l0t & Hl0t & Hd0t); [lia|].
  unfold Blit, lookup_texture.
  rewrite !bool_decide_eq_true_2 by discriminate.
  cbn [SP_ASSERT deref mbind Result_bind].
  rewrite Hsrc, Hdst. cbn [deref mbind Result_bind].
  rewrite Hrs, Hrt. cbn [SP_ASSERT mbind Result_bind].
  rewrite (bool_decide_eq_false_2 (source = destination) Hdiff).
  rewrite <- Hfmt, <- Hwd, <- Hht, <- Harr, <- Hmips, !Z.eqb_refl.
  cbn [negb SP_ASSERT mbind Result_bind].
  destruct (SetLayout_whole_step Transfer_Src_Optimal l0s source s n w)
    as (w1 & layouts_s & Hw1 & Htex1 & Hbelow_s & (post1 & Hrec1) & Hst1);
    try assumption; try lia; try discriminate.
  rewrite Hw1. cbn [mbind Result_bind].
  assert (Hdst1 : textures w1 !! destination = Some t).
  { rewrite Htex1, lookup_insert_ne by congruence. exact Hdst. }
  destruct (SetLayout_whole_step Transfer_Dst_Optimal l0t destination t n w1)
    as (w2 & layouts_t & Hw2 & Htex2 & Hbelow_t & (post2 & Hrec2) & Hst2);
    try assumption; try lia; try discriminate.
  rewrite Hw2. cbn [mbind Result_bind].
  set (w3 := record_cmd (vkCmdBlitImage source destination) w2).
  assert (Htex3 : textures w3 = textures w2) by reflexivity.
  assert (Hrec3 : recorded (cmd w3) = recorded (cmd w2) ++ [vkCmdBlitImage source destination])
    by reflexivity.
  assert (Hst3 : m_state (cmd w3) = m_state (cmd w2)) by reflexivity.
  clearbody w3.
  destruct (Blit_restore_spec source destination s t (m_layout s) (m_layout t) n
              Hdiff Hvs Hvt Hns Hnt ltac:(lia)
              ltac:(intros j Hj; apply Hall_s; lia) ltac:(intros j Hj; apply Hall_t; lia)
              n 0%nat layouts_s layouts_t w3)
    as (w' & Hw' & Hs' & Ht' & Ho' & (post & Hrec') & Hst'); try assumption; try lia.
  - destruct Hbelow_s as (Hl & _). rewrite Hl. lia.
  - destruct Hbelow_t as (Hl & _). rewrite Hl. lia.
  - rewrite Htex3, Htex2, lookup_insert_ne by congruence.
    rewrite Htex1. apply lookup_insert_eq.
  - rewrite Htex3, Htex2. apply lookup_insert_eq.
  - exists w'. split; [exact Hw'|].
    rewrite set_m_layout_id in Hs', Ht'.
    split; [exact Hs'|]. split; [exact Ht'|].
    split.
    + intros other Hos Hod. rewrite (Ho' other Hos Hod), Htex3, Htex2.
      rewrite lookup_insert_ne by congruence.
      rewrite Htex1. apply lookup_insert_ne. congruence.
    + split; [|congruence].
      rewrite Hrec', Hrec3. rewrite !elem_of_app. left. right. apply list_elem_of_singleton.
      reflexivity.
Qed.

(** The loop that puts the layouts back addresses single mips, which
    [SetLayout] accepts only for a texture with per-mip views: a blit from
    a texture without them stops at the assertion of the first restore,
    after the copy has been recorded. *)
Theorem Blit_without_per_mip_views_stops (source destination : nat) (s t : RHI_Texture)
  (w : World) :
  textures w !! source = Some s ->
  textures w !! destination = Some t ->
  source <> destination ->
  Blit_compatible s t ->
  HasPerMipView s = false ->
  1 <= m_mip_count s < 2 ^ 32 ->
  m_mip_count s <= Z.of_nat (length (m_layout s)) ->
  m_mip_count t <= Z.of_nat (length (m_layout t)) ->
  all_mips_defined s ->
  all_mips_defined t ->
  Blit (Some source) (Some destination) w = Fault AssertFail.
Proof.
  intros Hsrc Hdst Hdiff (Hrs & Hrt & Hfmt & Hwd & Hht & Harr & Hmips) Hvs Hcount
    Hlen_s Hlen_t Hall_s Hall_t.
  set (n := Z.to_nat (m_mip_count s)).
  assert (Hns : m_mip_count s = Z.of_nat n) by (subst n; lia).
  assert (Hnt : m_mip_count t = Z.of_nat n) by congruence.
  destruct (Hall_s 0%nat) as (l0s & Hl0s & Hd0s); [lia|].
  destruct (Hall_t 0%nat) as (l0t & Hl0t & Hd0t); [lia|].
  unfold Blit, lookup_texture.
  rewrite !bool_decide_eq_true_2 by discriminate.
  cbn [SP_ASSERT deref mbind Result_bind].
  rewrite Hsrc, Hdst. cbn [deref mbind Result_bind].
  rewrite Hrs, Hrt. cbn [SP_ASSERT mbind Result_bind].
  rewrite (bool_decide_eq_false_2 (source = destination) Hdiff).
  rewrite <- Hfmt, <- Hwd, <- Hht, <- Harr, <- Hmips, !Z.eqb_refl.
  cbn [negb SP_ASSERT mbind Result_bind].
  destruct (SetLayout_whole_step Transfer_Src_Optimal l0s source s n w)
    as (w1 & layouts_s & Hw1 & Htex1 & Hbelow_s & _);
    try assumption; try lia; try discriminate.
  rewrite Hw1. cbn [mbind Result_bind].
  assert (Hdst1 : textures w1 !! destination = Some t).
  { rewrite Htex1, lookup_insert_ne by congruence. exact Hdst. }
  destruct (SetLayout_whole_step Transfer_Dst_Optimal l0t destination t n w1)
    as (w2 & layouts_t & Hw2 & Htex2 & _);
    try assumption; try lia; try discriminate.
  rewrite Hw2. cbn [mbind Result_bind].
  set (w3 := record_cmd (vkCmdBlitImage source destination) w2).
  assert (Hsrc3 : textures w3 !! source = Some (set_m_layout layouts_s s)).
  { change (textures w2 !! source = Some (set_m_layout layouts_s s)).
    rewrite Htex2, lookup_insert_ne by congruence. rewrite Htex1. apply lookup_insert_eq. }
  clearbody w3.
  destruct n as [|k]; [lia|].
  rewrite Hns, Nat2Z.id. cbn [Blit_restore].
  change 0 with (Z.of_nat 0). rewrite (array_get_nat _ _ _ Hl0s).
  cbn [mbind Result_bind].
  unfold SetLayout, lookup_texture. rewrite Hsrc3.
  cbn [deref mbind Result_bind HasPerMipView set_m_layout]. rewrite Hvs. reflexivity.
Qed.
(** ** Draws inside a render pass *)

Lemma Deferred_BeginRenderPass_eq (ps : RHI_PipelineState) (valid : bool) (w : World) :
  m_state (cmd w) = Recording ->
  m_pipeline_state (cmd w) = Some ps ->
  m_pipeline (cmd w) = Some (mkPipeline (Some ps) valid) ->
  GetRenderPass ps = true ->
  GetFrameBuffer ps = true ->
  (render_target_swapchain ps = true -> clear_color ps <> []) ->
  Deferred_BeginRenderPass w =
  Ok (true,
      upd_cmd (set_m_render_pass_active true)
        (record_cmd (vkCmdBeginRenderPass (begin_clear_values ps) (GetWidth ps) (GetHeight ps))
           w)).
Proof.
  intros Hst Hps Hp Hpass Hfb Hsw.
  unfold Deferred_BeginRenderPass, is_recording.
  rewrite (decide_state_true Recording w Hst), Hp.
  cbn [SP_ASSERT deref mbind Result_bind GetPipelineState].
  rewrite bool_decide_eq_true_2 by discriminate.
  cbn [SP_ASSERT deref mbind Result_bind].
  rewrite Hpass, Hfb, Hps. cbn [SP_ASSERT deref mbind Result_bind].
  unfold begin_clear_values.
  destruct (render_target_swapchain ps); [|reflexivity].
  destruct (clear_color ps) as [|c rest] eqn:Hc; [exfalso; apply Hsw; reflexivity|].
  reflexivity.
Qed.

Lemma Deferred_BindDescriptorSet_eq (d : Driver) (ps : RHI_PipelineState) (w : World) :
  m_state (cmd w) = Recording ->
  m_pipeline_state (cmd w) = Some ps ->
  GetCurrentDescriptorSetLayout (cache w) = true ->
  GetDescriptorSet_result d = true ->
  GetDescriptorSet_set d = true ->
  Deferred_BindDescriptorSet d w =
  Ok (true,
      upd_profiler (fun p => set_m_rhi_bindings_descriptor_set
                               (u32 (m_rhi_bindings_descriptor_set p + 1)) p)
        (record_cmd (vkCmdBindDescriptorSets (IsCompute ps)) w)).
Proof.
  intros Hst Hps Hlayout Hres Hset.
  unfold Deferred_BindDescriptorSet, is_recording.
  rewrite (decide_state_true Recording w Hst), Hres, Hset, Hps, Hlayout. reflexivity.
Qed.

(** The world after the first draw of a pass, and after a later one. *)
Lemma draw_with_first (d : Driver) (c : VkCmd) (count : Profiler -> Profiler)
  (ps : RHI_PipelineState) (w : World) :
  m_state (cmd w) = Recording ->
  m_flushed (cmd w) = false ->
  m_render_pass_active (cmd w) = false ->
  m_pipeline_active (cmd w) = false ->
  m_pipeline_state (cmd w) = Some ps ->
  m_pipeline (cmd w) = Some (mkPipeline (Some ps) true) ->
  IsCompute ps = false ->
  GetRenderPass ps = true ->
  GetFrameBuffer ps = true ->
  (render_target_swapchain ps = true -> clear_color ps <> []) ->
  GetCurrentDescriptorSetLayout (cache w) = true ->
  GetDescriptorSet_result d = true ->
  GetDescriptorSet_set d = true ->
  exists w',
    draw_with d c count w = Ok (true, w') /\
    recorded (cmd w') =
      recorded (cmd w) ++
      [vkCmdBeginRenderPass (begin_clear_values ps) (GetWidth ps) (GetHeight ps);
       vkCmdBindPipeline false; vkCmdBindDescriptorSets false; c] /\
    profiler w' =
      count (set_m_rhi_bindings_descriptor_set
               (u32 (m_rhi_bindings_descriptor_set (profiler w) + 1))
               (set_m_rhi_bindings_pipeline (u32 (m_rhi_bindings_pipeline (profiler w) + 1))
                  (profiler w))) /\
    m_state (cmd w') = Recording /\
    m_flushed (cmd w') = false /\
    m_render_pass_active (cmd w') = true /\
    m_pipeline_active (cmd w') = true /\
    m_pipeline_state (cmd w') = Some ps /\
    cache w' = cache w.
Proof.
  intros Hst Hfl Hrp Hpa Hps Hp Hcompute Hpass Hfb Hsw Hlayout Hres Hset.
  unfold draw_with, is_recording.
  rewrite (decide_state_true Recording w Hst). cbn [SP_ASSERT mbind Result_bind].
  unfold OnDraw, is_recording.
  rewrite Hfl, (decide_state_true Recording w Hst), Hrp, Hps.
  cbn [SP_ASSERT deref mbind Result_bind]. rewrite Hcompute.
  rewrite (Deferred_BeginRenderPass_eq ps true w Hst Hps Hp Hpass Hfb Hsw).
  cbn [mbind Result_bind].
  set (w1 := upd_cmd (set_m_render_pass_active true) _).
  assert (Hst1 : m_state (cmd w1) = Recording) by exact Hst.
  assert (Hpa1 : m_pipeline_active (cmd w1) = false) by exact Hpa.
  assert (Hp1 : m_pipeline (cmd w1) = Some (mkPipeline (Some ps) true)) by exact Hp.
  assert (Hps1 : m_pipeline_state (cmd w1) = Some ps) by exact Hps.
  assert (Hfl1 : m_flushed (cmd w1) = false) by exact Hfl.
  assert (Hrp1 : m_render_pass_active (cmd w1) = true) by reflexivity.
  assert (Hc1 : cache w1 = cache w) by reflexivity.
  assert (Hpr1 : profiler w1 = profiler w) by reflexivity.
  assert (Hrec1 : recorded (cmd w1) = recorded (cmd w) ++
            [vkCmdBeginRenderPass (begin_clear_values ps) (GetWidth ps) (GetHeight ps)])
    by reflexivity.
  clearbody w1.
  rewrite Hpa1. unfold Deferred_BindPipeline. rewrite Hp1.
  cbn [deref mbind Result_bind GetPipeline]. rewrite Hps1.
  cbn [deref mbind Result_bind negb]. rewrite Hcompute.
  set (w2 := upd_cmd (set_m_pipeline_active true) _).
  assert (Hst2 : m_state (cmd w2) = Recording) by exact Hst1.
  assert (Hps2 : m_pipeline_state (cmd w2) = Some ps) by exact Hps1.
  assert (Hfl2 : m_flushed (cmd w2) = false) by exact Hfl1.
  assert (Hrp2 : m_render_pass_active (cmd w2) = true) by exact Hrp1.
  assert (Hpa2 : m_pipeline_active (cmd w2) = true) by reflexivity.
  assert (Hc2 : cache w2 = cache w1) by reflexivity.
  assert (Hpr2 : profiler w2 = set_m_rhi_bindings_pipeline
                                 (u32 (m_rhi_bindings_pipeline (profiler w1) + 1))
                                 (profiler w1)) by reflexivity.
  assert (Hrec2 : recorded (cmd w2) = recorded (cmd w1) ++ [vkCmdBindPipeline false])
    by reflexivity.
  clearbody w2.
  rewrite (Deferred_BindDescriptorSet_eq d ps w2 Hst2 Hps2) by congruence.
  cbn [mbind Result_bind negb]. rewrite Hcompute.
  eexists. split; [reflexivity|].
  split.
  { cbn [recorded cmd upd_profiler set_profiler record_cmd upd_cmd set_cmd set_recorded].
    rewrite Hrec2, Hrec1, <- !app_assoc. reflexivity. }
  split.
  { cbn [profiler cmd upd_profiler set_profiler record_cmd upd_cmd set_cmd].
    rewrite Hpr2, Hpr1. reflexivity. }
  split; [exact Hst2|]. split; [exact Hfl2|].
  split; [exact Hrp2|]. split; [exact Hpa2|]. split; [exact Hps2|].
  cbn [cache upd_profiler set_profiler record_cmd upd_cmd set_cmd]. congruence.
Qed.

Lemma draw_with_later (d : Driver) (c : VkCmd) (count : Profiler -> Profiler)
  (ps : RHI_PipelineState) (w : World) :
  m_state (cmd w) = Recording ->
  m_flushed (cmd w) = false ->
  m_render_pass_active (cmd w) = true ->
  m_pipeline_active (cmd w) = true ->
  m_pipeline_state (cmd w) = Some ps ->
  GetCurrentDescriptorSetLayout (cache w) = true ->
  GetDescriptorSet_result d = true ->
  GetDescriptorSet_set d = true ->
  exists w',
    draw_with d c count w = Ok (true, w') /\
    recorded (cmd w') = recorded (cmd w) ++ [vkCmdBindDescriptorSets (IsCompute ps); c] /\
    profiler w' =
      count (set_m_rhi_bindings_descriptor_set
               (u32 (m_rhi_bindings_descriptor_set (profiler w) + 1)) (profiler w)).
Proof.
  intros Hst Hfl Hrp Hpa Hps Hlayout Hres Hset.
  unfold draw_with, is_recording.
  rewrite (decide_state_true Recording w Hst). cbn [SP_ASSERT mbind Result_bind].
  unfold OnDraw, is_recording.
  rewrite Hfl, (decide_state_true Recording w Hst), Hrp.
  cbn [SP_ASSERT mbind Result_bind negb]. rewrite Hpa.
  cbn [SP_ASSERT mbind Result_bind negb].
  rewrite (Deferred_BindDescriptorSet_eq d ps w Hst Hps Hlayout Hres Hset).
  cbn [mbind Result_bind negb].
  eexists. split; [reflexivity|].
  split; [|reflexivity].
  cbn [recorded cmd upd_profiler set_profiler record_cmd upd_cmd set_cmd set_recorded].
  rewrite <- app_assoc. reflexivity.
Qed.

(** ** Ending a pass that drew, clears inside a pass, buffer bindings *)


(** [ClearRenderTarget] inside an active render pass only logs an error:
    no transition and no clear are recorded and the texture keeps its
    layouts. *)
Theorem ClearRenderTarget_inside_render_pass (tex : nat) (t : RHI_Texture)
  (color_index depth_stencil_index : Z) (storage : bool) (color : Clear Vector4)
  (depth : Clear float) (stencil : Clear Z) (w : World) :
  m_state (cmd w) = Recording ->
  textures w !! tex = Some t ->
  CanBeCleared t = true ->
  m_render_pass_active (cmd w) = true ->
  exists w',
    ClearRenderTarget (Some tex) color_index depth_stencil_index storage color depth stencil w
    = Ok w' /\
    cmd w' = cmd w /\ textures w' = textures w /\ profiler w' = profiler w /\
    log w' = log w ++ [LOG_ERROR "Must only be called outside of a render pass instance"].
Proof.
  intros Hst Htex Hclear Hrp.
  unfold ClearRenderTarget, is_recording, lookup_texture.
  rewrite (decide_state_true Recording w Hst).
  cbn [SP_ASSERT deref mbind Result_bind]. rewrite Htex.
  cbn [SP_ASSERT deref mbind Result_bind]. rewrite Hclear.
  cbn [SP_ASSERT mbind Result_bind]. rewrite Hrp.
  eexists. split; [reflexivity|]. repeat split.
Qed.

(** Binding the vertex buffer, or the index buffer, that is already bound
    at the same offset records nothing: of two equal calls in a row the
    second leaves the world as the first left it. *)
Theorem buffer_binding_is_idempotent (id offset : Z) (is_16bit : bool) (w : World) :
  m_state (cmd w) = Recording ->
  (exists w1,
      SetBufferVertex (Some id) offset w = Ok w1 /\
      SetBufferVertex (Some id) offset w1 = Ok w1 /\
      m_vertex_buffer_id (cmd w1) = id /\ m_vertex_buffer_offset (cmd w1) = offset) /\
  (exists w1,
      SetBufferIndex (Some id) is_16bit offset w = Ok w1 /\
      SetBufferIndex (Some id) is_16bit offset w1 = Ok w1 /\
      m_index_buffer_id (cmd w1) = id /\ m_index_buffer_offset (cmd w1) = offset).
Proof.
  intros Hst. split.
  - unfold SetBufferVertex, is_recording.
    rewrite (decide_state_true Recording w Hst). cbn [SP_ASSERT deref mbind Result_bind].
    destruct ((m_vertex_buffer_id (cmd w) =? id) && (m_vertex_buffer_offset (cmd w) =? offset))
      eqn:Hsame.
    + exists w. rewrite (decide_state_true Recording w Hst), Hsame.
      apply andb_true_iff in Hsame as [H1 H2].
      apply Z.eqb_eq in H1. apply Z.eqb_eq in H2. repeat split; assumption.
    + eexists. split; [reflexivity|].
      set (w1 := upd_cmd _ _).
      assert (Hst1 : m_state (cmd w1) = Recording) by exact Hst.
      assert (Hid : m_vertex_buffer_id (cmd w1) = id) by reflexivity.
      assert (Hoff : m_vertex_buffer_offset (cmd w1) = offset) by reflexivity.
      clearbody w1.
      rewrite (decide_state_true Recording w1 Hst1), Hid, Hoff, !Z.eqb_refl.
      repeat split.
  - unfold SetBufferIndex, is_recording.
    rewrite (decide_state_true Recording w Hst). cbn [SP_ASSERT deref mbind Result_bind].
    destruct ((m_index_buffer_id (cmd w) =? id) && (m_index_buffer_offset (cmd w) =? offset))
      eqn:Hsame.
    + exists w. rewrite (decide_state_true Recording w Hst), Hsame.
      apply andb_true_iff in Hsame as [H1 H2].
      apply Z.eqb_eq in H1. apply Z.eqb_eq in H2. repeat split; assumption.
    + eexists. split; [reflexivity|].
      set (w1 := upd_cmd _ _).
      assert (Hst1 : m_state (cmd w1) = Recording) by exact Hst.
      assert (Hid : m_index_buffer_id (cmd w1) = id) by reflexivity.
      assert (Hoff : m_index_buffer_offset (cmd w1) = offset) by reflexivity.
      clearbody w1.
      rewrite (decide_state_true Recording w1 Hst1), Hid, Hoff, !Z.eqb_refl.
      repeat split.
Qed.
(** ** Bindings *)

(** Outside a render pass no descriptor-set layout is current: a constant
    buffer, a sampler or a structured buffer set then is not bound; the
    call logs a warning and leaves the bindings and the command buffer as
    they were. *)
Theorem bindings_without_layout_bind_nothing (slot scope : Z) (object : nat) (w : World) :
  m_state (cmd w) = Recording ->
  GetCurrentDescriptorSetLayout (cache w) = false ->
  (exists w', SetConstantBuffer slot scope (Some object) w = Ok w' /\
              cache w' = cache w /\ cmd w' = cmd w /\
              exists warning, log w' = log w ++ [LOG_WARNING warning]) /\
  (exists w', SetSampler slot (Some object) w = Ok w' /\
              cache w' = cache w /\ cmd w' = cmd w /\
              exists warning, log w' = log w ++ [LOG_WARNING warning]) /\
  (exists w', SetStructuredBuffer slot (Some object) w = Ok w' /\
              cache w' = cache w /\ cmd w' = cmd w /\
              exists warning, log w' = log w ++ [LOG_WARNING warning]).
Proof.
  intros Hst Hlayout.
  unfold SetConstantBuffer, SetSampler, SetStructuredBuffer, is_recording.
  rewrite (decide_state_true Recording w Hst), Hlayout.
  cbn [SP_ASSERT deref mbind Result_bind negb].
  repeat split; eexists; (split; [reflexivity|]); repeat split; eexists; reflexivity.
Qed.

(** ** Buckets of the renderer *)

Lemma sort_insert_Permutation {A : Type} (less : A -> A -> bool) (x : A) (l : list A) :
  Permutation (sort_insert less x l) (x :: l).
Proof.
  induction l as [|y rest IH]; simpl; [reflexivity|].
  destruct (less x y); [reflexivity|].
  rewrite IH. apply perm_swap.
Qed.

Lemma std_sort_Permutation {A : Type} (less : A -> A -> bool) (l : list A) :
  Permutation (std_sort less l) l.
Proof.
  unfold std_sort. induction l as [|x rest IH]; simpl; [reflexivity|].
  rewrite sort_insert_Permutation, IH. reflexivity.
Qed.

Lemma sort_insert_Sorted {A : Type} (key : A -> Z) (x : A) (l : list A) :
  Sorted (fun a b => key a <= key b) l ->
  Sorted (fun a b => key a <= key b) (sort_insert (fun a b => key a <? key b) x l).
Proof.
  induction 1 as [|y rest Hrest IH Hhd]; simpl.
  - repeat constructor.
  - destruct (Z.ltb_spec (key x) (key y)) as [Hlt|Hge].
    + constructor; [constructor; assumption|]. constructor. lia.
    + constructor; [exact IH|].
      destruct rest as [|z rest']; simpl.
      * constructor. exact Hge.
      * destruct (Z.ltb_spec (key x) (key z)); constructor; [exact Hge|].
        inversion Hhd; assumption.
Qed.

Lemma std_sort_Sorted {A : Type} (key : A -> Z) (l : list A) :
  Sorted (fun a b => key a <= key b) (std_sort (fun a b => key a <? key b) l).
Proof.
  unfold std_sort. induction l as [|x rest IH]; simpl; [constructor|].
  apply sort_insert_Sorted. exact IH.
Qed.

Lemma Sorted_depth_sorted (M : MathLib) (camera : Camera) (bucket : list Entity) :
  Sorted (fun a b => comparison_op M camera a <= comparison_op M camera b) bucket ->
  depth_sorted M camera bucket.
Proof.
  induction 1 as [|x rest Hrest IH Hhd]; intros i a b Ha Hb.
  - discriminate.
  - destruct i as [|i]; simpl in Ha, Hb.
    + inversion Ha; subst a. destruct rest as [|y rest']; [discriminate|].
      simpl in Hb. inversion Hb; subst b. inversion Hhd; assumption.
    + exact (IH i a b Ha Hb).
Qed.

(** With a camera, a bucket of three or more renderables comes out of
    [RenderablesSort] ordered front to back, and holds the same entities
    as before. *)
Theorem RenderablesSort_orders_larger_buckets (M : MathLib) (camera : Camera)
  (renderables : list Entity) :
  (2 < length renderables)%nat ->
  depth_sorted M camera (RenderablesSort M (Some camera) renderables) /\
  Permutation (RenderablesSort M (Some camera) renderables) renderables.
Proof.
  intros Hlen. unfold RenderablesSort.
  destruct (Z.leb_spec (Z.of_nat (length renderables)) 2) as [|_]; [lia|].
  split.
  - apply Sorted_depth_sorted. apply (std_sort_Sorted (comparison_op M camera)).
  - apply std_sort_Permutation.
Qed.

Lemma RenderablesSort_Permutation (M : MathLib) (m_camera : option Camera)
  (renderables : list Entity) :
  Permutation (RenderablesSort M m_camera renderables) renderables.
Proof.
  unfold RenderablesSort. destruct m_camera as [camera|]; [|reflexivity].
  destruct (Z.of_nat (length renderables) <=? 2); [reflexivity|].
  apply std_sort_Permutation.
Qed.

Lemma acquire_fold (entities : list (option Entity)) :
  forall (acc : Entities) (cam : option Camera),
    fold_left acquire_entity entities (acc, cam) =
    (mkEntities
       (GeometryOpaque acc
        ++ List.filter (fun e => has_renderable e && negb (is_transparent e))
             (active_entities entities))
       (GeometryTransparent acc ++ List.filter is_transparent (active_entities entities))
       (Light_ acc ++ List.filter has_light (active_entities entities))
       (Camera_ acc ++ List.filter has_camera (active_entities entities)),
     match last (omap GetCamera (active_entities entities)) with
     | Some c => Some c
     | None => cam
     end).
Proof.
  unfold active_entities.
  induction entities as [|entity rest IH]; intros acc cam.
  - simpl. rewrite !app_nil_r. destruct acc; reflexivity.
  - cbn [fold_left]. destruct entity as [e|].
    2:{ change (omap id (None :: rest)) with (omap id rest). cbn [acquire_entity].
        rewrite IH. reflexivity. }
    change (omap id (Some e :: rest)) with (e :: omap id rest).
    cbn [List.filter acquire_entity].
    destruct (IsActive e) eqn:Hactive; cbn [negb].
    2:{ rewrite IH. reflexivity. }
    unfold has_renderable, is_transparent, has_light, has_camera.
    change (omap GetCamera (e :: ?l)) with
      (match GetCamera e with Some c => c :: omap GetCamera l | None => omap GetCamera l end).
    cbn [List.filter].
    destruct (GetRenderable e) as [renderable|] eqn:Hr;
      destruct (GetLight e) as [light|] eqn:Hl;
      destruct (GetCamera e) as [camera|] eqn:Hc;
      try (destruct (GetMaterial renderable) as [material|] eqn:Hm;
           [destruct (GetColorAlbedo_w material <? 1000) eqn:Ht|]);
      cbn [andb negb List.filter];
      rewrite ?Hr, ?Hl, ?Hc, ?Hm, ?Ht; cbn [andb negb List.filter];
      rewrite IH;
      cbn [GeometryOpaque GeometryTransparent Light_ Camera_];
      rewrite <- ?app_assoc; cbn [app];
      rewrite ?last_cons;
      try (destruct (last (omap GetCamera (List.filter IsActive (omap id rest)))));
      reflexivity.
Qed.

(** What [OnRenderablesAcquire] collects: the opaque bucket holds exactly
    the active entities with a renderable that is not transparent, the
    transparent bucket exactly those with a transparent one (as
    rearrangements, since the buckets are sorted); lights and cameras are
    the active entities with such a component, in the order of the world;
    the camera of the renderer is the one of the last active camera
    entity.  Entities that are null or inactive are in no bucket. *)
Theorem OnRenderablesAcquire_buckets (M : MathLib) (entities : list (option Entity)) :
  Permutation (GeometryOpaque (OnRenderablesAcquire M entities).1)
    (List.filter (fun e => has_renderable e && negb (is_transparent e))
       (active_entities entities)) /\
  Permutation (GeometryTransparent (OnRenderablesAcquire M entities).1)
    (List.filter is_transparent (active_entities entities)) /\
  Light_ (OnRenderablesAcquire M entities).1 = List.filter has_light (active_entities entities) /\
  Camera_ (OnRenderablesAcquire M entities).1
  = List.filter has_camera (active_entities entities) /\
  (OnRenderablesAcquire M entities).2 = last (omap GetCamera (active_entities entities)).
Proof.
  unfold OnRenderablesAcquire. rewrite acquire_fold.
  cbn [fst snd GeometryOpaque GeometryTransparent Light_ Camera_ Entities_clear app].
  split; [apply RenderablesSort_Permutation|].
  split; [apply RenderablesSort_Permutation|].
  split; [reflexivity|]. split; [reflexivity|].
  destruct (last _); reflexivity.
Qed.
(** ** Renderer::Flush *)

Lemma Flush_no_restore_recording (d : Driver) (w : World) :
  m_state (cmd w) = Recording ->
  vkEndCommandBuffer_ok d = true ->
  QueueSubmit_ok d = true ->
  Fence_Wait_ok d = true ->
  (swapchain_of_pipeline w = true -> PresentEnabled w = true ->
   m_processed_semaphore (cmd w) = Semaphore_Idle) ->
  exists w', Flush d false w = Ok (true, w').
Proof.
  intros Hst Hend Hsubmit Hfence Hsem.
  unfold Flush.
  set (w0 := upd_cmd (fun c => set_flushes (S (flushes c)) c) w).
  assert (Hst0 : m_state (cmd w0) = Recording) by exact Hst.
  assert (Hsem0 : swapchain_of_pipeline w0 = true -> PresentEnabled w0 = true ->
                  m_processed_semaphore (cmd w0) = Semaphore_Idle) by exact Hsem.
  clearbody w0.
  rewrite (decide_state_false Recording Idle w0 Hst0) by discriminate.
  unfold is_recording. rewrite (decide_state_true Recording w0 Hst0).
  rewrite (End_recording d w0 Hst0 Hend).
  cbn [mbind Result_bind negb].
  set (w1 := set_state Ended w0).
  assert (Hst1 : m_state (cmd w1) = Ended) by reflexivity.
  assert (Hsem1 : swapchain_of_pipeline w1 = true -> PresentEnabled w1 = true ->
                  m_processed_semaphore (cmd w1) = Semaphore_Idle) by exact Hsem0.
  clearbody w1.
  rewrite (decide_state_true Ended w1 Hst1).
  destruct (Submit_ended d None w1 Hst1 Hsubmit Hsem1) as (w2 & Hs & Hst2 & _).
  rewrite Hs. cbn [mbind Result_bind negb].
  rewrite (Wait_submitted d w2 Hst2 Hfence).
  cbn [mbind Result_bind andb].
  eexists. reflexivity.
Qed.

Lemma Renderer_Flush_start (d : Driver) (r : Renderer) :
  let r1 := if negb (m_is_rendering_allowed r)
            then
              let r := renderer_log (LOG_INFO "Renderer thread is flushing...") r in
              if negb (Queue_WaitAll_ok d) then renderer_log (LOG_ERROR "Failed to flush GPU") r
              else r
            else r in
  renderer_settings r1 = renderer_settings r /\
  m_cmd_lists r1 = m_cmd_lists r.
Proof.
  destruct (m_is_rendering_allowed r) eqn:Ea; cbn [negb]; [split; reflexivity|].
  destruct (Queue_WaitAll_ok d); split; reflexivity.
Qed.

Lemma Renderer_Flush_end (b : bool) (e : LogEntry) (r2 : Renderer) :
  let r3 := set_m_flush_requested false (if b then renderer_log e r2 else r2) in
  m_flush_requested r3 = false /\
  renderer_settings r3 = renderer_settings r2 /\
  m_cmd_lists r3 = m_cmd_lists r2.
Proof. destruct b; repeat split. Qed.

Lemma Renderer_Flush_settings (d : Driver) (r r' : Renderer) :
  Renderer_Flush d r = Ok r' ->
  m_flush_requested r' = false /\
  renderer_settings r' = renderer_settings r /\
  length (m_cmd_lists r') = length (m_cmd_lists r).
Proof.
  unfold Renderer_Flush. intros H.
  pose proof (Renderer_Flush_start d r) as H1. cbv zeta in H1.
  set (r1 := if negb (m_is_rendering_allowed r) then _ else r) in H, H1.
  clearbody r1. destruct H1 as (Hs & Hl).
  bind_in H as r2 E. inversion H; subst r'; clear H.
  assert (H2 : renderer_settings r2 = renderer_settings r1 /\
               length (m_cmd_lists r2) = length (m_cmd_lists r1)).
  { destruct (m_cmd_current r1) as [i|] eqn:Hcur.
    - bind_in E as y E'. destruct y as [flushed r3].
      apply on_cmd_inv in E' as (j & cl & w & Hj & Hcl & _ & ->).
      inversion E; subst r2; clear E.
      destruct (Renderer_Flush_end (negb flushed) (LOG_ERROR "Failed to flush command list")
                  (absorb j w r1)) as (_ & Hs3 & Hl3).
      cbv zeta in Hs3, Hl3.
      set (r3 := if negb flushed then _ else absorb j w r1) in *.
      clearbody r3.
      assert (Hs3' : renderer_settings r3 = renderer_settings (absorb j w r1)) by exact Hs3.
      assert (Hl3' : m_cmd_lists r3 = m_cmd_lists (absorb j w r1)) by exact Hl3.
      rewrite Hs3', Hl3', absorb_cmd_lists, length_insert.
      split; reflexivity.
    - inversion E; subst r2. split; reflexivity. }
  destruct H2 as (Hs2 & Hl2).
  destruct (Renderer_Flush_end false (LOG_INFO "Flushed") r2) as (Hq & Hs4 & Hl4).
  cbv zeta iota in Hq, Hs4, Hl4.
  rewrite Hq, Hs4, Hl4.
  repeat split; congruence.
Qed.

(** What a flush on the rendering thread leaves: the request is served
    and the renderer may go on as before: rendering permission, swap chain,
    frame counter, current command list and the set of command lists are
    the same. *)
Theorem Renderer_Flush_serves_request (d : Driver) (r r' : Renderer) :
  Renderer_Flush d r = Ok r' ->
  m_flush_requested r' = false /\
  m_is_rendering_allowed r' = m_is_rendering_allowed r /\
  m_swap_chain r' = m_swap_chain r /\
  m_frame_num r' = m_frame_num r /\
  m_cmd_current r' = m_cmd_current r /\
  length (m_cmd_lists r') = length (m_cmd_lists r).
Proof.
  intros H. apply Renderer_Flush_settings in H as (Hq & Hs & Hl).
  unfold renderer_settings in Hs. injection Hs as Ha Hsc Hf Hc _ _ _ _ _ _.
  repeat split; assumption.
Qed.

(** A flush on the rendering thread while the current command list is
    recording ends, submits and waits for it: the list is left idle and
    marked as flushed, not recording again. *)
Theorem Renderer_Flush_idles_current_list (d : Driver) (r : Renderer) (i : nat)
  (cl : RHI_CommandList) :
  m_cmd_current r = Some i ->
  m_cmd_lists r !! i = Some cl ->
  m_state cl = Recording ->
  vkEndCommandBuffer_ok d = true ->
  QueueSubmit_ok d = true ->
  Fence_Wait_ok d = true ->
  (swapchain_of_pipeline (world_of r cl) = true -> m_swap_chain r <> None ->
   m_processed_semaphore cl = Semaphore_Idle) ->
  exists (r' : Renderer) (cl' : RHI_CommandList),
    Renderer_Flush d r = Ok r' /\
    m_cmd_lists r' !! i = Some cl' /\
    m_state cl' = Idle /\
    m_flushed cl' = true /\
    m_flush_requested r' = false.
Proof.
  intros Hcur Hcl Hst Hend Hsubmit Hfence Hsem.
  unfold Renderer_Flush.
  set (r1 := if negb (m_is_rendering_allowed r) then _ else r).
  assert (H1 : m_cmd_current r1 = Some i /\ m_cmd_lists r1 = m_cmd_lists r /\
               world_of r1 cl = set_log (m_log r1) (world_of r cl)).
  { subst r1. destruct (m_is_rendering_allowed r); cbn [negb].
    - split; [exact Hcur|]. split; reflexivity.
    - destruct (Queue_WaitAll_ok d); (split; [exact Hcur|]; split; reflexivity). }
  clearbody r1. destruct H1 as (Hcur1 & Hl1 & Hw1).
  rewrite Hcur1. cbn [mbind Result_bind].
  assert (Hcl1 : m_cmd_lists r1 !! i = Some cl) by (rewrite Hl1; exact Hcl).
  destruct (Flush_no_restore_recording d (world_of r1 cl)) as (w' & Hflush); try assumption.
  { rewrite Hw1. intros Hsw Hpe. apply Hsem; [exact Hsw|].
    unfold world_of in Hpe. cbn [PresentEnabled set_log] in Hpe.
    destruct (m_swap_chain r); [discriminate | discriminate]. }
  rewrite (on_cmd_Ok i _ r1 cl true w' Hcl1 Hflush).
  cbn [mbind Result_bind negb].
  destruct (Flush_inv d false (world_of r1 cl) w' Hflush) as (Hfl & [Hidle|(_ & Habs & _)]).
  { change (m_state cl <> Idle). rewrite Hst. discriminate. }
  - eexists; exists (cmd w'). split; [reflexivity|].
    split.
    + change (<[i := cmd w']> (m_cmd_lists r1) !! i = Some (cmd w')).
      apply list_lookup_insert_eq. apply lookup_lt_Some in Hcl1. exact Hcl1.
    + repeat split; assumption.
  - discriminate.
Qed.
(** ** Selecting the command list of a tick *)

Lemma acquire_next (r : Renderer) (n : Z) :
  Z.of_nat (length (m_cmd_lists r)) = n ->
  0 < n < 2 ^ 32 ->
  exists r',
    OnTick_acquire_command_list r = Ok r' /\
    m_cmd_index r' = u32 (m_cmd_index r + 1) mod n /\
    m_cmd_current r' = Some (Z.to_nat (m_cmd_index r')) /\
    m_cmd_lists r' = m_cmd_lists r /\
    (m_cmd_index r' = 0 -> dynamic_offsets r' = (0, 0, 0, 0)) /\
    (m_cmd_index r' <> 0 -> dynamic_offsets r' = dynamic_offsets r).
Proof.
  intros Hn Hrange. unfold OnTick_acquire_command_list.
  rewrite Hn, (u32_small n) by lia.
  destruct (Z.eqb_spec n 0) as [|_]; [lia|].
  cbn [m_cmd_index set_m_cmd_index set_m_cmd_current].
  set (i := u32 (m_cmd_index r + 1) mod n).
  assert (Hi : 0 <= i < n) by (apply Z.mod_pos_bound; lia).
  destruct (Z.ltb_spec i n) as [_|]; [|lia].
  destruct (Z.eqb_spec i 0) as [H0|H0].
  - eexists. split; [reflexivity|]. repeat split; try reflexivity. contradiction.
  - eexists. split; [reflexivity|]. repeat split; try reflexivity. contradiction.
Qed.

Lemma acquire_from (k : nat) :
  forall (r : Renderer) (n j : Z),
    Z.of_nat (length (m_cmd_lists r)) = n ->
    0 < n < 2 ^ 32 ->
    m_cmd_index r = j -> 0 <= j < n ->
    exists r',
      acquire_command_lists k r = Ok r' /\
      m_cmd_index r' = (j + Z.of_nat k) mod n /\
      m_cmd_lists r' = m_cmd_lists r /\
      (k <> 0%nat -> m_cmd_current r' = Some (Z.to_nat (m_cmd_index r'))) /\
      (k <> 0%nat -> m_cmd_index r' = 0 -> dynamic_offsets r' = (0, 0, 0, 0)).
Proof.
  induction k as [|k IH]; intros r n j Hn Hrange Hj Hjn.
  - exists r. split; [reflexivity|].
    split; [rewrite Z.add_0_r, Z.mod_small by lia; exact Hj|].
    split; [reflexivity|]. split; intros H; contradiction.
  - cbn [acquire_command_lists].
    destruct (acquire_next r n Hn Hrange) as (r1 & H1 & Hi1 & Hc1 & Hl1 & Hz1 & _).
    rewrite H1. cbn [mbind Result_bind].
    rewrite Hj, (u32_small (j + 1)) in Hi1 by lia.
    destruct (IH r1 n ((j + 1) mod n)) as (r' & H' & Hi' & Hl' & Hc' & Hz'); try assumption.
    + rewrite Hl1. exact Hn.
    + apply Z.mod_pos_bound. lia.
    + exists r'. split; [exact H'|].
      split.
      { rewrite Hi', Zplus_mod_idemp_l. f_equal. lia. }
      split; [congruence|].
      destruct k as [|k'].
      * cbn [acquire_command_lists] in H'. inversion H'; subst r'.
        split; intros _; assumption.
      * split; [intros _; apply Hc'; discriminate | intros _; apply Hz'; discriminate].
Qed.

(** A fresh renderer starts with the command-list index at the largest
    32-bit value; its ticks then take the command lists in turn: tick
    [k] (from 0) uses list [k mod n], the current list is that one, and the
    four dynamic offset indices are 0 whenever the first list comes round. *)
Theorem command_lists_round_robin (r : Renderer) (n : Z) (k : nat) :
  Z.of_nat (length (m_cmd_lists r)) = n ->
  0 < n < 2 ^ 32 ->
  m_cmd_index r = 2 ^ 32 - 1 ->
  exists r',
    acquire_command_lists (S k) r = Ok r' /\
    m_cmd_index r' = Z.of_nat k mod n /\
    m_cmd_current r' = Some (Z.to_nat (Z.of_nat k mod n)) /\
    (Z.of_nat k mod n = 0 -> dynamic_offsets r' = (0, 0, 0, 0)).
Proof.
  intros Hn Hrange Hidx. cbn [acquire_command_lists].
  destruct (acquire_next r n Hn Hrange) as (r1 & H1 & Hi1 & Hc1 & Hl1 & Hz1 & _).
  rewrite H1. cbn [mbind Result_bind].
  assert (H0 : m_cmd_index r1 = 0).
  { rewrite Hi1, Hidx. replace (2 ^ 32 - 1 + 1) with (2 ^ 32) by lia.
    unfold u32. rewrite Z.mod_same by lia. apply Z.mod_0_l. lia. }
  destruct (acquire_from k r1 n 0) as (r' & H' & Hi' & Hl' & Hc' & Hz'); try lia.
  { rewrite Hl1; exact Hn. }
  exists r'. split; [exact H'|].
  rewrite Z.add_0_l in Hi'. split; [exact Hi'|].
  destruct k as [|k'].
  - cbn [acquire_command_lists] in H'. inversion H'; subst r'.
    rewrite Hi' in Hc1. split; [exact Hc1 | intros _; apply Hz1; exact H0].
  - split; [rewrite <- Hi'; apply Hc'; discriminate|].
    intros Hz. apply Hz'; [discriminate | congruence].
Qed.
(** ** Dynamic buffers: the paths that upload nothing or do not grow *)

(** When the buffer cannot be mapped the update fails: nothing is copied
    and the previous value is kept, so the next update will try again, but
    the offset index has already advanced; an error is logged and the
    buffer is not rebound. *)
Theorem update_fails_when_map_fails {T : Type} (equal : T -> T -> bool) (d : Driver)
  (slot scope : Z) (handle : option nat) (w : World) (buffer_gpu : RHI_ConstantBuffer T)
  (buffer_cpu buffer_cpu_previous : T) (offset_index : Z) :
  equal buffer_cpu buffer_cpu_previous = false ->
  ConstantBuffer_Map_ok d = false ->
  u32 (offset_index + 1) < GetOffsetCount buffer_gpu ->
  exists u,
    update_and_rebind equal d slot scope handle w buffer_gpu buffer_cpu buffer_cpu_previous
      offset_index = Ok u /\
    upd_result u = false /\
    upd_buffer_cpu_previous u = buffer_cpu_previous /\
    upd_offset_index u = u32 (offset_index + 1) /\
    m_mapped (upd_buffer_gpu u) = m_mapped buffer_gpu /\
    cache (upd_world u) = cache w /\
    cmd (upd_world u) = cmd w /\
    log (upd_world u) = log w ++ [LOG_ERROR "Failed to map buffer"].
Proof.
  intros Hchanged Hmap Hfits.
  unfold update_and_rebind, update_dynamic_buffer.
  rewrite Hchanged, Hmap.
  destruct (Z.leb_spec (GetOffsetCount buffer_gpu) (u32 (offset_index + 1))) as [|_]; [lia|].
  rewrite andb_false_r. cbn [mbind Result_bind negb upd_result].
  eexists. split; [reflexivity|].
  cbn [upd_result upd_buffer_cpu_previous upd_offset_index upd_buffer_gpu upd_world].
  destruct (IsDynamic buffer_gpu); repeat split.
Qed.

(** A buffer that is not dynamic is never grown and never flushes the
    command list: whatever the offset index, a changed struct is written
    at offset 0. *)
Theorem static_buffer_is_written_in_place {T : Type} (equal : T -> T -> bool) (d : Driver)
  (w : World) (buffer_gpu : RHI_ConstantBuffer T) (buffer_cpu buffer_cpu_previous : T)
  (offset_index : Z) :
  IsDynamic buffer_gpu = false ->
  equal buffer_cpu buffer_cpu_previous = false ->
  ConstantBuffer_Map_ok d = true ->
  exists u,
    update_dynamic_buffer equal d w buffer_gpu buffer_cpu buffer_cpu_previous offset_index
    = Ok u /\
    upd_result u = ConstantBuffer_Unmap_ok d /\
    upd_world u = w /\
    m_mapped (upd_buffer_gpu u) = <[0 := buffer_cpu]> (m_mapped buffer_gpu) /\
    GetOffsetCount (upd_buffer_gpu u) = GetOffsetCount buffer_gpu /\
    upd_buffer_cpu_previous u = buffer_cpu.
Proof.
  intros Hstatic Hchanged Hmap.
  unfold update_dynamic_buffer.
  rewrite Hchanged, Hstatic, Hmap. cbn [andb mbind Result_bind negb].
  rewrite ?Hstatic.
  eexists. split; [reflexivity|].
  cbn [upd_result upd_buffer_cpu_previous upd_offset_index upd_buffer_gpu upd_world].
  rewrite ?Hstatic. repeat split.
Qed.

(** When the buffer has to grow and cannot be re-created, the update fails
    after the one flush: the buffer keeps its capacity and its content,
    the previous value is kept and nothing is rebound. *)
Theorem update_fails_when_buffer_cannot_grow {T : Type} (equal : T -> T -> bool)
  (d : Driver) (slot scope : Z) (handle : option nat) (w : World)
  (buffer_gpu : RHI_ConstantBuffer T) (buffer_cpu buffer_cpu_previous : T)
  (offset_index : Z) :
  IsDynamic buffer_gpu = true ->
  equal buffer_cpu buffer_cpu_previous = false ->
  GetOffsetCount buffer_gpu <= u32 (offset_index + 1) ->
  ConstantBuffer_Create_ok d = false ->
  m_state (cmd w) = Recording ->
  m_resource (cmd w) = true ->
  vkEndCommandBuffer_ok d = true ->
  QueueSubmit_ok d = true ->
  Fence_Wait_ok d = true ->
  vkBeginCommandBuffer_ok d = true ->
  (swapchain_of_pipeline w = true -> PresentEnabled w = true ->
   m_processed_semaphore (cmd w) = Semaphore_Idle) ->
  exists u,
    update_and_rebind equal d slot scope handle w buffer_gpu buffer_cpu buffer_cpu_previous
      offset_index = Ok u /\
    upd_result u = false /\
    upd_buffer_gpu u = buffer_gpu /\
    upd_buffer_cpu_previous u = buffer_cpu_previous /\
    flushed_once w (upd_world u) /\
    cache (upd_world u) = cache w /\
    log (upd_world u) = log w ++ [LOG_ERROR "Failed to re-allocate buffer"].
Proof.
  intros Hdynamic Hchanged Hfull Hcreate Hst Hres Hend Hsubmit Hfence Hbegin Hsem.
  unfold update_and_rebind, update_dynamic_buffer.
  rewrite Hchanged, Hdynamic, Hcreate.
  destruct (Z.leb_spec (GetOffsetCount buffer_gpu) (u32 (offset_index + 1))) as [_|]; [|lia].
  cbn [andb].
  destruct (Flush_while_recording d w Hst Hres Hend Hsubmit Hfence Hbegin Hsem)
    as (w' & Hflush & Hfl & Hc & _ & Hl).
  rewrite Hflush. cbn [mbind Result_bind negb upd_result].
  eexists. split; [reflexivity|].
  cbn [upd_result upd_buffer_cpu_previous upd_offset_index upd_buffer_gpu upd_world].
  split; [reflexivity|]. split; [reflexivity|]. split; [reflexivity|].
  split; [exact Hfl|]. split; [exact Hc|].
  change (log w' ++ [LOG_ERROR "Failed to re-allocate buffer"]
          = log w ++ [LOG_ERROR "Failed to re-allocate buffer"]).
  rewrite Hl. reflexivity.
Qed.
(** ** The per-object transform *)

(** Setting the transform the uber block was last uploaded with uploads
    nothing: the offset index and the buffer stay, whatever the driver
    would answer; the buffer is only bound to its slot again. *)
Theorem repeated_transform_uploads_nothing (d : Driver) (i : nat) (cl : RHI_CommandList)
  (transform_ : Matrix) (r : Renderer) :
  m_cmd_lists r !! i = Some cl ->
  m_state cl = Recording ->
  GetCurrentDescriptorSetLayout (m_descriptor_set_layout_cache r) = true ->
  m_cb_uber_cpu_previous r = mkCbUber transform_ (uber_fields (m_cb_uber_cpu r)) ->
  exists r',
    SetGlobalShaderObjectTransform d (Some i) transform_ r = Ok r' /\
    m_cb_uber_offset_index r' = m_cb_uber_offset_index r /\
    m_cb_uber_buffer r' = m_cb_uber_buffer r /\
    m_cb_uber_cpu r' = m_cb_uber_cpu_previous r /\
    m_cb_uber_cpu_previous r' = m_cb_uber_cpu_previous r /\
    m_cmd_lists r' !! i = Some cl /\
    bound_constant_buffers (m_descriptor_set_layout_cache r')
      !! RendererBindings_Cb_uber (m_resources r)
    = Some (m_cb_uber_gpu (m_resources r)).
Proof.
  intros Hcl Hst Hlayout Hprev.
  unfold SetGlobalShaderObjectTransform.
  set (r0 := set_m_cb_uber_cpu _ r).
  assert (Hcl0 : m_cmd_lists r0 !! i = Some cl) by exact Hcl.
  assert (Hcpu0 : m_cb_uber_cpu r0 = m_cb_uber_cpu_previous r)
    by (rewrite Hprev; reflexivity).
  assert (Hprev0 : m_cb_uber_cpu_previous r0 = m_cb_uber_cpu_previous r) by reflexivity.
  assert (Hidx0 : m_cb_uber_offset_index r0 = m_cb_uber_offset_index r) by reflexivity.
  assert (Hbuf0 : m_cb_uber_buffer r0 = m_cb_uber_buffer r) by reflexivity.
  assert (Hres0 : m_resources r0 = m_resources r) by reflexivity.
  assert (Hw0 : world_of r0 cl = world_of r cl) by reflexivity.
  assert (Hlen : (i < length (m_cmd_lists r0))%nat) by (apply lookup_lt_Some in Hcl0; exact Hcl0).
  clearbody r0.
  unfold Update_Cb_Uber.
  rewrite bool_decide_eq_true_2 by discriminate.
  cbn [SP_ASSERT deref mbind Result_bind].
  rewrite Hcl0. cbn [deref mbind Result_bind].
  unfold update_and_rebind, update_dynamic_buffer.
  rewrite Hcpu0, Hprev0, bool_decide_eq_true_2 by reflexivity.
  cbn [mbind Result_bind negb upd_result upd_world upd_buffer_gpu upd_buffer_cpu_previous
         upd_offset_index].
  rewrite Hw0, SetConstantBuffer_bound by assumption.
  cbn [mbind Result_bind upd_result].
  eexists. split; [reflexivity|].
  unfold store_uber.
  cbn [upd_result upd_world upd_buffer_gpu upd_buffer_cpu_previous upd_offset_index].
  split; [exact Hidx0|]. split; [exact Hbuf0|].
  split; [exact Hcpu0|]. split; [reflexivity|].
  split.
  - change (<[i := cl]> (m_cmd_lists r0) !! i = Some cl).
    apply list_lookup_insert_eq. exact Hlen.
  - rewrite Hres0.
    change (<[RendererBindings_Cb_uber (m_resources r) := m_cb_uber_gpu (m_resources r)]>
              (bound_constant_buffers (m_descriptor_set_layout_cache r))
            !! RendererBindings_Cb_uber (m_resources r)
            = Some (m_cb_uber_gpu (m_resources r))).
    apply lookup_insert_eq.
Qed.
(** ** Options *)

Lemma Renderer_Option_bit_pow (o : Renderer_Option) :
  exists k, 0 <= k < 64 /\ Renderer_Option_bit o = 2 ^ k.
Proof. destruct o; [exists 0 | exists 1 | exists 2 | exists 3]; split; (lia || reflexivity). Qed.

Lemma GetOption_testbit (o : Renderer_Option) (k : Z) (r : Renderer) :
  0 <= k -> Renderer_Option_bit o = 2 ^ k ->
  GetOption o r = Z.testbit (m_options r) k.
Proof.
  intros Hk Hbit. unfold GetOption. rewrite Hbit.
  destruct (Z.testbit (m_options r) k) eqn:Ht.
  - apply negb_true_iff, Z.eqb_neq. intros H0.
    apply (f_equal (fun x => Z.testbit x k)) in H0.
    rewrite Z.land_spec, Ht, Z.pow2_bits_true, Z.bits_0 in H0 by exact Hk. discriminate.
  - apply negb_false_iff, Z.eqb_eq. apply Z.bits_inj'. intros n Hn.
    rewrite Z.land_spec, Z.bits_0.
    destruct (Z.eq_dec n k) as [->|Hne]; [rewrite Ht; reflexivity|].
    rewrite Z.pow2_bits_false by lia. apply andb_false_r.
Qed.

Lemma SetOption_options (C : Renderer -> Renderer) (o : Renderer_Option) (enable : bool)
  (r : Renderer) (k : Z) :
  (forall r0, m_options (C r0) = m_options r0) ->
  0 <= k < 64 -> Renderer_Option_bit o = 2 ^ k ->
  forall n, 0 <= n < 64 ->
    Z.testbit (m_options (SetOption C o enable r)) n =
    if Z.eq_dec n k then enable else Z.testbit (m_options r) n.
Proof.
  intros HC Hk Hbit n Hn. unfold SetOption.
  rewrite (GetOption_testbit o k r) by (lia || exact Hbit).
  assert (Hres : forall r1, m_options (match o with
                                       | Render_Upsample_TAA => C r1
                                       | _ => r1
                                       end) = m_options r1)
    by (intros r1; destruct o; try reflexivity; apply HC).
  destruct enable; destruct (Z.testbit (m_options r) k) eqn:Ht; cbn [andb negb].
  - destruct (Z.eq_dec n k) as [->|]; [exact Ht | reflexivity].
  - rewrite Hres. cbn [m_options set_m_options]. unfold u64.
    rewrite Z.mod_pow2_bits_low, Z.lor_spec, Hbit by lia.
    destruct (Z.eq_dec n k) as [->|Hne].
    + rewrite Z.pow2_bits_true by lia. apply orb_true_r.
    + rewrite Z.pow2_bits_false by lia. apply orb_false_r.
  - rewrite Hres. cbn [m_options set_m_options]. unfold u64.
    rewrite Z.land_spec, Z.mod_pow2_bits_low, Z.lnot_spec, Hbit by lia.
    destruct (Z.eq_dec n k) as [->|Hne].
    + rewrite Z.pow2_bits_true by lia. apply andb_false_r.
    + rewrite Z.pow2_bits_false by lia. apply andb_true_r.
  - destruct (Z.eq_dec n k) as [->|]; [exact Ht | reflexivity].
Qed.

(** An option reads back as it was set, and setting it leaves every other
    option as it was (as long as re-creating the render textures does not
    write the options). *)
Theorem SetOption_round_trip (C : Renderer -> Renderer) (o o' : Renderer_Option)
  (enable : bool) (r : Renderer) :
  (forall r0, m_options (C r0) = m_options r0) ->
  GetOption o (SetOption C o enable r) = enable /\
  (o' <> o -> GetOption o' (SetOption C o enable r) = GetOption o' r).
Proof.
  intros HC.
  destruct (Renderer_Option_bit_pow o) as (k & Hk & Hbit).
  destruct (Renderer_Option_bit_pow o') as (k' & Hk' & Hbit').
  split.
  - rewrite (GetOption_testbit o k) by (lia || exact Hbit).
    rewrite (SetOption_options C o enable r k HC Hk Hbit k Hk).
    destruct (Z.eq_dec k k); [reflexivity | contradiction].
  - intros Hne.
    rewrite !(GetOption_testbit o' k') by (lia || exact Hbit').
    rewrite (SetOption_options C o enable r k HC Hk Hbit k' Hk').
    destruct (Z.eq_dec k' k) as [->|]; [|reflexivity].
    exfalso. apply Hne.
    assert (Hsame : Renderer_Option_bit o' = Renderer_Option_bit o) by congruence.
    clear -Hsame. destruct o, o'; try reflexivity; vm_compute in Hsame; discriminate.
Qed.

(** ** Viewport and clearing *)

(** [SetViewport] stores the size; when the size changes it flushes and
    asks for a new orthographic projection, when it does not it leaves the
    renderer untouched, so that a second call with the same size does
    nothing. *)
Theorem Renderer_SetViewport_effect (d : Driver) (width height : float) (r r' : Renderer) :
  Renderer_SetViewport d width height r = Ok r' ->
  m_viewport_width r' = width /\ m_viewport_height r' = height /\
  (m_viewport_width r = width /\ m_viewport_height r = height -> r' = r) /\
  (~ (m_viewport_width r = width /\ m_viewport_height r = height) ->
   m_update_ortho_proj r' = true /\ m_flush_requested r' = false) /\
  (forall d', Renderer_SetViewport d' width height r' = Ok r').
Proof.
  unfold Renderer_SetViewport. intros H.
  destruct (Z.eqb_spec (m_viewport_width r) width) as [Hw|Hw];
    destruct (Z.eqb_spec (m_viewport_height r) height) as [Hh|Hh];
    cbn [negb orb] in H.
  1:{ inversion H; subst r'. split; [exact Hw|]. split; [exact Hh|].
      split; [reflexivity|]. split; [intros Hn; exfalso; apply Hn; split; assumption|].
      intros d'. rewrite Hw, Hh, !Z.eqb_refl. reflexivity. }
  all: bind_in H as r1 E; inversion H; subst r'; clear H;
    apply Renderer_Flush_settings in E as (Hq & Hs & _);
    unfold renderer_settings in Hs; injection Hs as _ _ _ _ _ _ _ Hvw Hvh _;
    cbn [m_viewport_width m_viewport_height set_m_viewport_width set_m_viewport_height]
      in Hvw, Hvh;
    assert (Hvw' : m_viewport_width (set_m_update_ortho_proj true r1) = width) by exact Hvw;
    assert (Hvh' : m_viewport_height (set_m_update_ortho_proj true r1) = height) by exact Hvh;
    (split; [exact Hvw'|]); (split; [exact Hvh'|]);
    (split; [intros [? ?]; contradiction|]);
    (split; [intros _; split; [reflexivity | exact Hq]|]);
    intros d'; rewrite Hvw', Hvh', !Z.eqb_refl; reflexivity.
Qed.


(** ** The further properties at concrete inputs *)

Lemma life_cycle_round_trip_witness :
  exists w',
    run [(Sample.driver, Op_Begin); (Sample.driver, Op_End); (Sample.driver, Op_Submit None);
         (Sample.driver, Op_Wait)] (Sample.world Idle false) = Ok w' /\
    m_state (cmd w') = Idle /\
    m_processed_semaphore (cmd w') = Semaphore_Idle /\
    recorded (cmd w') = [vkCmdResetQueryPool] /\
    submissions (cmd w') = 1%nat.
Proof.
  apply (life_cycle_round_trip Sample.driver None (Sample.world Idle false));
    reflexivity.
Defined.


Lemma draws_after_flush_are_dropped_witness :
  (forall n, Draw Sample.driver n Scenario.flushed = Ok (false, Scenario.flushed)) /\
  (forall a b c,
      DrawIndexed Sample.driver a b c Scenario.flushed = Ok (false, Scenario.flushed)) /\
  (forall x y z async,
      Dispatch Sample.driver x y z async Scenario.flushed = Ok (false, Scenario.flushed)).
Proof.
  apply (draws_after_flush_are_dropped Sample.driver Sample.driver true
           (Sample.world Recording true) Scenario.flushed).
  - vm_compute; reflexivity.
  - discriminate.
  - vm_compute; reflexivity.
Defined.

Lemma Submit_without_presentation_submits_nothing_witness :
  exists w',
    Submit Scenario.refusing None Scenario.minimised = Ok (true, w') /\
    m_state (cmd w') = Submitted /\
    submissions (cmd w') = submissions (cmd Scenario.minimised) /\
    m_processed_semaphore (cmd w') = m_processed_semaphore (cmd Scenario.minimised) /\
    recorded (cmd w') = recorded (cmd Scenario.minimised) /\
    log w' = log Scenario.minimised.
Proof.
  apply (Submit_without_presentation_submits_nothing Scenario.refusing None
           Scenario.minimised); reflexivity.
Defined.


Lemma SetLayout_transition_witness :
  exists (w' : World) (t' : RHI_Texture),
    SetLayout Shader_Read_Only_Optimal true (-1) true Sample.frame_output
      (Sample.world Recording true) = Ok w' /\
    recorded (cmd w') =
      [vkCmdPipelineBarrier Sample.frame_output 0 1 1 Color_Attachment_Optimal
         Shader_Read_Only_Optimal] /\
    m_rhi_pipeline_barriers (profiler w') = 1 /\
    textures w' !! Sample.frame_output = Some t' /\
    (forall i : nat,
        m_layout t' !! i =
        if decide (0 <= Z.of_nat i < 0 + 1)
        then Some Shader_Read_Only_Optimal
        else m_layout (Sample.texture Color_Attachment_Optimal) !! i) /\
    (forall other : nat, other <> Sample.frame_output ->
       textures w' !! other = textures (Sample.world Recording true) !! other).
Proof.
  apply (SetLayout_transition Shader_Read_Only_Optimal Color_Attachment_Optimal (-1) true
           Sample.frame_output (Sample.texture Color_Attachment_Optimal)
           (Sample.world Recording true)).
  - reflexivity.
  - split; [left; reflexivity | vm_compute; repeat split; discriminate].
  - reflexivity.
  - discriminate.
  - discriminate.
Defined.


Lemma Blit_restores_layouts_witness :
  exists w',
    Blit (Some 0%nat) (Some 1%nat) (Sample.mip_world Recording) = Ok w' /\
    textures w' !! 0%nat = Some (Sample.mip_texture Shader_Read_Only_Optimal) /\
    textures w' !! 1%nat = Some (Sample.mip_texture Color_Attachment_Optimal) /\
    (forall other, other <> 0%nat -> other <> 1%nat ->
       textures w' !! other = textures (Sample.mip_world Recording) !! other) /\
    vkCmdBlitImage 0 1 ∈ recorded (cmd w') /\
    m_state (cmd w') = m_state (cmd (Sample.mip_world Recording)).
Proof.
  apply (Blit_restores_layouts 0 1 (Sample.mip_texture Shader_Read_Only_Optimal)
           (Sample.mip_texture Color_Attachment_Optimal) (Sample.mip_world Recording)).
  - reflexivity.
  - reflexivity.
  - discriminate.
  - repeat split.
  - reflexivity.
  - reflexivity.
  - simpl; lia.
  - simpl; lia.
  - simpl; lia.
  - intros j Hj. exists Shader_Read_Only_Optimal.
    split; [apply lookup_replicate_2; simpl in Hj; lia | discriminate].
  - intros j Hj. exists Color_Attachment_Optimal.
    split; [apply lookup_replicate_2; simpl in Hj; lia | discriminate].
Defined.

Lemma Blit_without_per_mip_views_stops_witness :
  Blit (Some Sample.frame_output) (Some Sample.default_transparent)
    (Sample.world Recording true) = Fault AssertFail.
Proof.
  apply (Blit_without_per_mip_views_stops Sample.frame_output Sample.default_transparent
           (Sample.texture Color_Attachment_Optimal) (Sample.texture Shader_Read_Only_Optimal)
           (Sample.world Recording true)).
  - reflexivity.
  - reflexivity.
  - discriminate.
  - repeat split.
  - reflexivity.
  - simpl; lia.
  - simpl; lia.
  - simpl; lia.
  - intros j Hj. exists Color_Attachment_Optimal.
    split; [apply lookup_replicate_2; simpl in Hj; lia | discriminate].
  - intros j Hj. exists Shader_Read_Only_Optimal.
    split; [apply lookup_replicate_2; simpl in Hj; lia | discriminate].
Defined.



Lemma ClearRenderTarget_inside_render_pass_witness :
  exists w',
    ClearRenderTarget (Some Sample.frame_output) 0 0 false (clear_to opaque_black)
      rhi_load rhi_load Scenario.drawn = Ok w' /\
    cmd w' = cmd Scenario.drawn /\ textures w' = textures Scenario.drawn /\
    profiler w' = profiler Scenario.drawn /\
    log w' =
      log Scenario.drawn ++ [LOG_ERROR "Must only be called outside of a render pass instance"].
Proof.
  apply (ClearRenderTarget_inside_render_pass Sample.frame_output
           (Sample.texture Color_Attachment_Optimal) 0 0 false (clear_to opaque_black)
           rhi_load rhi_load Scenario.drawn).
  - vm_compute; reflexivity.
  - vm_compute; reflexivity.
  - reflexivity.
  - vm_compute; reflexivity.
Defined.

Lemma buffer_binding_is_idempotent_witness :
  (exists w1,
      SetBufferVertex (Some 7) 0 (Sample.world Recording true) = Ok w1 /\
      SetBufferVertex (Some 7) 0 w1 = Ok w1 /\
      m_vertex_buffer_id (cmd w1) = 7 /\ m_vertex_buffer_offset (cmd w1) = 0) /\
  (exists w1,
      SetBufferIndex (Some 7) true 0 (Sample.world Recording true) = Ok w1 /\
      SetBufferIndex (Some 7) true 0 w1 = Ok w1 /\
      m_index_buffer_id (cmd w1) = 7 /\ m_index_buffer_offset (cmd w1) = 0).
Proof.
  apply (buffer_binding_is_idempotent 7 0 true (Sample.world Recording true)).
  reflexivity.
Defined.

Lemma bindings_without_layout_bind_nothing_witness :
  (exists w', SetConstantBuffer 0 7 (Some 10%nat) (Sample.world Recording false) = Ok w' /\
              cache w' = cache (Sample.world Recording false) /\
              cmd w' = cmd (Sample.world Recording false) /\
              exists warning,
                log w' = log (Sample.world Recording false) ++ [LOG_WARNING warning]) /\
  (exists w', SetSampler 0 (Some 10%nat) (Sample.world Recording false) = Ok w' /\
              cache w' = cache (Sample.world Recording false) /\
              cmd w' = cmd (Sample.world Recording false) /\
              exists warning,
                log w' = log (Sample.world Recording false) ++ [LOG_WARNING warning]) /\
  (exists w', SetStructuredBuffer 0 (Some 10%nat) (Sample.world Recording false) = Ok w' /\
              cache w' = cache (Sample.world Recording false) /\
              cmd w' = cmd (Sample.world Recording false) /\
              exists warning,
                log w' = log (Sample.world Recording false) ++ [LOG_WARNING warning]).
Proof.
  apply (bindings_without_layout_bind_nothing 0 7 10 (Sample.world Recording false));
    reflexivity.
Defined.


Lemma RenderablesSort_orders_larger_buckets_witness :
  depth_sorted Sample.math (Sample.camera (0, 0, 0))
    (RenderablesSort Sample.math (Some (Sample.camera (0, 0, 0))) Scenario.bucket) /\
  Permutation (RenderablesSort Sample.math (Some (Sample.camera (0, 0, 0))) Scenario.bucket)
    Scenario.bucket.
Proof.
  apply (RenderablesSort_orders_larger_buckets Sample.math (Sample.camera (0, 0, 0))
           Scenario.bucket).
  simpl; lia.
Defined.

Lemma Renderer_Flush_serves_request_witness :
  m_flush_requested Scenario.after_flush = false /\
  m_is_rendering_allowed Scenario.after_flush = m_is_rendering_allowed Scenario.ticked /\
  m_swap_chain Scenario.after_flush = m_swap_chain Scenario.ticked /\
  m_frame_num Scenario.after_flush = m_frame_num Scenario.ticked /\
  m_cmd_current Scenario.after_flush = m_cmd_current Scenario.ticked /\
  length (m_cmd_lists Scenario.after_flush) = length (m_cmd_lists Scenario.ticked).
Proof.
  apply (Renderer_Flush_serves_request Sample.driver Scenario.ticked Scenario.after_flush).
  vm_compute; reflexivity.
Defined.

Lemma Renderer_Flush_idles_current_list_witness :
  exists (r' : Renderer) (cl' : RHI_CommandList),
    Renderer_Flush Sample.driver Scenario.ticked = Ok r' /\
    m_cmd_lists r' !! 0%nat = Some cl' /\
    m_state cl' = Idle /\
    m_flushed cl' = true /\
    m_flush_requested r' = false.
Proof.
  apply (Renderer_Flush_idles_current_list Sample.driver Scenario.ticked 0
           Scenario.ticked_list).
  - vm_compute; reflexivity.
  - vm_compute; reflexivity.
  - vm_compute; reflexivity.
  - reflexivity.
  - reflexivity.
  - reflexivity.
  - intros _ _. vm_compute; reflexivity.
Defined.

Lemma command_lists_round_robin_witness :
  exists r',
    acquire_command_lists 5 (Sample.renderer true None Entities_clear) = Ok r' /\
    m_cmd_index r' = 4 mod 3 /\
    m_cmd_current r' = Some (Z.to_nat (4 mod 3)) /\
    (4 mod 3 = 0 -> dynamic_offsets r' = (0, 0, 0, 0)).
Proof.
  apply (command_lists_round_robin (Sample.renderer true None Entities_clear) 3 4).
  - reflexivity.
  - lia.
  - reflexivity.
Defined.

Lemma update_fails_when_map_fails_witness :
  exists u,
    update_and_rebind Z.eqb Scenario.no_map 2 3 (Some 10%nat) (Sample.world Recording true)
      (Sample.constant_buffer 4) 7 5 1 = Ok u /\
    upd_result u = false /\
    upd_offset_index u = 2 /\
    log (upd_world u) = [LOG_ERROR "Failed to map buffer"].
Proof.
  destruct (update_fails_when_map_fails Z.eqb Scenario.no_map 2 3 (Some 10%nat)
              (Sample.world Recording true) (Sample.constant_buffer 4) 7 5 1)
    as (u & Hu & Hr & _ & Hi & _ & _ & _ & Hl).
  - reflexivity.
  - reflexivity.
  - reflexivity.
  - exists u. split; [exact Hu|]. split; [exact Hr|]. split; [exact Hi | exact Hl].
Defined.

Lemma static_buffer_is_written_in_place_witness :
  exists u,
    update_dynamic_buffer Z.eqb Sample.driver (Sample.world Recording true)
      Scenario.static_buffer 7 5 0 = Ok u /\
    upd_result u = true /\
    upd_world u = Sample.world Recording true /\
    m_mapped (upd_buffer_gpu u) !! 0 = Some 7.
Proof.
  destruct (static_buffer_is_written_in_place Z.eqb Sample.driver
              (Sample.world Recording true) Scenario.static_buffer 7 5 0)
    as (u & Hu & Hr & Hw & Hm & _).
  - reflexivity.
  - reflexivity.
  - reflexivity.
  - exists u. split; [exact Hu|]. split; [exact Hr|]. split; [exact Hw|].
    rewrite Hm. apply lookup_insert_eq.
Defined.

Lemma update_fails_when_buffer_cannot_grow_witness :
  exists u,
    update_and_rebind Z.eqb Scenario.no_create 2 3 (Some 10%nat) (Sample.world Recording true)
      (Sample.constant_buffer 4) 7 5 3 = Ok u /\
    upd_result u = false /\
    GetOffsetCount (upd_buffer_gpu u) = 4 /\
    flushed_once (Sample.world Recording true) (upd_world u) /\
    log (upd_world u) = [LOG_ERROR "Failed to re-allocate buffer"].
Proof.
  destruct (update_fails_when_buffer_cannot_grow Z.eqb Scenario.no_create 2 3 (Some 10%nat)
              (Sample.world Recording true) (Sample.constant_buffer 4) 7 5 3)
    as (u & Hu & Hr & Hb & _ & Honce & _ & Hl).
  - reflexivity.
  - reflexivity.
  - discriminate.
  - reflexivity.
  - reflexivity.
  - reflexivity.
  - reflexivity.
  - reflexivity.
  - reflexivity.
  - reflexivity.
  - intros _ _; reflexivity.
  - exists u. split; [exact Hu|]. split; [exact Hr|].
    split; [rewrite Hb; reflexivity|]. split; [exact Honce | exact Hl].
Defined.

Lemma repeated_transform_uploads_nothing_witness :
  exists r',
    SetGlobalShaderObjectTransform Sample.driver (Some 0%nat) [] Scenario.recording = Ok r' /\
    m_cb_uber_offset_index r' = 0 /\
    m_cmd_lists r' !! 0%nat = Some (Sample.command_list Recording).
Proof.
  destruct (repeated_transform_uploads_nothing Sample.driver 0 (Sample.command_list Recording)
              [] Scenario.recording)
    as (r' & Hr & Hi & _ & _ & _ & Hl & _).
  - reflexivity.
  - reflexivity.
  - reflexivity.
  - reflexivity.
  - exists r'. split; [exact Hr|]. split; [exact Hi | exact Hl].
Defined.

Lemma SetOption_round_trip_witness :
  GetOption Render_Ssao (SetOption (fun r => r) Render_Ssao true Sample.scene) = true /\
  GetOption Render_Upsample_TAA (SetOption (fun r => r) Render_Ssao true Sample.scene)
  = GetOption Render_Upsample_TAA Sample.scene.
Proof.
  destruct (SetOption_round_trip (fun r => r) Render_Ssao Render_Upsample_TAA true Sample.scene)
    as [Hset Hother].
  - intros r0. reflexivity.
  - split; [exact Hset|]. apply Hother. discriminate.
Defined.


Lemma Renderer_SetViewport_effect_witness :
  Renderer_SetViewport Sample.driver 32000 32000 Sample.scene = Ok Scenario.resized /\
  m_viewport_width Scenario.resized = 32000 /\
  m_viewport_height Scenario.resized = 32000 /\
  m_update_ortho_proj Scenario.resized = true.
Proof.
  assert (Hcall : Renderer_SetViewport Sample.driver 32000 32000 Sample.scene
                  = Ok Scenario.resized) by (vm_compute; reflexivity).
  destruct (Renderer_SetViewport_effect Sample.driver 32000 32000 Sample.scene
              Scenario.resized Hcall) as (Hw & Hh & _ & Hchanged & _).
  split; [exact Hcall|]. split; [exact Hw|]. split; [exact Hh|].
  apply Hchanged. intros [Hsame _]. vm_compute in Hsame. discriminate.
Defined.

